(** * AED Patient Data Management System: the table operations of [app.py]

    [app.py] is a Streamlit script: every user interaction runs it from the
    top, so one run is "load the CSV into [df], then perform the action of the
    selected menu entry".  This development embeds

    - the fragment of pandas the script relies on (a data frame of cells,
      column selection, boolean-mask selection, [.at] assignment, [map],
      [sum], [mean], [to_csv], [read_csv]),
    - the five menu branches of the script that read or write the table
      (dashboard metrics, search, filter, modify, delete), and
    - a file system holding the CSV files the script reads and writes,

    and proves the properties of these operations.

    Scope of the pandas model.  A cell is an integer of an int64 (or uint64)
    column, an integral value of a float64 column, a string of a text column,
    or the missing value; the behaviour is that of pandas 3, where a text
    column takes no number and a number column no text.  The mean and its
    rounding are computed in float64, every operation rounding its exact
    result to the nearest float64, ties to even.  [read_csv] knows the
    integers (with their int64 and uint64 ranges), the decimals that end in
    [.0], the spellings of the missing value and text; numerals with a
    fraction or an exponent, infinities and truth values, which pandas reads
    as numbers and booleans, are not modelled (the model keeps them as text),
    and neither is the renaming of empty and repeated header fields: the
    properties that depend on either say so in their hypotheses.  A CSV file
    is the grid of its field texts (header line and records); the quoting of
    delimiters inside a field is below the level of the model.  The row labels
    of a frame are its positions: the script only ever indexes a frame that
    [read_csv] has just produced. *)

From Stdlib Require Import ZArith QArith Qround Qabs Qpower Qreduction Lqa.
From Stdlib Require Import Ascii DecimalString DecimalPos DecimalZ.
From stdpp Require Import base list strings gmap.

Open Scope Z_scope.

(** ** Python results: a value or a raised exception *)

Module Py.

Inductive exn :=
  | KeyError (key : string)
  | TypeError
  | ValueError
  | IndexError
  | ParserError
  | EmptyDataError
  | FileNotFoundError (path : string)
  | StreamlitInvalidMinMaxError
  | StreamlitJSNumberBoundsError.

Inductive result (A : Type) :=
  | Ok (a : A)
  | Raise (e : exn).
Arguments Ok {A} a.
Arguments Raise {A} e.

#[global] Instance result_ret : MRet result := λ A a, Ok a.
#[global] Instance result_bind : MBind result := λ A B f m,
  match m with Ok a => f a | Raise e => Raise e end.
#[global] Instance result_fmap : FMap result := λ A B f m,
  match m with Ok a => Ok (f a) | Raise e => Raise e end.

(** [[f(x) for x in xs]] where [f] may raise: the first exception wins. *)
Fixpoint traverse {A B} (f : A → result B) (xs : list A) : result (list B) :=
  match xs with
  | [] => Ok []
  | x :: xs' => y ← f x; ys ← traverse f xs'; Ok (y :: ys)
  end.

(** *** Numerals *)

(** [str(z)]: an optional minus sign and digits. *)
Definition str_of_int (z : Z) : string := NilZero.string_of_int (Z.to_int z).

(** The ASCII whitespace: tab, line feed, vertical tab, form feed, carriage
    return and space. *)
Definition is_space (a : ascii) : bool :=
  let n := N_of_ascii a in (((9 <=? n) && (n <=? 13)) || (n =? 32))%N.

Fixpoint lstrip (s : string) : string :=
  match s with
  | String a s' => if is_space a then lstrip s' else s
  | EmptyString => EmptyString
  end.

Fixpoint rstrip (s : string) : string :=
  match s with
  | String a s' =>
      match rstrip s' with
      | EmptyString => if is_space a then EmptyString else String a EmptyString
      | r => String a r
      end
  | EmptyString => EmptyString
  end.

(** One or more decimal digits. *)
Definition digits (s : string) : option Z :=
  Z.of_uint <$> NilZero.uint_of_string s.

(** An optional sign and digits. *)
Definition signed (s : string) : option Z :=
  match s with
  | String a s' =>
      if Ascii.eqb a "+" then digits s'
      else Z.of_int <$> NilZero.int_of_string s
  | EmptyString => None
  end.

(** Python lets single underscores separate the digits of a numeral: the
    string without them, when each stands between two characters. *)
Fixpoint ungroup (after_digit : bool) (s : string) : option string :=
  match s with
  | EmptyString => if after_digit then Some EmptyString else None
  | String a s' =>
      if Ascii.eqb a "_"
      then (if after_digit then ungroup false s' else None)
      else String a <$> ungroup true s'
  end.

(** [int(s)] on a string: surrounding whitespace, an optional sign, digits.
    (Of the whitespace and the digits of Unicode, the ASCII ones.) *)
Definition int_of_str (s : string) : option Z :=
  match rstrip (lstrip s) with
  | String a s' =>
      if Ascii.eqb a "-" then Z.opp <$> (ungroup false s' ≫= digits)
      else if Ascii.eqb a "+" then ungroup false s' ≫= digits
      else ungroup false (String a s') ≫= digits
  | EmptyString => None
  end.

(** *** Floats *)

(** A Python float: not-a-number or a finite value.  (No computation of the
    script reaches an infinity: the sums of int64 values stay far below the
    largest float64.) *)
Inductive float :=
  | nan
  | fin (q : Q).

(** Rounding to the nearest integer, ties to the even one (the rule of
    float64 arithmetic and of numpy's [rint]). *)
Definition round_half_even (q : Q) : Z :=
  let f := Qfloor q in
  match Qcompare (q - inject_Z f) (1 # 2) with
  | Lt => f
  | Gt => f + 1
  | Eq => if Z.even f then f else f + 1
  end.

Definition pow2 (e : Z) : Q := (2 ^ e)%Q.

(** The exponent of a positive rational: [2^e <= q < 2^(e+1)]. *)
Definition ilog2 (q : Q) : Z :=
  let e := Z.log2 (Qnum q) - Z.log2 (Z.pos (Qden q)) in
  if Qle_bool (pow2 e) q then e else e - 1.

(** The float64 nearest to a rational, ties to the even significand: 53
    significant bits, and no exponent below that of the subnormal numbers.
    Every float64 operation returns its exact result rounded like this. *)
Definition binary64 (q : Q) : Q :=
  if Qeq_bool q 0 then 0%Q
  else
    let e := Z.max (ilog2 (Qabs q) - 52) (-1074) in
    Qred (inject_Z (round_half_even (q / pow2 e)) * pow2 e).

(** [float(z)] for an integer, as an integer again: every float64 of that
    size is one. *)
Definition to_float64 (z : Z) : Z := Qfloor (binary64 (inject_Z z)).

(** numpy's [rint]. *)
Definition rint (q : Q) : Q := inject_Z (round_half_even q).

(** [round(x, ndigits)] for a numpy float64 [x] and [ndigits >= 0]: numpy
    multiplies by the power of ten, rounds to an integer and divides
    again, each step in float64. *)
Definition round (x : float) (ndigits : nat) : float :=
  match x with
  | nan => nan
  | fin q =>
      let scale := inject_Z (10 ^ Z.of_nat ndigits) in
      fin (binary64 (rint (binary64 (q * scale)) / scale))
  end.

End Py.
Import Py.

(** ** The pandas fragment *)

Module Pandas.

Inductive cell :=
  | Int (z : Z)        (* a value of an int64 column *)
  | Flt (z : Z)        (* an integral value of a float64 column, e.g. 1.0 *)
  | Str (s : string)   (* a string of a text column *)
  | NaN.               (* the missing value *)

#[global] Instance cell_eq_dec : EqDecision cell.
Proof. solve_decision. Defined.

#[global] Instance cell_inhabited : Inhabited cell := populate NaN.

Abbreviation Series := (list cell).
Abbreviation Row := (list cell).

(** A frame: the column labels and the rows, each row holding one cell per
    column, in column order. *)
Record DataFrame := {
  columns : list string;
  rows : list Row
}.

(** [len(df)] *)
Definition len (df : DataFrame) : Z := Z.of_nat (length (rows df)).

(** [df.empty] *)
Definition empty (df : DataFrame) : bool :=
  match rows df with [] => true | _ => false end.

(** Position of a column label; a missing label is a [KeyError]. *)
Definition get_loc (cols : list string) (c : string) : result nat :=
  match list_find (λ x, x = c) cols with
  | Some (j, _) => Ok j
  | None => Raise (KeyError c)
  end.

(** The cell of a row at a column position. *)
Definition cell_at (j : nat) (r : Row) : cell := default NaN (r !! j).

(** [df[c]] *)
Definition getitem (df : DataFrame) (c : string) : result Series :=
  j ← get_loc (columns df) c; Ok (cell_at j <$> rows df).

(** [row[c]] for a row of [df] (a Series indexed by the column labels). *)
Definition row_getitem (df : DataFrame) (r : Row) (c : string) : result cell :=
  j ← get_loc (columns df) c; Ok (cell_at j r).

(** [s == v] and [s != v] against a Python string: elementwise, no coercion;
    a number or a missing value never equals a string. *)
Definition Series_eq (s : Series) (v : string) : list bool :=
  (λ c, bool_decide (c = Str v)) <$> s.

Definition Series_ne (s : Series) (v : string) : list bool :=
  (λ c, negb (bool_decide (c = Str v))) <$> s.

(** [c >= n] and [c <= n] against a Python int: a missing value compares
    false, a string cannot be ordered against an int. *)
Definition cell_ge (n : Z) (c : cell) : result bool :=
  match c with
  | Int z | Flt z => Ok (n <=? z)
  | NaN => Ok false
  | Str _ => Raise TypeError
  end.

Definition cell_le (n : Z) (c : cell) : result bool :=
  match c with
  | Int z | Flt z => Ok (z <=? n)
  | NaN => Ok false
  | Str _ => Raise TypeError
  end.

Definition Series_ge (s : Series) (n : Z) : result (list bool) :=
  traverse (cell_ge n) s.

Definition Series_le (s : Series) (n : Z) : result (list bool) :=
  traverse (cell_le n) s.

(** [m1 & m2] *)
Definition mask_and (m1 m2 : list bool) : list bool := zip_with andb m1 m2.

(** The rows selected by a boolean mask, in their order. *)
Fixpoint select {A} (mask : list bool) (xs : list A) : list A :=
  match mask, xs with
  | b :: mask', x :: xs' => if b then x :: select mask' xs' else select mask' xs'
  | _, _ => []
  end.

(** [df[mask]] *)
Definition getitem_mask (df : DataFrame) (mask : list bool) : DataFrame :=
  {| columns := columns df; rows := select mask (rows df) |}.

(** [v in s.values] *)
Definition isin_values (v : string) (s : Series) : bool :=
  bool_decide (Str v ∈ s).

(** [df.iloc[0]] *)
Definition iloc0 (df : DataFrame) : result Row :=
  match rows df with
  | r :: _ => Ok r
  | [] => Raise IndexError
  end.

(** [df.index[mask][0]]: the label of the first selected row. *)
Definition index_mask_0 (mask : list bool) : result nat :=
  match list_find (λ b, b = true) mask with
  | Some (i, _) => Ok i
  | None => Raise IndexError
  end.

(** The dtypes of the columns. *)
Inductive dtype := int64 | uint64 | float64 | str | object.

(** The dtype of a column, from what it holds: int64 for integers only
    (uint64 when one of them is beyond int64), float64 for numbers and
    missing values, [str] for strings and missing values, [object] for a
    mixture of strings and numbers. *)
Definition dtype_of (s : Series) : dtype :=
  if forallb (λ c, match c with Int _ => true | _ => false end) s then
    if forallb (λ c, match c with Int z => z <? 2 ^ 63 | _ => true end) s
    then int64 else uint64
  else if forallb (λ c, match c with Str _ => false | _ => true end) s then float64
  else if forallb (λ c, match c with Str _ | NaN => true | _ => false end) s then str
  else object.

(** What a value becomes when it is stored into a column of a dtype.  An int
    stored into a float64 column becomes a float; a value the column cannot
    hold without changing its dtype (a number for a text column, text for a
    number column, a negative number for an unsigned column) is a
    [TypeError]. *)
Definition cast (dt : dtype) (v : cell) : result cell :=
  match dt, v with
  | object, _ => Ok v
  | int64, Int _ => Ok v
  | uint64, Int z => if 0 <=? z then Ok v else Raise TypeError
  | float64, Int z => Ok (Flt (to_float64 z))
  | float64, (Flt _ | NaN) => Ok v
  | str, (Str _ | NaN) => Ok v
  | _, _ => Raise TypeError
  end.

(** [df.at[i, c] = v] for a row label [i] of the frame.  An existing column is
    overwritten at that row, the value taking the column's dtype; a new label
    adds a column that is missing in every other row. *)
Definition at_set (df : DataFrame) (i : nat) (c : string) (v : cell)
  : result DataFrame :=
  match list_find (λ x, x = c) (columns df) with
  | Some (j, _) =>
      v' ← cast (dtype_of (cell_at j <$> rows df)) v;
      Ok {| columns := columns df;
            rows := alter (λ r, <[j := v']> r) i (rows df) |}
  | None =>
      Ok {| columns := columns df ++ [c];
            rows := imap (λ k r, r ++ [if decide (k = i) then v else NaN]) (rows df) |}
  end.

(** [df[c] = s] for a series of the frame's length: replaces the column in
    place when the label exists, appends it as the last column otherwise. *)
Definition setitem (df : DataFrame) (c : string) (s : Series) : DataFrame :=
  match list_find (λ x, x = c) (columns df) with
  | Some (j, _) =>
      {| columns := columns df;
         rows := zip_with (λ r v, <[j := v]> r) (rows df) s |}
  | None =>
      {| columns := columns df ++ [c];
         rows := zip_with (λ r v, r ++ [v]) (rows df) s |}
  end.

(** [s.map(d)] for a dict [d] from strings to ints: a key of the dict maps to
    its value, anything else to the missing value.  The result is an int64
    series when every element was mapped and a float64 series otherwise. *)
Definition Series_map (d : list (string * Z)) (s : Series) : Series :=
  let look (c : cell) : option Z :=
    match c with
    | Str k => (λ p, p.2.2) <$> list_find (λ kv, kv.1 = k) d
    | _ => None
    end in
  let mapped := look <$> s in
  if forallb (λ o, bool_decide (is_Some o)) mapped
  then (λ o, from_option Int NaN o) <$> mapped
  else (λ o, from_option Flt NaN o) <$> mapped.

(** [s.sum()]: the sum of the numbers, skipping missing values. *)
Fixpoint Series_sum (s : Series) : result Z :=
  match s with
  | [] => Ok 0
  | c :: s' =>
      t ← Series_sum s';
      match c with
      | Int z | Flt z => Ok (z + t)
      | NaN => Ok t
      | Str _ => Raise TypeError
      end
  end.

(** The numbers of a series, skipping missing values. *)
Fixpoint numbers (s : Series) : result (list Z) :=
  match s with
  | [] => Ok []
  | c :: s' =>
      zs ← numbers s';
      match c with
      | Int z | Flt z => Ok (z :: zs)
      | NaN => Ok zs
      | Str _ => Raise TypeError
      end
  end.

(** The float64 sum of numbers: each is converted to float64 and added to the
    sum so far.  (numpy adds long arrays in blocks and pairs; whenever
    float64 holds the partial sums exactly, the order makes no difference.) *)
Definition float_sum (zs : list Z) : Q :=
  foldl (λ acc z, binary64 (acc + binary64 (inject_Z z))) 0%Q zs.

(** [s.mean()]: the float64 sum of the numbers divided by their count,
    skipping missing values; not-a-number when there is no number (pandas
    tests the count, no division takes place). *)
Definition Series_mean (s : Series) : result float :=
  zs ← numbers s;
  match zs with
  | [] => Ok nan
  | _ => Ok (fin (binary64 (float_sum zs / inject_Z (Z.of_nat (length zs)))))
  end.

(** [int(c)] for a cell read out of a row. *)
Definition int (c : cell) : result Z :=
  match c with
  | Int z | Flt z => Ok z
  | NaN => Raise ValueError
  | Str s => from_option Ok (Raise ValueError) (int_of_str s)
  end.

End Pandas.
Import Pandas.

(** ** CSV files: [to_csv] and [read_csv] *)

Module Csv.

(** The fields of a CSV file: the header line and the records below it.  A
    record without any field is a blank line. *)
Record File := {
  header : list string;
  records : list (list string)
}.

(** The text [to_csv] writes for a cell: integers in decimal, float64 values
    with their fraction digit (below 10^16, where the exponent notation
    starts), strings as they are, nothing for a missing value. *)
Definition render (c : cell) : string :=
  match c with
  | Int z => str_of_int z
  | Flt z => str_of_int z +:+ ".0"
  | Str s => s
  | NaN => ""
  end.

(** [df.to_csv(path, index=False)]: every column of the frame, in order. *)
Definition to_csv (df : DataFrame) : File :=
  {| header := columns df; records := (λ r : Row, render <$> r) <$> rows df |}.

(** The texts [read_csv] takes for a missing value. *)
Definition na_values : list string :=
  [ ""; "#N/A"; "#N/A N/A"; "#NA"; "-1.#IND"; "-1.#QNAN"; "-NaN"; "-nan";
    "1.#IND"; "1.#QNAN"; "<NA>"; "N/A"; "NA"; "NULL"; "NaN"; "None"; "n/a";
    "nan"; "null" ].

Definition is_na (s : string) : bool := bool_decide (s ∈ na_values).

(** An integer as the reader takes it: whitespace around it, an optional
    sign, digits. *)
Definition integer_of_text (s : string) : option Z := signed (rstrip (lstrip s)).

Definition is_int (s : string) : bool := bool_decide (is_Some (integer_of_text s)).

(** The text starts with a minus sign. *)
Definition minus (s : string) : bool :=
  match lstrip s with String a _ => Ascii.eqb a "-" | EmptyString => false end.

(** The integer part of a numeral that ends in [.0]. *)
Fixpoint int_part (s : string) : option string :=
  match s with
  | EmptyString => None
  | String a s' =>
      if String.eqb s ".0" then Some EmptyString else String a <$> int_part s'
  end.

(** An integral decimal: an integer followed by [.0]. *)
Definition decimal_of_text (s : string) : option Z :=
  int_part (rstrip (lstrip s)) ≫= signed.

Definition is_float (s : string) : bool :=
  bool_decide (is_Some (decimal_of_text s)).

(** How an attempt to convert a column ends: with every text converted, at
    an integer out of range, or at a text that is no such number. *)
Inductive attempt := Converted | Overflow | Invalid.

(** The reader tries int64 first, text by text, skipping missing values. *)
Fixpoint try_int64 (texts : list string) : attempt :=
  match texts with
  | [] => Converted
  | t :: texts' =>
      if is_na t then try_int64 texts'
      else match integer_of_text t with
           | Some z =>
               if bool_decide (- 2 ^ 63 ≤ z < 2 ^ 63) then try_int64 texts'
               else Overflow
           | None => Invalid
           end
  end.

(** After an int64 overflow it tries uint64, noting the negative numbers. *)
Fixpoint try_uint64 (texts : list string) : attempt :=
  match texts with
  | [] => Converted
  | t :: texts' =>
      if is_na t || minus t then try_uint64 texts'
      else match integer_of_text t with
           | Some z => if bool_decide (z < 2 ^ 64) then try_uint64 texts' else Overflow
           | None => Invalid
           end
  end.

(** The dtype [read_csv] gives a column, from its texts.  Integers within
    int64 make an int64 column, and a float64 column when a value is missing.
    Integers beyond int64 make a uint64 column when all of them fit and none
    is negative or missing, and are left as text otherwise.  A column of
    numbers and missing values is float64, any other column text. *)
Definition infer (texts : list string) : dtype :=
  let floating :=
    if forallb (λ s, is_na s || is_int s || is_float s) texts then float64 else str in
  match try_int64 texts with
  | Converted => if existsb is_na texts then float64 else int64
  | Overflow =>
      match try_uint64 texts with
      | Converted => if existsb (λ t, is_na t || minus t) texts then str else uint64
      | Overflow => str
      | Invalid => floating
      end
  | Invalid => floating
  end.

Definition parse (dt : dtype) (s : string) : cell :=
  match dt with
  | int64 | uint64 => from_option Int NaN (integer_of_text s)
  | float64 =>
      if is_na s then NaN
      else match integer_of_text s with
           | Some z => Flt (to_float64 z)
           | None => from_option (λ z, Flt (to_float64 z)) NaN (decimal_of_text s)
           end
  | str | object => if is_na s then NaN else Str s
  end.

(** The texts of the column at position [j]; a record that ends before the
    column has nothing there. *)
Definition column_texts (recs : list (list string)) (j : nat) : list string :=
  (λ r : list string, default "" (r !! j)) <$> recs.

(** [pd.read_csv(path)] on the fields of the file.  A file without a header is
    an [EmptyDataError].  Blank lines are skipped; a record with fewer fields
    than the header is filled up with missing values, one with more fields is
    reported as a [ParserError]. *)
Definition read_csv (f : File) : result DataFrame :=
  match header f with
  | [] => Raise EmptyDataError
  | _ =>
      let n := length (header f) in
      let recs := filter (λ r : list string, r ≠ []) (records f) in
      if forallb (λ r : list string, bool_decide (length r ≤ n)%nat) recs
      then
        let dtypes := (λ j, infer (column_texts recs j)) <$> seq 0 n in
        Ok {| columns := header f;
              rows := (λ r : list string,
                         zip_with parse dtypes (r ++ replicate (n - length r) ""))
                      <$> recs |}
      else Raise ParserError
  end.

End Csv.
Import Csv.

(** ** The script *)

Module App.

Definition LOG_FILE : string := "activity_log.txt".
Definition DATA_FILE : string := "AED4weeks.csv".

(** What a run works on: the frame [df], the CSV files on disk, and the lines
    of [LOG_FILE]. *)
Record State := {
  df : DataFrame;
  files : gmap string File;
  log_file : list string
}.

(** The messages a branch shows. *)
Inductive message :=
  | st_error (text : string)
  | st_warning (text : string)
  | st_success (text : string)
  | st_info (text : string).

(** [log_action(action)], with [timestamp] the formatted reading of the clock:
    one line appended to the log file. *)
Definition log_action (timestamp action : string) (st : State) : State :=
  {| df := df st;
     files := files st;
     log_file := log_file st ++ ["[" +:+ timestamp +:+ "] " +:+ action] |}.

(** *** Load dataset (lines 28-40) *)

Definition breach_dict : list (string * Z) := [("non-breach", 0); ("breach", 1)].

(** [None] is the run that stops with "AED4weeks.csv not found in the current
    directory." *)
Definition load_dataset (fs : gmap string File) : result (option DataFrame) :=
  match fs !! DATA_FILE with
  | None => Ok None
  | Some f =>
      d ← read_csv f;
      b ← getitem d "Breachornot";
      Ok (Some (setitem d "Breach_binary" (Series_map breach_dict b)))
  end.

(** *** Dashboard: the three metrics (lines 70-72) *)

Record Metrics := {
  total_patients : Z;
  breach_cases : Z;
  average_length_of_stay : float
}.

Definition dashboard_metrics (d : DataFrame) : result Metrics :=
  let total := len d in
  bb ← getitem d "Breach_binary";
  breaches ← Series_sum bb;
  los ← getitem d "LoS";
  m ← Series_mean los;
  Ok {| total_patients := total;
        breach_cases := breaches;
        average_length_of_stay := round m 2 |}.

(** *** Search Patient by ID (lines 98-109) *)

Definition search_patient_by_id (timestamp patient_id : string) (st : State)
  : result (message * option DataFrame * State) :=
  ids ← getitem (df st) "ID";
  let result := getitem_mask (df st) (Series_eq ids patient_id) in
  if empty result then
    Ok (st_warning "No patient found with this ID.", None,
        log_action timestamp
          ("Searched Patient ID " +:+ patient_id +:+ " – Not found") st)
  else
    Ok (st_success "Patient record found.", Some result,
        log_action timestamp ("Retrieved Patient ID " +:+ patient_id) st).

(** *** Filter Patients: the selection (lines 117-135) *)

Definition numeric_columns : list string :=
  ["Age"; "LoS"; "noofinvestigation"; "nooftreatment"; "noofpatients"].

(** [column] is the entry of [numeric_columns] picked in the select box and
    [selected_range] the pair of bounds set on the slider. *)
Definition filtered_df (d : DataFrame) (column : string) (selected_range : Z * Z)
  : result DataFrame :=
  s ← getitem d column;
  ge ← Series_ge s selected_range.1;
  s' ← getitem d column;
  le ← Series_le s' selected_range.2;
  Ok (getitem_mask d (mask_and ge le)).

(** *** Modify Patient Data (lines 145-192) *)

Inductive Breach := non_breach | breach.

Definition breach_label (b : Breach) : string :=
  match b with non_breach => "non-breach" | breach => "breach" end.

(** The values of the form's widgets when the branch runs.  A number input
    holds an integer below 2^53 in magnitude. *)
Record Form := {
  age : Z;
  los : Z;
  investigations : Z;
  treatments : Z;
  breach_choice : Breach
}.

(** [os.replace(src, dst)] *)
Definition os_replace (src dst : string) (fs : gmap string File)
  : result (gmap string File) :=
  match fs !! src with
  | Some f => Ok (<[dst := f]> (delete src fs))
  | None => Raise (FileNotFoundError src)
  end.

(** Lines 174-181: the five assignments to the first row whose ID matches. *)
Definition update_record (d : DataFrame) (patient_id : string) (form : Form)
  : result DataFrame :=
  ids ← getitem d "ID";
  row_index ← index_mask_0 (Series_eq ids patient_id);
  d ← at_set d row_index "Age" (Int (age form));
  d ← at_set d row_index "LoS" (Int (los form));
  d ← at_set d row_index "noofinvestigation" (Int (investigations form));
  d ← at_set d row_index "nooftreatment" (Int (treatments form));
  at_set d row_index "Breachornot" (Str (breach_label (breach_choice form))).

(** Lines 184-186: write the frame to a temporary file and move it over the
    data file. *)
Definition save_safely (d : DataFrame) (fs : gmap string File)
  : result (gmap string File) :=
  let temp_file := "AED4weeks_temp.csv" in
  os_replace temp_file DATA_FILE (<[temp_file := to_csv d]> fs).

Definition modify_patient_data (timestamp patient_id : string) (form : Form)
    (update_clicked : bool) (st : State) : result (option message * State) :=
  ids ← getitem (df st) "ID";
  if isin_values patient_id ids then
    patient ← iloc0 (getitem_mask (df st) (Series_eq ids patient_id));
    (* the widgets are created with the stored values as defaults *)
    _ ← row_getitem (df st) patient "Age" ≫= int;
    _ ← row_getitem (df st) patient "LoS" ≫= int;
    _ ← row_getitem (df st) patient "noofinvestigation" ≫= int;
    _ ← row_getitem (df st) patient "nooftreatment" ≫= int;
    _ ← row_getitem (df st) patient "Breachornot";
    if update_clicked then
      d ← update_record (df st) patient_id form;
      fs ← save_safely d (files st);
      Ok (Some (st_success "Patient record updated successfully."),
          log_action timestamp ("Modified Patient ID " +:+ patient_id)
            {| df := d; files := fs; log_file := log_file st |})
    else Ok (None, st)
  else Ok (Some (st_info "Enter a valid Patient ID to modify."), st).

(** *** Delete Patient Data (lines 201-214) *)

Definition delete_patient_data (timestamp patient_id : string)
    (confirm delete_clicked : bool) (st : State)
  : result (option message * State) :=
  if delete_clicked then
    if negb confirm then
      Ok (Some (st_warning "Please confirm deletion before proceeding."), st)
    else
      ids ← getitem (df st) "ID";
      if isin_values patient_id ids then
        ids' ← getitem (df st) "ID";
        let d := getitem_mask (df st) (Series_ne ids' patient_id) in
        let fs := <[DATA_FILE := to_csv d]> (files st) in
        Ok (Some (st_success "Patient record deleted successfully."),
            log_action timestamp ("Deleted Patient ID " +:+ patient_id)
              {| df := d; files := fs; log_file := log_file st |})
      else
        Ok (Some (st_warning "Patient ID not found."),
            log_action timestamp
              ("Attempted delete for Patient ID " +:+ patient_id +:+ " – Not found")
              st)
  else Ok (None, st).

End App.
Import App.

(** ** Vocabulary of the properties *)

(** The cell of row [r] of frame [d] under the column label [c]. *)
Definition field (d : DataFrame) (c : string) (r : Row) : cell :=
  match get_loc (columns d) c with
  | Ok j => cell_at j r
  | Raise _ => NaN
  end.

(** The number a cell holds, if it holds one. *)
Definition number (c : cell) : option Z :=
  match c with
  | Int z | Flt z => Some z
  | _ => None
  end.

Definition is_number (c : cell) : Prop := is_Some (number c).

(** No string in the series: its cells are numbers or missing. *)
Definition numeric (s : Series) : Prop := Forall (λ c, ∀ t, c ≠ Str t) s.

(** Every row has one cell per column. *)
Definition rectangular (d : DataFrame) : Prop :=
  Forall (λ r : Row, length r = length (columns d)) (rows d).

(** The columns the update form writes. *)
Definition updated_columns : list string :=
  ["Age"; "LoS"; "noofinvestigation"; "nooftreatment"; "Breachornot"].

(** A small data file and the state of a run that has loaded it. *)
Definition sample_file : File :=
  {| header := ["ID"; "Age"; "LoS"; "noofinvestigation"; "nooftreatment";
                "noofpatients"; "Breachornot"];
     records := [ ["P1"; "34"; "10"; "1"; "2"; "5"; "non-breach"];
                  ["P2"; "61"; "20"; "3"; "1"; "7"; "breach"];
                  ["P3"; "45"; "30"; "2"; "2"; "9"; "breach"] ] |}.

Definition sample_files : gmap string File := {[ DATA_FILE := sample_file ]}.

Definition sample_df : DataFrame :=
  {| columns := ["ID"; "Age"; "LoS"; "noofinvestigation"; "nooftreatment";
                 "noofpatients"; "Breachornot"; "Breach_binary"];
     rows := [ [Str "P1"; Int 34; Int 10; Int 1; Int 2; Int 5; Str "non-breach"; Int 0];
               [Str "P2"; Int 61; Int 20; Int 3; Int 1; Int 7; Str "breach"; Int 1];
               [Str "P3"; Int 45; Int 30; Int 2; Int 2; Int 9; Str "breach"; Int 1] ] |}.

Definition sample_state : State :=
  {| df := sample_df; files := sample_files; log_file := [] |}.

(** The values entered in the update form. *)
Definition sample_form : Form :=
  {| age := 35; los := 12; investigations := 1; treatments := 2;
     breach_choice := breach |}.

(** The sample table after the form has set P1 to "breach": the derived
    column still holds the value computed when the file was loaded. *)
Definition stale_df : DataFrame :=
  {| columns := columns sample_df;
     rows := [ [Str "P1"; Int 35; Int 12; Int 1; Int 2; Int 5; Str "breach"; Int 0];
               [Str "P2"; Int 61; Int 20; Int 3; Int 1; Int 7; Str "breach"; Int 1];
               [Str "P3"; Int 45; Int 30; Int 2; Int 2; Int 9; Str "breach"; Int 1] ] |}.

(** What loading gives after [stale_df] has been saved. *)
Definition refreshed_df : DataFrame :=
  {| columns := columns sample_df;
     rows := [ [Str "P1"; Int 35; Int 12; Int 1; Int 2; Int 5; Str "breach"; Int 1];
               [Str "P2"; Int 61; Int 20; Int 3; Int 1; Int 7; Str "breach"; Int 1];
               [Str "P3"; Int 45; Int 30; Int 2; Int 2; Int 9; Str "breach"; Int 1] ] |}.

(** A table whose only ID is a string of digits: what is left of a file with
    the IDs 007 and P2 once P2 has been deleted. *)
Definition digits_df : DataFrame :=
  {| columns := columns sample_df;
     rows := [ [Str "007"; Int 34; Int 10; Int 1; Int 2; Int 5; Str "non-breach"; Int 0] ] |}.

(** A table in which two rows carry the same ID. *)
Definition twins_df : DataFrame :=
  {| columns := columns sample_df;
     rows := [ [Str "P1"; Int 34; Int 10; Int 1; Int 2; Int 5; Str "non-breach"; Int 0];
               [Str "P2"; Int 61; Int 20; Int 3; Int 1; Int 7; Str "breach"; Int 1];
               [Str "P1"; Int 45; Int 30; Int 2; Int 2; Int 9; Str "breach"; Int 1] ] |}.

Definition twins_state : State :=
  {| df := twins_df; files := {[ DATA_FILE := to_csv twins_df ]}; log_file := [] |}.

(** The table of a data file that holds a header and no record. *)
Definition no_rows_df : DataFrame :=
  {| columns := columns sample_df; rows := [] |}.

(** *** The declared record types

    ID and Breachornot are strings, the latter one of the two labels; the five
    counts are integers; Breach_binary is 0 or 1. *)
Definition declared_row (d : DataFrame) (r : Row) : bool :=
  match field d "ID" r with Str _ => true | _ => false end &&
  forallb (λ c, match field d c r with Int _ => true | _ => false end)
    numeric_columns &&
  bool_decide (field d "Breachornot" r ∈ [Str "non-breach"; Str "breach"]) &&
  bool_decide (field d "Breach_binary" r ∈ [Int 0; Int 1]).

Definition declared_types (d : DataFrame) : bool :=
  bool_decide (columns d = columns sample_df) &&
  forallb (λ r : Row, bool_decide (length r = length (columns d))) (rows d) &&
  forallb (declared_row d) (rows d).

(** *** Tables that a CSV file can hold *)

(** A character that is printed: no control character, nothing beyond
    ASCII. *)
Definition printable_char (a : Ascii.ascii) : bool :=
  let n := Ascii.N_of_ascii a in ((32 <=? n) && (n <=? 126))%N.

Fixpoint printable (t : string) : bool :=
  match t with
  | EmptyString => true
  | String a t' => printable_char a && printable t'
  end.

Definition is_letter (a : Ascii.ascii) : bool :=
  let n := Ascii.N_of_ascii a in
  (((65 <=? n) && (n <=? 90)) || ((97 <=? n) && (n <=? 122)))%N.

(** The text in lower case. *)
Fixpoint lower (t : string) : string :=
  match t with
  | EmptyString => EmptyString
  | String a t' =>
      let n := Ascii.N_of_ascii a in
      String (if ((65 <=? n) && (n <=? 90))%N then Ascii.ascii_of_N (n + 32) else a)
        (lower t')
  end.

(** A text that every reader leaves as it is: it is printable, starts with a
    letter, and is no spelling of a missing value, of an infinity, of
    not-a-number or of a truth value. *)
Definition plain_text (t : string) : bool :=
  match t with String a _ => is_letter a | EmptyString => false end &&
  printable t && negb (is_na t) &&
  negb (bool_decide (lower t ∈ ["inf"; "infinity"; "nan"; "true"; "false"])).

(** A column comes back from the file as it went in when it holds int64
    integers only, or floats below 10^15 in magnitude and missing values
    only, or plain texts and missing values only. *)
Definition storable_column (s : Series) : bool :=
  forallb (λ c, match c with
                | Int z => bool_decide (- 2 ^ 63 < z < 2 ^ 63)
                | _ => false
                end) s
  || forallb (λ c, match c with
                   | Flt z => bool_decide (Z.abs z < 10 ^ 15)
                   | NaN => true
                   | _ => false
                   end) s
  || forallb (λ c, match c with
                   | Str t => plain_text t
                   | NaN => true
                   | _ => false
                   end) s.

(** The labels are printable, not empty and pairwise distinct, every row has
    one cell per label, and every column is storable. *)
Definition storable (d : DataFrame) : bool :=
  negb (bool_decide (columns d = [])) &&
  bool_decide (NoDup (columns d)) &&
  forallb (λ c, negb (bool_decide (c = "")) && printable c) (columns d) &&
  forallb (λ r : Row, bool_decide (length r = length (columns d))) (rows d) &&
  forallb (λ j, storable_column (cell_at j <$> rows d)) (seq 0 (length (columns d))).

(** The derived column holds what loading derives from Breachornot. *)
Definition mirrors (d : DataFrame) : Prop :=
  ∃ b, getitem d "Breachornot" = Ok b ∧
       getitem d "Breach_binary" = Ok (Series_map breach_dict b).

(** *** The arithmetic of the dashboard *)

(** The integer a cell contributes to a sum: its number, nothing when missing. *)
Definition summand (c : cell) : Z := default 0 (number c).

(** The arithmetic mean of a non-empty list of integers. *)
Definition arithmetic_mean (zs : list Z) : Q :=
  inject_Z (foldr Z.add 0 zs) / inject_Z (Z.of_nat (length zs)).

(** [r] is what float64 arithmetic makes of [x] rounded to two decimal
    places: the float64 nearest to a whole number [k] of hundredths, where
    [k] is nearest to [100 x] up to the rounding error of the two float64
    operations that lead to it. *)
Definition float_2dp (x r : Q) : Prop :=
  ∃ k : Z, r = binary64 (inject_Z k / 100) ∧
           (Qabs (100 * x - inject_Z k) <= (1 # 2) + (1 # 10000))%Q.

(** The claim about the mean, as the specification words it: whatever the
    table, the third metric is the arithmetic mean of LoS rounded to two
    decimal places.  A number rounded to two decimal places is at most a
    hundredth away from it. *)
Definition mean_is_rounded_to_2dp : Prop :=
  ∀ d m,
    "Breach_binary" ∈ columns d → "LoS" ∈ columns d →
    numeric (field d "Breach_binary" <$> rows d) →
    Forall is_number (field d "LoS" <$> rows d) →
    rows d ≠ [] →
    dashboard_metrics d = Ok m →
    ∃ avg,
      average_length_of_stay m = fin avg ∧
      (Qabs (arithmetic_mean ((λ r, summand (field d "LoS" r)) <$> rows d) - avg)
       <= 1 # 100)%Q.

(** *** First match *)

(** The first row of the table whose ID is exactly the given string. *)
Definition first_match (d : DataFrame) (patient_id : string) : option Row :=
  snd <$> list_find (λ r, field d "ID" r = Str patient_id) (rows d).

(** The rows of the table whose ID is exactly the given string, in table
    order. *)
Definition all_matches (d : DataFrame) (patient_id : string) : list Row :=
  filter (λ r, field d "ID" r = Str patient_id) (rows d).

(** *** Range filter *)

(** The cell holds a number between the bounds, both included. *)
Definition in_range (lo hi : Z) (c : cell) : Prop :=
  ∃ v, number c = Some v ∧ lo ≤ v ≤ hi.

#[global] Instance in_range_dec lo hi c : Decision (in_range lo hi c).
Proof.
  unfold in_range. destruct (number c) as [v|].
  - destruct (decide (lo ≤ v ≤ hi)); [left; eauto | right].
    intros (v' & [= <-] & ?). contradiction.
  - right. by intros (? & ? & _).
Defined.

(** *** The claim about search, as the specification words it

    Whatever the table, the search shows the first matching record and only
    that one, or nothing. *)
Definition search_shows_first_match_only : Prop :=
  ∀ ts pid st msg shown st',
    "ID" ∈ columns (df st) →
    search_patient_by_id ts pid st = Ok (msg, shown, st') →
    rows <$> shown = (λ r, [r]) <$> first_match (df st) pid.

(** *** Two claims about persistence, as the specification words them *)


(** Saving any table with at least one row and fields of the declared types,
    then loading, gives the same table. *)
Definition save_then_load_is_identity : Prop :=
  ∀ d fs fs',
    rows d ≠ [] → declared_types d = true →
    save_safely d fs = Ok fs' →
    load_dataset fs' = Ok (Some d).

(** *** Numerals *)

(** The character occurs in the string. *)
Fixpoint occurs (a : Ascii.ascii) (s : string) : bool :=
  match s with
  | EmptyString => false
  | String b s' => Ascii.eqb a b || occurs a s'
  end.

(** *** The update form and the columns it writes *)

(** The values a number input can hold. *)
Definition number_input_range (z : Z) : Prop := Z.abs z < 2 ^ 53.

Definition form_in_range (form : Form) : Prop :=
  number_input_range (age form) ∧ number_input_range (los form) ∧
  number_input_range (investigations form) ∧ number_input_range (treatments form).

(** The four columns of counts the form writes. *)
Definition count_columns : list string :=
  ["Age"; "LoS"; "noofinvestigation"; "nooftreatment"].

(** A column of numbers: int64 integers, floats and missing values. *)
Definition number_column (s : Series) : Prop :=
  Forall (λ c, match c with
               | Int z => - 2 ^ 63 ≤ z < 2 ^ 63
               | Flt _ | NaN => True
               | Str _ => False
               end) s.

(** The series holds some string. *)
Definition holds_text (s : Series) : Prop := ∃ t, Str t ∈ s.

(** A run of [.at] assignments to one row, as lines 177-181 make them: the
    first one that raises ends the run. *)
Fixpoint assign_all (d : DataFrame) (i : nat) (cvs : list (string * cell))
  : result DataFrame :=
  match cvs with
  | [] => Ok d
  | (c, v) :: cvs' => d' ← at_set d i c v; assign_all d' i cvs'
  end.

(** What the form assigns. *)
Definition form_values (form : Form) : list (string * cell) :=
  [("Age", Int (age form)); ("LoS", Int (los form));
   ("noofinvestigation", Int (investigations form));
   ("nooftreatment", Int (treatments form));
   ("Breachornot", Str (breach_label (breach_choice form)))].

(** A text that is an integer of the int64 range. *)
Definition is_int64 (t : string) : bool :=
  match integer_of_text t with
  | Some z => bool_decide (- 2 ^ 63 ≤ z < 2 ^ 63)
  | None => false
  end.

(** The records of a file that are not blank lines. *)
Definition data_records (f : File) : list (list string) :=
  filter (λ r : list string, r ≠ []) (records f).

(** ** The rest of the script

    The parts of [app.py] around the operations above: the bounds the filter
    page computes for its slider, the dashboard and filter branches as a
    whole, and the script from its first line, which loads the data file and
    runs the branch of the selected menu entry. *)

(** The strings of a series that holds nothing but strings. *)
Fixpoint strings (s : Series) : option (list string) :=
  match s with
  | [] => Some []
  | Str t :: s' => cons t <$> strings s'
  | _ :: _ => None
  end.

Definition min_str (a b : string) : string := if String.leb a b then a else b.
Definition max_str (a b : string) : string := if String.leb a b then b else a.

(** [s.min()] and [s.max()], skipping missing values: the least (greatest)
    number of a series of numbers and the missing value when it holds none;
    the least (greatest) string of a series of strings; a series that mixes
    strings with numbers or missing values cannot be ordered.  The number is
    given as an [Int]: the script converts it with [int] at once. *)
Definition Series_min (s : Series) : result cell :=
  match numbers s with
  | Ok [] => Ok NaN
  | Ok (z :: zs) => Ok (Int (foldr Z.min z zs))
  | Raise _ =>
      match strings s with
      | Some (t :: ts) => Ok (Str (foldr min_str t ts))
      | _ => Raise TypeError
      end
  end.

Definition Series_max (s : Series) : result cell :=
  match numbers s with
  | Ok [] => Ok NaN
  | Ok (z :: zs) => Ok (Int (foldr Z.max z zs))
  | Raise _ =>
      match strings s with
      | Some (t :: ts) => Ok (Str (foldr max_str t ts))
      | _ => Raise TypeError
      end
  end.

(** [repr] of a pair of ints, as an f-string prints it. *)
Definition repr_range (range : Z * Z) : string :=
  "(" +:+ str_of_int range.1 +:+ ", " +:+ str_of_int range.2 +:+ ")".

(** *** Filter Patients, the whole branch (lines 114-140) *)

(** Lines 124-125: the ends of the slider. *)
Definition min_val (d : DataFrame) (column : string) : result Z :=
  s ← getitem d column; m ← Series_min s; int m.

Definition max_val (d : DataFrame) (column : string) : result Z :=
  s ← getitem d column; m ← Series_max s; int m.

(** Lines 127-130: [st.slider(label, min_value, max_value, value)] refuses
    ends that do not leave a range, and ends that the browser's numbers
    cannot hold. *)
Definition st_slider (min_value max_value : Z) : result unit :=
  if bool_decide (min_value < max_value) then
    if bool_decide (Z.abs min_value < 2 ^ 53 ∧ Z.abs max_value < 2 ^ 53) then Ok tt
    else Raise StreamlitJSNumberBoundsError
  else Raise StreamlitInvalidMinMaxError.

(** [selected_range] is what the slider returns; its initial value is
    [(min_val, max_val)]. *)
Definition filter_patients (timestamp column : string) (selected_range : Z * Z)
    (st : State) : result (DataFrame * State) :=
  lo ← min_val (df st) column;
  hi ← max_val (df st) column;
  _ ← st_slider lo hi;
  filtered ← filtered_df (df st) column selected_range;
  Ok (filtered,
      log_action timestamp
        ("Filtered patients by " +:+ column +:+ " range " +:+
         repr_range selected_range) st).

(** *** The script from its first line *)

Inductive Menu :=
  | Dashboard
  | Search_Patient_by_ID
  | Filter_Patients
  | Modify_Patient_Data
  | Delete_Patient_Data.

(** The state of the widgets when the script runs. *)
Record Widgets := {
  menu : Menu;
  search_id : string;
  search_clicked : bool;
  column : string;
  selected_range : Z * Z;
  modify_id : string;
  form : Form;
  update_clicked : bool;
  delete_id : string;
  confirm : bool;
  delete_clicked : bool
}.

(** What a run puts on the page. *)
Inductive Page :=
  | page_stopped (m : message)
  | page_dashboard (m : Metrics)
  | page_search (m : option message) (found : option DataFrame)
  | page_filter (filtered : DataFrame)
  | page_message (m : option message).

Section script.

(** Lines 74-88 draw the two charts with matplotlib; what drawing does to a
    frame, and whether it raises, is left open. *)
Variable plot_charts : DataFrame → result unit.

(** Dashboard (lines 65-90). *)
Definition dashboard (timestamp : string) (st : State) : result (Metrics * State) :=
  m ← dashboard_metrics (df st);
  _ ← plot_charts (df st);
  Ok (m, log_action timestamp "Viewed dashboard" st).

(** One run of the script on the files and the log it finds. *)
Definition script (timestamp : string) (w : Widgets)
    (fs : gmap string File) (log : list string)
  : result (Page * gmap string File * list string) :=
  loaded ← load_dataset fs;
  match loaded with
  | None =>
      Ok (page_stopped (st_error "AED4weeks.csv not found in the current directory."),
          fs, log)
  | Some d =>
      let st := {| df := d; files := fs; log_file := log |} in
      match menu w with
      | Dashboard =>
          '(m, st') ← dashboard timestamp st;
          Ok (page_dashboard m, files st', log_file st')
      | Search_Patient_by_ID =>
          if search_clicked w then
            '(m, found, st') ← search_patient_by_id timestamp (search_id w) st;
            Ok (page_search (Some m) found, files st', log_file st')
          else Ok (page_search None None, fs, log)
      | Filter_Patients =>
          '(filtered, st') ← filter_patients timestamp (column w) (selected_range w) st;
          Ok (page_filter filtered, files st', log_file st')
      | Modify_Patient_Data =>
          '(m, st') ← modify_patient_data timestamp (modify_id w) (form w)
                        (update_clicked w) st;
          Ok (page_message m, files st', log_file st')
      | Delete_Patient_Data =>
          '(m, st') ← delete_patient_data timestamp (delete_id w) (confirm w)
                        (delete_clicked w) st;
          Ok (page_message m, files st', log_file st')
      end
  end.

End script.

(** *** More vocabulary *)

(** What line 37 makes of a Breachornot cell. *)
Definition breach_value (c : cell) : option Z :=
  match c with
  | Str t =>
      if decide (t = "non-breach") then Some 0
      else if decide (t = "breach") then Some 1
      else None
  | _ => None
  end.



(** The files a run may write. *)
Definition TEMP_FILE : string := "AED4weeks_temp.csv".

(** A widget state for the sample runs. *)
Definition sample_widgets (m : Menu) : Widgets :=
  {| menu := m; search_id := "P2"; search_clicked := true;
     column := "LoS"; selected_range := (10, 30);
     modify_id := "P1"; form := sample_form; update_clicked := true;
     delete_id := "P2"; confirm := true; delete_clicked := true |}.

(** A data file whose IDs are numerals. *)
Definition numbered_file : File :=
  {| header := ["ID"; "Age"; "LoS"; "noofinvestigation"; "nooftreatment";
                "noofpatients"; "Breachornot"];
     records := [ ["10001"; "34"; "10"; "1"; "2"; "5"; "non-breach"];
                  ["10002"; "61"; "20"; "3"; "1"; "7"; "breach"] ] |}.

(** A data file without the Breachornot column. *)
Definition unlabelled_file : File :=
  {| header := ["ID"; "LoS"]; records := [ ["P1"; "10"]; ["P2"; "20"] ] |}.

(** The sample table with an age that was entered as text. *)
Definition unknown_age_df : DataFrame :=
  {| columns := columns sample_df;
     rows := [ [Str "P1"; Str "unknown"; Int 10; Int 1; Int 2; Int 5; Str "non-breach"; Int 0];
               [Str "P2"; Str "61"; Int 20; Int 3; Int 1; Int 7; Str "breach"; Int 1] ] |}.

(** Charts that draw without raising. *)
Definition no_charts (d : DataFrame) : result unit := Ok tt.


(** Two stays of 2^63 - 1 minutes, the largest int64. *)
Definition long_stay_df : DataFrame :=
  {| columns := columns sample_df;
     rows := [ [Str "P1"; Int 34; Int 9223372036854775807; Int 1; Int 2; Int 5;
                Str "non-breach"; Int 0];
               [Str "P2"; Int 61; Int 9223372036854775807; Int 3; Int 1; Int 7;
                Str "breach"; Int 1] ] |}.

(** A table in which every stay took 20 minutes. *)
Definition same_stay_df : DataFrame :=
  {| columns := columns sample_df;
     rows := [ [Str "P1"; Int 34; Int 20; Int 1; Int 2; Int 5; Str "non-breach"; Int 0];
               [Str "P2"; Int 61; Int 20; Int 3; Int 1; Int 7; Str "breach"; Int 1] ] |}.


(** ** Basic facts about the pandas fragment *)

(** Membership in a list written out. *)
Ltac in_list :=
  repeat first [apply list_elem_of_here | apply list_elem_of_further].

(** A closed decidable proposition, by evaluation. *)
Ltac by_evaluation := apply (bool_decide_unpack _); vm_compute; exact I.

Section frame_facts.
Implicit Types (d : DataFrame) (c : string) (r : Row) (s : Series).

Lemma get_loc_in cols c : c ∈ cols → ∃ j, get_loc cols c = Ok j ∧ cols !! j = Some c.
Proof.
  intros Hin. unfold get_loc.
  destruct (list_find (λ x, x = c) cols) as [[j x]|] eqn:Hfind.
  - apply list_find_Some in Hfind as (Hj & -> & _). eauto.
  - apply list_find_None in Hfind. rewrite Forall_forall in Hfind.
    by destruct (Hfind c Hin).
Qed.

Lemma get_loc_Ok cols c j : get_loc cols c = Ok j → cols !! j = Some c.
Proof.
  unfold get_loc.
  destruct (list_find _ cols) as [[k x]|] eqn:Hfind; [|done].
  intros [= <-]. by apply list_find_Some in Hfind as (Hk & -> & _).
Qed.

Lemma getitem_in d c : c ∈ columns d → getitem d c = Ok (field d c <$> rows d).
Proof.
  intros (j & Hj & _)%get_loc_in. unfold getitem, field. by rewrite Hj.
Qed.

Lemma getitem_Ok d c s : getitem d c = Ok s → s = field d c <$> rows d ∧ c ∈ columns d.
Proof.
  unfold getitem, field. destruct (get_loc (columns d) c) as [j|e] eqn:Hj; [|done].
  intros [= <-]. split; [done|].
  apply get_loc_Ok in Hj. by eapply list_elem_of_lookup_2.
Qed.

Lemma select_fmap {A} (f : A → bool) (xs : list A) :
  select (f <$> xs) xs = filter (λ x, f x = true) xs.
Proof.
  induction xs as [|x xs IH]; [done|]. cbn [fmap list_fmap select].
  rewrite filter_cons. destruct (f x) eqn:Hx.
  - rewrite decide_True by done. f_equal. exact IH.
  - rewrite decide_False by done. exact IH.
Qed.

Lemma select_eq d s pid :
  s = field d "ID" <$> rows d →
  select (Series_eq s pid) (rows d) = all_matches d pid.
Proof.
  intros ->. unfold Series_eq, all_matches. rewrite <- list_fmap_compose.
  rewrite select_fmap.
  apply list_filter_iff. intros r. cbn. by rewrite bool_decide_eq_true.
Qed.

Lemma select_ne d s pid :
  s = field d "ID" <$> rows d →
  select (Series_ne s pid) (rows d) =
  filter (λ r, field d "ID" r ≠ Str pid) (rows d).
Proof.
  intros ->. unfold Series_ne. rewrite <- list_fmap_compose.
  rewrite select_fmap.
  apply list_filter_iff. intros r. cbn.
  by rewrite negb_true_iff, bool_decide_eq_false.
Qed.

Lemma isin_values_spec d pid :
  isin_values pid (field d "ID" <$> rows d) = true ↔
  ∃ r, r ∈ rows d ∧ field d "ID" r = Str pid.
Proof.
  unfold isin_values. rewrite bool_decide_eq_true, list_elem_of_fmap.
  split; intros (r & H1 & H2); exists r; auto.
Qed.

Lemma filter_all {A} (P : A → Prop) `{!∀ x, Decision (P x)} (l : list A) :
  Forall P l → filter P l = l.
Proof.
  induction 1 as [|x l Hx _ IH]; [done|].
  rewrite filter_cons, decide_True by done. by rewrite IH.
Qed.

Lemma filter_none {A} (P : A → Prop) `{!∀ x, Decision (P x)} (l : list A) :
  Forall (λ x, ¬ P x) l → filter P l = [].
Proof.
  induction 1 as [|x l Hx _ IH]; [done|].
  by rewrite filter_cons, decide_False.
Qed.

Lemma head_filter_find {A} (P : A → Prop) `{!∀ x, Decision (P x)} (l : list A) :
  head (filter P l) = snd <$> list_find P l.
Proof.
  induction l as [|x l IH]; [done|].
  rewrite filter_cons. cbn [list_find]. destruct (decide (P x)); [done|].
  rewrite IH. by destruct (list_find P l) as [[??]|].
Qed.

Lemma all_matches_nil d pid :
  all_matches d pid = [] ↔ isin_values pid (field d "ID" <$> rows d) = false.
Proof.
  rewrite <- not_true_iff_false, isin_values_spec. unfold all_matches. split.
  - intros Hnil (r & Hr & Hid).
    by apply (filter_nil_not_elem_of _ _ r Hnil Hid).
  - intros Hno. apply filter_none, Forall_forall. intros r Hr Hid.
    apply Hno. eauto.
Qed.

End frame_facts.

(** ** float64 arithmetic *)

Section float_facts.

Lemma pow2_pos e : (0 < pow2 e)%Q.
Proof. apply Qpower_0_lt. reflexivity. Qed.

Lemma pow2_add a b : (pow2 (a + b) == pow2 a * pow2 b)%Q.
Proof. apply Qpower_plus. discriminate. Qed.

Lemma pow2_le a b : a ≤ b → (pow2 a <= pow2 b)%Q.
Proof. intros. apply Qpower_le_compat_l; [done|]. discriminate. Qed.

Lemma pow2_Z e : 0 ≤ e → (pow2 e == inject_Z (2 ^ e))%Q.
Proof. intros. unfold pow2. by rewrite Zpower_Qpower. Qed.

Lemma pow2_sub a b : (pow2 (a - b) * pow2 b == pow2 a)%Q.
Proof. rewrite <- pow2_add. by replace (a - b + b) with a by lia. Qed.

(** A positive rational lies between two consecutive powers of two, and
    [ilog2] finds the lower one. *)
Lemma ilog2_spec q :
  (0 < q)%Q → (pow2 (ilog2 q) <= q)%Q ∧ (q < pow2 (ilog2 q + 1))%Q.
Proof.
  intros Hq. unfold ilog2.
  destruct q as [n d]. cbn [Qnum Qden].
  assert (0 < n) as Hn. { unfold Qlt in Hq. cbn in Hq. lia. }
  pose proof (Z.log2_spec n Hn) as [Hn1 Hn2].
  pose proof (Z.log2_spec (Z.pos d) (Pos2Z.is_pos d)) as [Hd1 Hd2].
  pose proof (Z.log2_nonneg n) as Ha. pose proof (Z.log2_nonneg (Z.pos d)) as Hb.
  set (a := Z.log2 n) in *. set (b := Z.log2 (Z.pos d)) in *.
  assert (n # d == inject_Z n / inject_Z (Z.pos d))%Q as Hq' by apply Qmake_Qdiv.
  assert (0 < inject_Z (Z.pos d))%Q as Hdpos.
  { change 0%Q with (inject_Z 0). rewrite <- Zlt_Qlt. lia. }
  assert (pow2 (a - b - 1) <= n # d)%Q as Hlow.
  { rewrite Hq'. apply Qle_shift_div_l; [done|].
    assert (pow2 (a - b - 1) * pow2 (b + 1) == pow2 a)%Q as Hp.
    { rewrite <- pow2_add. by replace (a - b - 1 + (b + 1)) with a by lia. }
    apply Qle_trans with (pow2 (a - b - 1) * pow2 (b + 1))%Q.
    - apply Qmult_le_l; [apply pow2_pos|]. rewrite pow2_Z by lia.
      rewrite <- Zle_Qle. lia.
    - rewrite Hp, pow2_Z by lia. rewrite <- Zle_Qle. lia. }
  assert (n # d < pow2 (a - b + 1))%Q as Hhigh.
  { rewrite Hq'. apply Qlt_shift_div_r; [done|].
    assert (pow2 (a - b + 1) * pow2 b == pow2 (a + 1))%Q as Hp.
    { rewrite <- pow2_add. by replace (a - b + 1 + b) with (a + 1) by lia. }
    apply Qlt_le_trans with (pow2 (a + 1)).
    - rewrite pow2_Z by lia. rewrite <- Zlt_Qlt. lia.
    - rewrite <- Hp. apply Qmult_le_l; [apply pow2_pos|]. rewrite pow2_Z by lia.
      rewrite <- Zle_Qle. lia. }
  destruct (Qle_bool (pow2 (a - b)) (n # d)) eqn:Hcmp.
  - apply Qle_bool_iff in Hcmp. by split.
  - assert (¬ (pow2 (a - b) <= n # d)%Q) as Hnot.
    { intros H%Qle_bool_iff. congruence. }
    apply Qnot_le_lt in Hnot. split; [done|].
    by replace (a - b - 1 + 1) with (a - b) by lia.
Qed.

Lemma ilog2_unique q e :
  (pow2 e <= q)%Q → (q < pow2 (e + 1))%Q → ilog2 q = e.
Proof.
  intros Hlo Hhi.
  assert (0 < q)%Q as Hq by (eapply Qlt_le_trans; [apply (pow2_pos e) | done]).
  destruct (ilog2_spec q Hq) as [Hlo' Hhi'].
  destruct (Z.lt_trichotomy (ilog2 q) e) as [Hlt|[Heq|Hgt]]; [|done|].
  - exfalso. assert (pow2 (ilog2 q + 1) <= pow2 e)%Q by (apply pow2_le; lia). lra.
  - exfalso. assert (pow2 (e + 1) <= pow2 (ilog2 q))%Q by (apply pow2_le; lia). lra.
Qed.

Lemma round_half_even_near q :
  (Qabs (q - inject_Z (round_half_even q)) <= 1 # 2)%Q.
Proof.
  unfold round_half_even.
  pose proof (Qfloor_le q) as Hlo. pose proof (Qlt_floor q) as Hhi.
  rewrite inject_Z_plus in Hhi. change (inject_Z 1) with 1%Q in Hhi.
  apply Qabs_Qle_condition.
  destruct (Qcompare_spec (q - inject_Z (Qfloor q)) (1 # 2)) as [Heq|Hlt|Hgt].
  - destruct (Z.even (Qfloor q)); rewrite ?inject_Z_plus;
      change (inject_Z 1) with 1%Q; split; lra.
  - split; lra.
  - rewrite inject_Z_plus. change (inject_Z 1) with 1%Q. split; lra.
Qed.

(** An integer is its own rounding. *)
Lemma round_half_even_Z q m : (q == inject_Z m)%Q → round_half_even q = m.
Proof.
  intros Hq. unfold round_half_even.
  assert (Qfloor q = m) as ->.
  { rewrite (Qfloor_comp _ _ Hq). apply Qfloor_Z. }
  destruct (Qcompare_spec (q - inject_Z m) (1 # 2)) as [Heq|Hlt|Hgt]; [lra | done | lra].
Qed.

Lemma Qred_inject_Z z : Qred (inject_Z z) = inject_Z z.
Proof.
  unfold inject_Z, Qred. cbn [Qnum Qden].
  pose proof (Z.ggcd_correct_divisors z 1) as Hdiv.
  pose proof (Z.ggcd_gcd z 1) as Hgcd.
  destruct (Z.ggcd z 1) as [g [a b]]. cbn in *.
  rewrite Z.gcd_1_r in Hgcd. subst g. destruct Hdiv as [Ha Hb].
  rewrite Z.mul_1_l in Ha, Hb. subst a b. reflexivity.
Qed.

Lemma Qabs_inject_Z z : Qabs (inject_Z z) = inject_Z (Z.abs z).
Proof. by destruct z. Qed.

(** float64 holds the integers below 2^53 exactly. *)
Lemma binary64_Z q z :
  (q == inject_Z z)%Q → Z.abs z < 2 ^ 53 → binary64 q = inject_Z z.
Proof.
  intros Hq Hz. unfold binary64.
  destruct (Qeq_bool q 0) eqn:H0.
  { apply Qeq_bool_eq in H0. rewrite Hq in H0.
    assert (z = 0) as ->; [|done].
    unfold Qeq in H0. cbn in H0. lia. }
  apply Qeq_bool_neq in H0.
  assert (z ≠ 0) as Hz0. { intros ->. by apply H0. }
  assert (Qabs q == inject_Z (Z.abs z))%Q as Habs.
  { rewrite Hq. by rewrite Qabs_inject_Z. }
  set (e := Z.log2 (Z.abs z)).
  assert (0 < Z.abs z) as Hpos by lia.
  pose proof (Z.log2_spec _ Hpos) as [Hlo Hhi]. fold e in Hlo, Hhi.
  pose proof (Z.log2_nonneg (Z.abs z)) as He0. fold e in He0.
  assert (e < 53) as He. { apply Z.log2_lt_pow2; lia. }
  assert (ilog2 (Qabs q) = e) as ->.
  { apply ilog2_unique; rewrite Habs, pow2_Z by lia.
    - by rewrite <- Zle_Qle.
    - by rewrite <- Zlt_Qlt. }
  rewrite Z.max_l by lia.
  pose proof (pow2_pos (e - 52)) as Hp.
  pose proof (pow2_sub 0 (e - 52)) as Hinv.
  replace (0 - (e - 52)) with (52 - e) in Hinv by lia.
  change (pow2 0) with 1%Q in Hinv.
  assert (q / pow2 (e - 52) == inject_Z (z * 2 ^ (52 - e)))%Q as Hm.
  { rewrite Hq, inject_Z_mult, <- pow2_Z by lia.
    set (p := pow2 (e - 52)) in *. set (p' := pow2 (52 - e)) in *.
    apply Qmult_inj_r with p; [lra|].
    rewrite <- Qmult_assoc, Hinv. field. lra. }
  rewrite (round_half_even_Z _ _ Hm).
  transitivity (Qred (inject_Z z)); [|apply Qred_inject_Z]. apply Qred_complete.
  rewrite inject_Z_mult, <- pow2_Z by lia.
  rewrite <- Qmult_assoc, Hinv. ring.
Qed.

Lemma to_float64_exact z : Z.abs z < 2 ^ 53 → to_float64 z = z.
Proof.
  intros Hz. unfold to_float64. rewrite (binary64_Z _ z) by done. apply Qfloor_Z.
Qed.

(** Rounding to float64 moves a number of the normal range by at most half a
    unit in its last place: a relative error of at most 2^-53. *)
Lemma binary64_near q :
  (pow2 (-1022) <= Qabs q)%Q →
  (Qabs (binary64 q - q) <= Qabs q * pow2 (-53))%Q.
Proof.
  intros Hq. unfold binary64.
  pose proof (pow2_pos (-1022)) as H1022.
  destruct (Qeq_bool q 0) eqn:H0.
  { apply Qeq_bool_eq in H0. rewrite H0 in Hq. change (Qabs 0) with 0%Q in Hq. lra. }
  clear H0.
  assert (0 < Qabs q)%Q as Hpos by lra.
  destruct (ilog2_spec _ Hpos) as [Hlo Hhi].
  set (e := ilog2 (Qabs q)) in *.
  assert (-1022 ≤ e) as He.
  { destruct (Z_lt_le_dec e (-1022)) as [Hlt|]; [|done]. exfalso.
    assert (pow2 (e + 1) <= pow2 (-1022))%Q by (apply pow2_le; lia). lra. }
  rewrite Z.max_l by lia.
  rewrite Qred_correct.
  pose proof (round_half_even_near (q / pow2 (e - 52))) as Hnear.
  set (m := inject_Z (round_half_even (q / pow2 (e - 52)))) in *.
  pose proof (pow2_pos (e - 52)) as Hp.
  assert (pow2 (e - 52) * (1 # 2) == pow2 e * pow2 (-53))%Q as Hulp.
  { rewrite <- pow2_add. replace (e + -53) with (e - 52 + -1) by lia.
    rewrite pow2_add. reflexivity. }
  pose proof (pow2_pos (-53)) as H53.
  apply Qle_trans with (pow2 e * pow2 (-53))%Q.
  2:{ apply Qmult_le_compat_r; lra. }
  rewrite <- Hulp.
  assert (q == (q / pow2 (e - 52)) * pow2 (e - 52))%Q as Hx by (field; lra).
  set (y := (q / pow2 (e - 52))%Q) in *. set (p := pow2 (e - 52)) in *.
  clearbody y p m. rewrite Hx.
  apply Qabs_Qle_condition in Hnear. apply Qabs_Qle_condition. nra.
Qed.

Lemma abs_sum_nonneg (zs : list Z) : 0 ≤ foldr Z.add 0 (Z.abs <$> zs).
Proof.
  induction zs as [|y ys IH]; cbn; [done|]. pose proof (Z.abs_nonneg y). lia.
Qed.

Lemma foldl_float_exact (zs : list Z) : ∀ a,
  Z.abs a + foldr Z.add 0 (Z.abs <$> zs) < 2 ^ 53 →
  foldl (λ acc z, binary64 (acc + binary64 (inject_Z z))) (inject_Z a) zs
  = inject_Z (a + foldr Z.add 0 zs).
Proof.
  induction zs as [|z zs IH]; intros a Hb; cbn [foldl foldr fmap list_fmap] in *.
  - f_equal. lia.
  - pose proof (Z.abs_nonneg z). pose proof (abs_sum_nonneg zs).
    rewrite (binary64_Z (inject_Z z) z) by (done || lia).
    rewrite (binary64_Z _ (a + z)) by (by rewrite inject_Z_plus || lia).
    rewrite IH by lia. f_equal. lia.
Qed.

(** A float64 sum of integers is exact as long as the magnitudes add up to
    less than 2^53. *)
Lemma float_sum_exact (zs : list Z) :
  foldr Z.add 0 (Z.abs <$> zs) < 2 ^ 53 →
  float_sum zs = inject_Z (foldr Z.add 0 zs).
Proof.
  intros Hb. unfold float_sum. change 0%Q with (inject_Z 0).
  by rewrite foldl_float_exact.
Qed.

(** [round(x, 2)] on the float64 nearest to [q], for [q] zero or between
    2^-22 and 2^31 in magnitude. *)
Lemma round_float_2dp q :
  (q == 0 ∨ (1 # 4194304) <= Qabs q)%Q → (Qabs q <= inject_Z (2 ^ 31))%Q →
  ∃ r, round (fin (binary64 q)) 2 = fin r ∧ float_2dp q r.
Proof.
  intros Hlow Hhigh. eexists. split; [reflexivity|].
  change (inject_Z (10 ^ Z.of_nat 2)) with 100%Q.
  exists (round_half_even (binary64 (binary64 q * 100))). split; [reflexivity|].
  destruct Hlow as [H0|Hlow].
  { assert (binary64 q = 0%Q) as ->.
    { unfold binary64. by rewrite (Qeq_eq_bool _ _ H0). }
    rewrite H0. by vm_compute. }
  assert (pow2 (-1022) <= 1 # 4194304)%Q as Htiny.
  { change (1 # 4194304)%Q with (pow2 (-22)). apply pow2_le. lia. }
  pose proof (binary64_near q ltac:(lra)) as Hm.
  change (pow2 (-53)) with (1 # 9007199254740992)%Q in Hm.
  set (m := binary64 q) in *.
  assert (Qabs q - Qabs q * (1 # 9007199254740992) <= Qabs m)%Q as Hmabs'.
  { pose proof (Qabs_triangle m (q - m)) as Htri.
    assert (m + (q - m) == q)%Q as Hsum by ring. rewrite Hsum in Htri.
    rewrite (Qabs_Qminus q m) in Htri. lra. }
  assert (Qabs m <= Qabs q + Qabs q * (1 # 9007199254740992))%Q as Hmabs.
  { pose proof (Qabs_triangle q (m - q)) as Htri.
    assert (q + (m - q) == m)%Q as Hsum by ring. rewrite Hsum in Htri. lra. }
  assert (Qabs (m * 100) == Qabs m * 100)%Q as H100.
  { rewrite Qabs_Qmult. reflexivity. }
  pose proof (binary64_near (m * 100) ltac:(rewrite H100; lra)) as Hp.
  rewrite H100 in Hp.
  change (pow2 (-53)) with (1 # 9007199254740992)%Q in Hp.
  set (p := binary64 (m * 100)) in *.
  pose proof (round_half_even_near p) as Hk.
  set (k := inject_Z (round_half_even p)) in *.
  change (inject_Z (2 ^ 31)) with 2147483648%Q in Hhigh.
  pose proof (Qabs_nonneg q) as Hq0.
  set (a := Qabs q) in *. set (b := Qabs m) in *.
  apply Qabs_Qle_condition in Hm, Hp, Hk. apply Qabs_Qle_condition.
  clearbody a b m p k. split; lra.
Qed.

End float_facts.

(** ** Delete Patient Data *)

Section delete_facts.
Implicit Types (st : State) (pid ts : string).

(** What the branch does once the button is pressed and the box is ticked. *)
Lemma delete_confirmed ts pid st :
  "ID" ∈ columns (df st) →
  delete_patient_data ts pid true true st =
  if isin_values pid (field (df st) "ID" <$> rows (df st)) then
    Ok (Some (st_success "Patient record deleted successfully."),
        log_action ts ("Deleted Patient ID " +:+ pid)
          {| df := {| columns := columns (df st);
                      rows := filter (λ r, field (df st) "ID" r ≠ Str pid)
                                (rows (df st)) |};
             files := <[DATA_FILE :=
                          to_csv {| columns := columns (df st);
                                    rows := filter (λ r, field (df st) "ID" r ≠ Str pid)
                                              (rows (df st)) |}]> (files st);
             log_file := log_file st |})
  else
    Ok (Some (st_warning "Patient ID not found."),
        log_action ts
          ("Attempted delete for Patient ID " +:+ pid +:+ " – Not found") st).
Proof.
  intros Hid. unfold delete_patient_data. cbn [negb].
  rewrite (getitem_in _ _ Hid). cbn [mbind result_bind].
  destruct (isin_values _ _); [|done].
  unfold getitem_mask. by rewrite (select_ne (df st)).
Qed.

Lemma field_same_columns d d' c r : columns d' = columns d → field d' c r = field d c r.
Proof. unfold field. by intros ->. Qed.

(** C8: a delete request without the confirmation box ticked changes nothing:
    whatever the identifier, matching or not, the table, the files and the
    log stay as they were, and a pressed button is answered by the warning
    that asks for confirmation. *)
Theorem delete_without_confirmation ts pid clicked st :
  delete_patient_data ts pid false clicked st =
  Ok (if clicked
      then Some (st_warning "Please confirm deletion before proceeding.")
      else None, st).
Proof. unfold delete_patient_data. by destruct clicked. Qed.

(** C2: a confirmed delete of an identifier that occurs in the table removes
    every row carrying it, keeps exactly the other rows, and writes the whole
    remaining table to the data file: the file's header is the table's
    labels, its records are the remaining rows in table order, each field the
    text of the cell, and no other file is touched.  A confirmed delete of an
    identifier that does not occur answers "Patient ID not found." and leaves
    the table and the files as they were. *)
Theorem delete_removes_every_match ts pid st :
  "ID" ∈ columns (df st) →
  ∃ msg st',
    delete_patient_data ts pid true true st = Ok (msg, st') ∧
    (all_matches (df st) pid ≠ [] →
       msg = Some (st_success "Patient record deleted successfully.") ∧
       columns (df st') = columns (df st) ∧
       (∀ r, r ∈ rows (df st') ↔
             r ∈ rows (df st) ∧ field (df st) "ID" r ≠ Str pid) ∧
       all_matches (df st') pid = [] ∧
       files st' = <[DATA_FILE := to_csv (df st')]> (files st) ∧
       files st' !! DATA_FILE = Some (to_csv (df st')) ∧
       ∃ f,
         files st' !! DATA_FILE = Some f ∧
         header f = columns (df st) ∧
         records f =
           (λ r : Row, render <$> r) <$>
           filter (λ r, field (df st) "ID" r ≠ Str pid) (rows (df st)) ∧
         length (records f) = length (rows (df st')) ∧
         (∀ path, path ≠ DATA_FILE → files st' !! path = files st !! path)) ∧
    (all_matches (df st) pid = [] →
       msg = Some (st_warning "Patient ID not found.") ∧
       df st' = df st ∧ files st' = files st).
Proof.
  intros Hid. rewrite (delete_confirmed _ _ _ Hid).
  destruct (isin_values _ _) eqn:Hin; eexists _, _; (split; [reflexivity|]).
  - split; [intros _ | intros Hnil%all_matches_nil; congruence].
    cbn. split_and!; try done.
    + intros r. rewrite list_elem_of_filter. tauto.
    + apply filter_none, Forall_forall. intros r Hr.
      apply list_elem_of_filter in Hr as [Hne _]. exact Hne.
    + apply lookup_insert_eq.
    + eexists. rewrite lookup_insert_eq. split_and!; [done | done | done | |].
      * cbn. by rewrite length_fmap.
      * intros path Hpath. by rewrite lookup_insert_ne.
  - split; [intros Hne; by apply all_matches_nil in Hin | done].
Qed.

(** C10: a confirmed delete keeps the rows whose ID differs from the given one
    in their relative order, each of them cell for cell as it was (Breach_binary
    included), under unchanged column labels. *)
Theorem delete_keeps_other_rows ts pid st :
  "ID" ∈ columns (df st) →
  ∃ msg st',
    delete_patient_data ts pid true true st = Ok (msg, st') ∧
    columns (df st') = columns (df st) ∧
    rows (df st') = filter (λ r, field (df st) "ID" r ≠ Str pid) (rows (df st)) ∧
    rows (df st') `sublist_of` rows (df st) ∧
    (∀ r c, r ∈ rows (df st) → field (df st) "ID" r ≠ Str pid →
            r ∈ rows (df st') ∧ field (df st') c r = field (df st) c r).
Proof.
  intros Hid. rewrite (delete_confirmed _ _ _ Hid).
  destruct (isin_values _ _) eqn:Hin; eexists _, _; (split; [reflexivity|]); cbn.
  - split_and!; [done | done | apply sublist_filter |].
    intros r c Hr Hne. by rewrite list_elem_of_filter.
  - assert (filter (λ r, field (df st) "ID" r ≠ Str pid) (rows (df st)) = rows (df st))
      as Hall.
    { apply filter_all, Forall_forall. intros r Hr Heq.
      apply not_true_iff_false in Hin. apply Hin, isin_values_spec. eauto. }
    rewrite Hall. by split_and!.
Qed.

End delete_facts.

(** ** Search Patient by ID *)

Section search_facts.
Implicit Types (st : State) (pid ts : string).

Lemma search_result ts pid st :
  "ID" ∈ columns (df st) →
  search_patient_by_id ts pid st =
  match all_matches (df st) pid with
  | [] =>
      Ok (st_warning "No patient found with this ID.", None,
          log_action ts ("Searched Patient ID " +:+ pid +:+ " – Not found") st)
  | _ =>
      Ok (st_success "Patient record found.",
          Some {| columns := columns (df st); rows := all_matches (df st) pid |},
          log_action ts ("Retrieved Patient ID " +:+ pid) st)
  end.
Proof.
  intros Hid. unfold search_patient_by_id.
  rewrite (getitem_in _ _ Hid). cbn [mbind result_bind].
  unfold getitem_mask, empty. cbn [rows].
  rewrite (select_eq (df st)) by done.
  by destruct (all_matches (df st) pid).
Qed.

Lemma head_all_matches d pid : head (all_matches d pid) = first_match d pid.
Proof. apply head_filter_find. Qed.

(** The record the modify form is filled from (line 148). *)
Lemma modify_lookup d pid :
  iloc0 (getitem_mask d (Series_eq (field d "ID" <$> rows d) pid)) =
  from_option Ok (Raise IndexError) (first_match d pid).
Proof.
  unfold iloc0, getitem_mask. cbn [rows].
  rewrite (select_eq d) by done. rewrite <- head_all_matches.
  by destruct (all_matches d pid).
Qed.

(** C7, as the code has it: the identifier is compared with the ID cells by
    exact string equality.  The search shows every row whose ID equals the
    input, in table order, and nothing when no row matches; the first row
    it shows is the first matching record, which is also the record the
    modify form looks up.  The table and the files are left as they were. *)
Theorem search_matches_exactly ts pid st :
  "ID" ∈ columns (df st) →
  ∃ msg shown st',
    search_patient_by_id ts pid st = Ok (msg, shown, st') ∧
    df st' = df st ∧ files st' = files st ∧
    shown = (if decide (all_matches (df st) pid = []) then None
             else Some {| columns := columns (df st);
                          rows := all_matches (df st) pid |}) ∧
    (∀ r, r ∈ all_matches (df st) pid ↔
          r ∈ rows (df st) ∧ field (df st) "ID" r = Str pid) ∧
    all_matches (df st) pid `sublist_of` rows (df st) ∧
    head (all_matches (df st) pid) = first_match (df st) pid ∧
    iloc0 (getitem_mask (df st)
             (Series_eq (field (df st) "ID" <$> rows (df st)) pid)) =
      from_option Ok (Raise IndexError) (first_match (df st) pid) ∧
    (all_matches (df st) pid = [] ↔ first_match (df st) pid = None).
Proof.
  intros Hid. rewrite (search_result _ _ _ Hid).
  assert (∀ r, r ∈ all_matches (df st) pid ↔
               r ∈ rows (df st) ∧ field (df st) "ID" r = Str pid) as Hmem.
  { intros r. unfold all_matches. rewrite list_elem_of_filter. tauto. }
  pose proof (head_all_matches (df st) pid) as Hhead.
  pose proof (modify_lookup (df st) pid) as Hlook.
  assert (all_matches (df st) pid `sublist_of` rows (df st)) as Hsub
    by apply sublist_filter.
  destruct (all_matches (df st) pid) as [|r l] eqn:Hm.
  - eexists _, _, _. split; [reflexivity|]. cbn in Hhead.
    rewrite decide_True by done. by split_and!.
  - eexists _, _, _. split; [reflexivity|]. cbn in Hhead.
    rewrite decide_False by done. split_and!; try done.
    rewrite <- Hhead. split; intros; discriminate.
Qed.

(** C7, the counterexample: in a table where two rows carry the ID P1 the
    search for P1 shows both rows, not the first one alone. *)
Lemma search_shows_every_duplicate : ¬ search_shows_first_match_only.
Proof.
  intros Hclaim.
  specialize (Hclaim "2026-01-01 00:00:00" "P1" twins_state _ _ _
                ltac:(by apply (bool_decide_unpack _)) eq_refl).
  vm_compute in Hclaim. discriminate Hclaim.
Qed.

End search_facts.

(** ** Filter Patients *)

Section filter_facts.
Implicit Types (d : DataFrame) (s : Series) (lo hi : Z).

Lemma Series_ge_numeric s lo :
  numeric s →
  Series_ge s lo = Ok ((λ c, from_option (Z.leb lo) false (number c)) <$> s).
Proof.
  unfold Series_ge. induction 1 as [|c s Hc _ IH]; [done|].
  cbn [traverse]. rewrite IH.
  destruct c as [z|z|t|]; try done. by destruct (Hc t).
Qed.

Lemma Series_le_numeric s hi :
  numeric s →
  Series_le s hi = Ok ((λ c, from_option (λ z, z <=? hi) false (number c)) <$> s).
Proof.
  unfold Series_le. induction 1 as [|c s Hc _ IH]; [done|].
  cbn [traverse]. rewrite IH.
  destruct c as [z|z|t|]; try done. by destruct (Hc t).
Qed.

Lemma in_range_masks lo hi c :
  from_option (Z.leb lo) false (number c) &&
  from_option (λ z, z <=? hi) false (number c) = true ↔ in_range lo hi c.
Proof.
  unfold in_range. destruct (number c) as [v|]; cbn.
  - rewrite andb_true_iff, !Z.leb_le. split.
    + intros [??]. eauto.
    + by intros (? & [= <-] & ?).
  - split; [done | by intros (? & ? & _)].
Qed.

(** A string in the chosen column makes the comparison raise. *)
Lemma Series_ge_string s lo t : Str t ∈ s → Series_ge s lo = Raise TypeError.
Proof.
  unfold Series_ge. induction s as [|c s IH]; [by intros ?%not_elem_of_nil|].
  intros [Heq|Hin]%elem_of_cons; [by subst c|].
  cbn [traverse]. rewrite (IH Hin). by destruct c.
Qed.

(** C3: for a column of the select box that the table has and that holds
    numbers (or missing values), the filter returns the table's rows whose
    value in that column lies between the two bounds, both bounds included,
    in table order, and no other row. *)
Theorem filter_range_inclusive d column lo hi :
  column ∈ numeric_columns →
  column ∈ columns d →
  numeric (field d column <$> rows d) →
  ∃ out,
    filtered_df d column (lo, hi) = Ok out ∧
    columns out = columns d ∧
    rows out = filter (λ r, in_range lo hi (field d column r)) (rows d) ∧
    (∀ r, r ∈ rows out ↔
          r ∈ rows d ∧
          ∃ v, number (field d column r) = Some v ∧ lo ≤ v ≤ hi).
Proof.
  intros _ Hcol Hnum. unfold filtered_df.
  rewrite (getitem_in _ _ Hcol). cbn [mbind result_bind fst snd].
  rewrite (Series_ge_numeric _ _ Hnum), (Series_le_numeric _ _ Hnum).
  cbn [mbind result_bind]. eexists. split; [reflexivity|].
  unfold getitem_mask, mask_and. cbn [columns rows].
  rewrite zip_with_fmap_l, zip_with_fmap_r, zip_with_diag, <- list_fmap_compose.
  rewrite select_fmap.
  assert (filter (λ r, ((λ c, from_option (Z.leb lo) false (number c) &&
                              from_option (λ z, z <=? hi) false (number c))
                        ∘ field d column) r = true) (rows d)
          = filter (λ r, in_range lo hi (field d column r)) (rows d)) as ->.
  { apply list_filter_iff. intros r. apply in_range_masks. }
  split_and!; [done | done |].
  intros r. rewrite list_elem_of_filter. unfold in_range. tauto.
Qed.

End filter_facts.

(** ** Modify Patient Data *)

Section update_facts.
Implicit Types (d : DataFrame) (r : Row) (c : string) (v : cell) (s : Series).

Lemma get_loc_inj cols c c' j :
  get_loc cols c = Ok j → get_loc cols c' = Ok j → c = c'.
Proof. intros H1%get_loc_Ok H2%get_loc_Ok. congruence. Qed.

Lemma number_column_numeric s : number_column s → numeric s.
Proof.
  unfold number_column, numeric. intros H. eapply Forall_impl; [exact H|].
  intros x Hx t ->. done.
Qed.

(** A column of numbers and missing values takes an integer. *)
Lemma cast_number s z :
  number_column s → Z.abs z < 2 ^ 53 →
  ∃ v, cast (dtype_of s) (Int z) = Ok v ∧ number v = Some z.
Proof.
  intros Hnum Hz. unfold dtype_of.
  unfold number_column in Hnum. rewrite Forall_forall in Hnum.
  destruct (forallb _ s) eqn:Hints.
  - assert (forallb (λ x : cell, match x with Int z => z <? 2 ^ 63 | _ => true end) s
            = true) as ->; [|by eexists].
    apply forallb_forall. intros x Hx%list_elem_of_In. specialize (Hnum x Hx).
    destruct x as [z'| | |]; try done. apply Z.ltb_lt. lia.
  - assert (forallb (λ x : cell, match x with Str _ => false | _ => true end) s = true)
      as ->.
    { apply forallb_forall. intros x Hx%list_elem_of_In. specialize (Hnum x Hx).
      by destruct x. }
    eexists. split; [reflexivity|]. cbn. by rewrite to_float64_exact.
Qed.

(** A column that holds text takes a string. *)
Lemma cast_text s t : holds_text s → cast (dtype_of s) (Str t) = Ok (Str t).
Proof.
  intros [t0 Ht0]. unfold dtype_of.
  assert (forallb (λ x : cell, match x with Int _ => true | _ => false end) s = false) as ->.
  { apply not_true_iff_false. rewrite forallb_forall. intros H.
    by specialize (H (Str t0) ltac:(by apply list_elem_of_In)). }
  assert (forallb (λ x : cell, match x with Str _ => false | _ => true end) s = false) as ->.
  { apply not_true_iff_false. rewrite forallb_forall. intros H.
    by specialize (H (Str t0) ltac:(by apply list_elem_of_In)). }
  by destruct (forallb _ s).
Qed.

(** A text column takes no integer: the assignment is a [TypeError]. *)
Lemma cast_int_text s z :
  holds_text s → Forall (λ x : cell, number x = None) s →
  cast (dtype_of s) (Int z) = Raise TypeError.
Proof.
  intros [t0 Ht0] Hall. unfold dtype_of.
  assert (forallb (λ x : cell, match x with Int _ => true | _ => false end) s = false) as ->.
  { apply not_true_iff_false. rewrite forallb_forall. intros H.
    by specialize (H (Str t0) ltac:(by apply list_elem_of_In)). }
  assert (forallb (λ x : cell, match x with Str _ => false | _ => true end) s = false) as ->.
  { apply not_true_iff_false. rewrite forallb_forall. intros H.
    by specialize (H (Str t0) ltac:(by apply list_elem_of_In)). }
  assert (forallb (λ x : cell, match x with Str _ | NaN => true | _ => false end) s = true) as ->;
    [|done].
  apply forallb_forall. intros x Hx%list_elem_of_In.
  rewrite Forall_forall in Hall. specialize (Hall x Hx). by destruct x.
Qed.

(** One [.at] assignment to an existing column of a rectangular frame, of a
    value the column takes: the labels, the shape, every other row and every
    other column stay; in the row assigned to, the cell under the label
    takes the value and every other cell stays. *)
Lemma at_set_spec d i c v v' :
  c ∈ columns d → rectangular d →
  cast (dtype_of (field d c <$> rows d)) v = Ok v' →
  ∃ d',
    at_set d i c v = Ok d' ∧
    columns d' = columns d ∧
    rectangular d' ∧
    length (rows d') = length (rows d) ∧
    (∀ k, k ≠ i → rows d' !! k = rows d !! k) ∧
    (∀ c', c' ≠ c → field d' c' <$> rows d' = field d c' <$> rows d) ∧
    (∀ r, rows d !! i = Some r →
       ∃ r', rows d' !! i = Some r' ∧
             (∀ c', c' ≠ c → field d' c' r' = field d c' r) ∧
             field d' c r' = v').
Proof.
  intros Hc Hrect Hcast. destruct (get_loc_in _ _ Hc) as (j & Hj & Hlook).
  assert (field d c <$> rows d = cell_at j <$> rows d) as Hcol.
  { apply list_fmap_ext. intros _ r _. unfold field. by rewrite Hj. }
  exists {| columns := columns d; rows := alter (λ r, <[j := v']> r) i (rows d) |}.
  assert (∀ c' r, c' ≠ c →
            field {| columns := columns d;
                     rows := alter (λ r, <[j := v']> r) i (rows d) |} c' (<[j := v']> r)
            = field d c' r) as Hframe.
  { intros c' r Hne. unfold field. cbn [columns].
    destruct (get_loc (columns d) c') as [j'|e] eqn:Hj'; [|done].
    unfold cell_at. rewrite list_lookup_insert_ne; [done|].
    intros ->. apply Hne. by eapply get_loc_inj. }
  split_and!.
  - unfold at_set. unfold get_loc in Hj.
    destruct (list_find _ (columns d)) as [[j' x]|]; [|done].
    injection Hj as ->. rewrite <- Hcol, Hcast. reflexivity.
  - done.
  - unfold rectangular in *. cbn [columns rows].
    rewrite Forall_lookup in Hrect. apply Forall_lookup. intros k r Hk.
    destruct (decide (k = i)) as [->|Hne].
    + rewrite list_lookup_alter_eq in Hk.
      destruct (rows d !! i) as [r0|] eqn:Hr0; [|done].
      injection Hk as <-. rewrite length_insert. by eapply Hrect.
    + rewrite list_lookup_alter_ne in Hk by done. by eapply Hrect.
  - cbn [rows]. by rewrite length_alter.
  - intros k Hne. cbn [rows]. by rewrite list_lookup_alter_ne.
  - intros c' Hne. cbn [rows]. apply list_eq. intros k.
    rewrite !list_lookup_fmap. destruct (decide (k = i)) as [->|Hki].
    + rewrite list_lookup_alter_eq. destruct (rows d !! i) as [r|]; [|done].
      cbn. f_equal. by apply Hframe.
    + by rewrite list_lookup_alter_ne.
  - intros r Hr. exists (<[j := v']> r). split_and!.
    + cbn [rows]. by rewrite list_lookup_alter_eq, Hr.
    + intros c' Hne. by apply Hframe.
    + unfold field. cbn [columns]. rewrite Hj. unfold cell_at.
      rewrite list_lookup_insert_eq; [done|].
      unfold rectangular in Hrect. rewrite Forall_lookup in Hrect.
      rewrite (Hrect _ _ Hr). by eapply lookup_lt_Some.
Qed.

Lemma index_mask_0_first d pid i r :
  list_find (λ r, field d "ID" r = Str pid) (rows d) = Some (i, r) →
  index_mask_0 (Series_eq (field d "ID" <$> rows d) pid) = Ok i.
Proof.
  intros Hfind. unfold index_mask_0, Series_eq.
  rewrite <- list_fmap_compose, list_find_fmap.
  rewrite (list_find_ext _ (λ r, field d "ID" r = Str pid)).
  - by rewrite Hfind.
  - intros x. cbn. by rewrite bool_decide_eq_true.
Qed.

(** A run of [.at] assignments to one row, each of a value its column
    takes. *)
Lemma assign_all_spec (cvs : list (string * cell)) : ∀ d i r,
  (∀ cv, cv ∈ cvs → cv.1 ∈ columns d) → NoDup cvs.*1 → rectangular d →
  rows d !! i = Some r →
  (∀ c v, (c, v) ∈ cvs → ∃ v', cast (dtype_of (field d c <$> rows d)) v = Ok v') →
  ∃ d',
    assign_all d i cvs = Ok d' ∧
    columns d' = columns d ∧
    rectangular d' ∧
    length (rows d') = length (rows d) ∧
    (∀ k, k ≠ i → rows d' !! k = rows d !! k) ∧
    (∀ c', c' ∉ cvs.*1 → field d' c' <$> rows d' = field d c' <$> rows d) ∧
    ∃ r', rows d' !! i = Some r' ∧
          (∀ c', c' ∉ cvs.*1 → field d' c' r' = field d c' r) ∧
          (∀ c v, (c, v) ∈ cvs →
                  cast (dtype_of (field d c <$> rows d)) v = Ok (field d' c r')).
Proof.
  induction cvs as [|[c v] cvs IH]; intros d i r Hcols Hnodup Hrect Hr Hcast.
  - exists d. cbn [assign_all]. split_and!; try done. exists r. split_and!; try done.
    by intros c v ?%not_elem_of_nil.
  - cbn [assign_all]. cbn [fmap list_fmap fst] in Hnodup.
    apply NoDup_cons in Hnodup as [Hfresh Hnodup].
    destruct (Hcast c v) as [v' Hv']; [apply list_elem_of_here|].
    destruct (at_set_spec d i c v v')
      as (d1 & Hset & Hc1 & Hrect1 & Hlen1 & Hother1 & Hcols1 & Hrow1);
      [apply (Hcols (c, v)), list_elem_of_here | done | done |].
    destruct (Hrow1 r Hr) as (r1 & Hr1 & Hframe1 & Hset1).
    assert (∀ c0 v0, (c0, v0) ∈ cvs → c0 ≠ c) as Hne.
    { intros c0 v0 Hin ->. apply Hfresh.
      by apply (list_elem_of_fmap_2 fst _ (c, v0)). }
    destruct (IH d1 i r1)
      as (d' & Hrun & Hc2 & Hrect2 & Hlen2 & Hother2 & Hcols2 & r2 & Hr2 & Hframe2 & Hset2);
      [| done | done | done | |].
    { intros cv Hcv. rewrite Hc1. by apply Hcols, list_elem_of_further. }
    { intros c0 v0 Hin. rewrite (Hcols1 c0) by (by eapply Hne).
      by apply Hcast, list_elem_of_further. }
    exists d'. rewrite Hset. cbn [mbind result_bind]. split_and!.
    + done.
    + congruence.
    + done.
    + congruence.
    + intros k Hk. by rewrite Hother2, Hother1.
    + intros c' Hc'. cbn [fmap list_fmap fst] in Hc'.
      apply not_elem_of_cons in Hc' as [Hne' Hc'].
      by rewrite Hcols2, Hcols1.
    + exists r2. split_and!; [done | |].
      * intros c' Hc'. cbn [fmap list_fmap fst] in Hc'.
        apply not_elem_of_cons in Hc' as [Hne' Hc'].
        by rewrite Hframe2, Hframe1.
      * intros c0 v0 [[= -> ->]|Hin]%elem_of_cons.
        -- rewrite Hframe2 by done. by rewrite Hset1.
        -- rewrite <- (Hcols1 c0) by (by eapply Hne). by apply Hset2.
Qed.

(** Lines 174-181 are the lookup of the row followed by the five
    assignments. *)
Lemma update_record_unfold d pid form :
  update_record d pid form =
  (ids ← getitem d "ID";
   row_index ← index_mask_0 (Series_eq ids pid);
   assign_all d row_index (form_values form)).
Proof.
  unfold update_record. destruct (getitem d "ID") as [ids|]; [|done].
  cbn [mbind result_bind]. destruct (index_mask_0 _) as [i|]; [|done].
  cbn [mbind result_bind form_values assign_all].
  repeat (destruct (at_set _ _ _ _) as [?|]; [|done]; cbn [mbind result_bind]).
  done.
Qed.

(** What the form assigns, its columns take, when the counts are columns of
    numbers and Breachornot holds text. *)
Lemma form_values_cast d form :
  form_in_range form →
  (∀ c, c ∈ count_columns → number_column (field d c <$> rows d)) →
  holds_text (field d "Breachornot" <$> rows d) →
  ∀ c v, (c, v) ∈ form_values form →
    ∃ v', cast (dtype_of (field d c <$> rows d)) v = Ok v' ∧
          match v with
          | Int z => number v' = Some z
          | _ => v' = v
          end.
Proof.
  intros (Hage & Hlos & Hinv & Htreat) Hnum Htext c v Hin.
  unfold form_values in Hin.
  repeat (apply elem_of_cons in Hin as [[= -> ->]|Hin];
          [apply cast_number; [apply Hnum; unfold count_columns; in_list | done]|]).
  apply elem_of_cons in Hin as [[= -> ->]|Hin]; [|by apply not_elem_of_nil in Hin].
  exists (Str (breach_label (breach_choice form))). split; [|done].
  by apply cast_text.
Qed.

(** C4: when some row carries the identifier, in a table whose four count
    columns hold numbers (int64 integers, floats or missing values) and whose
    Breachornot column holds text, the update writes the form's five values
    (integers a number input can hold) into the first such
    row and nothing else: labels, number of rows and every other row are as
    before, and in the row written every cell under a label other than Age,
    LoS, noofinvestigation, nooftreatment and Breachornot (so the ID,
    noofpatients and the derived Breach_binary) keeps its previous value. *)
Theorem update_is_scoped d pid form :
  "ID" ∈ columns d →
  (∀ c, c ∈ updated_columns → c ∈ columns d) →
  rectangular d →
  form_in_range form →
  (∀ c, c ∈ count_columns → number_column (field d c <$> rows d)) →
  holds_text (field d "Breachornot" <$> rows d) →
  (∃ r, r ∈ rows d ∧ field d "ID" r = Str pid) →
  ∃ i r d' r',
    update_record d pid form = Ok d' ∧
    list_find (λ r, field d "ID" r = Str pid) (rows d) = Some (i, r) ∧
    columns d' = columns d ∧
    length (rows d') = length (rows d) ∧
    (∀ k, k ≠ i → rows d' !! k = rows d !! k) ∧
    rows d' !! i = Some r' ∧
    (∀ c, c ∉ updated_columns → field d' c r' = field d c r) ∧
    number (field d' "Age" r') = Some (age form) ∧
    number (field d' "LoS" r') = Some (los form) ∧
    number (field d' "noofinvestigation" r') = Some (investigations form) ∧
    number (field d' "nooftreatment" r') = Some (treatments form) ∧
    field d' "Breachornot" r' = Str (breach_label (breach_choice form)).
Proof.
  intros Hid Hcols Hrect Hform Hnum Htext (r0 & Hr0 & Hid0).
  destruct (list_find (λ r, field d "ID" r = Str pid) (rows d)) as [[i r]|] eqn:Hfind.
  2:{ apply list_find_None in Hfind. rewrite Forall_forall in Hfind.
      by destruct (Hfind r0 Hr0). }
  pose proof Hfind as (Hr & _ & _)%list_find_Some.
  pose proof (form_values_cast d form Hform Hnum Htext) as Hcast.
  destruct (assign_all_spec (form_values form) d i r)
    as (d' & Hrun & Hc & _ & Hlen & Hother & _ & r' & Hr' & Hframe & Hset);
    [| | done | done | |].
  { intros cv Hcv. apply Hcols. change updated_columns with (form_values form).*1.
    by apply list_elem_of_fmap_2. }
  { by apply (bool_decide_unpack _). }
  { intros c v Hin. destruct (Hcast c v Hin) as (v' & Hv' & _). eauto. }
  exists i, r, d', r'.
  assert (∀ c z, (c, Int z) ∈ form_values form → number (field d' c r') = Some z)
    as Hint.
  { intros c z Hin. destruct (Hcast _ _ Hin) as (v' & Hv' & Hz).
    rewrite (Hset _ _ Hin) in Hv'. by injection Hv' as ->. }
  split_and!; try done.
  - rewrite update_record_unfold, (getitem_in _ _ Hid). cbn [mbind result_bind].
    by rewrite (index_mask_0_first _ _ _ _ Hfind).
  - apply Hint. unfold form_values. in_list.
  - apply Hint. unfold form_values. in_list.
  - apply Hint. unfold form_values. in_list.
  - apply Hint. unfold form_values. in_list.
  - assert (("Breachornot", Str (breach_label (breach_choice form))) ∈ form_values form)
      as Hin by (unfold form_values; in_list).
    destruct (Hcast _ _ Hin) as (v' & Hv' & ->).
    rewrite (Hset _ _ Hin) in Hv'. by injection Hv'.
Qed.

(** The other side of the hypotheses: a count column that holds text takes
    no integer, and the update ends in a [TypeError] at line 177. *)
Lemma update_text_column :
  update_record unknown_age_df "P2" sample_form = Raise TypeError.
Proof. by vm_compute. Qed.

End update_facts.

(** ** Dashboard metrics *)

Section metrics_facts.
Implicit Types (d : DataFrame) (s : Series).

Lemma Series_sum_numeric s :
  numeric s → Series_sum s = Ok (foldr Z.add 0 (summand <$> s)).
Proof.
  induction 1 as [|c s Hc _ IH]; [done|].
  cbn [Series_sum]. rewrite IH. cbn [mbind result_bind].
  destruct c as [z|z|t|]; try done. by destruct (Hc t).
Qed.

Lemma numbers_all s :
  Forall is_number s → numbers s = Ok (summand <$> s).
Proof.
  induction 1 as [|c s Hc _ IH]; [done|].
  cbn [numbers]. rewrite IH. cbn [mbind result_bind].
  destruct c as [z|z|t|]; try done; by destruct Hc.
Qed.

Lemma abs_sum_bound (zs : list Z) B :
  Forall (λ z, Z.abs z ≤ B) zs →
  foldr Z.add 0 (Z.abs <$> zs) ≤ Z.of_nat (length zs) * B ∧
  Z.abs (foldr Z.add 0 zs) ≤ foldr Z.add 0 (Z.abs <$> zs).
Proof.
  induction 1 as [|z zs Hz _ [IH1 IH2]]; cbn [foldr fmap list_fmap length]; lia.
Qed.

(** The mean of at most 2^21 integers of at most 2^31 in magnitude, as
    float64 computes and rounds it. *)
Lemma float_mean_2dp (zs : list Z) :
  zs ≠ [] → Z.of_nat (length zs) ≤ 2 ^ 21 → Forall (λ z, Z.abs z ≤ 2 ^ 31) zs →
  ∃ r,
    round (fin (binary64 (float_sum zs / inject_Z (Z.of_nat (length zs))))) 2 = fin r ∧
    float_2dp (arithmetic_mean zs) r.
Proof.
  intros Hne Hlen Hall.
  destruct (abs_sum_bound zs _ Hall) as [Hsum Habs].
  assert (0 < Z.of_nat (length zs) ≤ 2 ^ 21) as Hn.
  { split; [|done]. destruct zs; [done|]. cbn [length]. lia. }
  rewrite float_sum_exact by nia.
  unfold arithmetic_mean.
  set (S := foldr Z.add 0 zs) in *. set (n := Z.of_nat (length zs)) in *.
  assert (0 < inject_Z n)%Q as Hnpos.
  { change 0%Q with (inject_Z 0). rewrite <- Zlt_Qlt. lia. }
  assert (inject_Z n <= 2097152)%Q as Hnmax.
  { change 2097152%Q with (inject_Z (2 ^ 21)). rewrite <- Zle_Qle. lia. }
  assert (inject_Z S <= 2147483648 * inject_Z n)%Q as Hhi.
  { change 2147483648%Q with (inject_Z (2 ^ 31)).
    rewrite <- inject_Z_mult, <- Zle_Qle. lia. }
  assert (- (2147483648 * inject_Z n) <= inject_Z S)%Q as Hlo.
  { change 2147483648%Q with (inject_Z (2 ^ 31)).
    rewrite <- inject_Z_mult, <- inject_Z_opp, <- Zle_Qle. lia. }
  apply round_float_2dp.
  - destruct (Z.lt_trichotomy S 0) as [Hneg|[Hzero|Hpos]].
    + right. assert (inject_Z S <= -1)%Q as H1.
      { change (-1)%Q with (inject_Z (-1)). rewrite <- Zle_Qle. lia. }
      apply Qle_trans with (- (inject_Z S / inject_Z n))%Q;
        [|rewrite <- Qabs_opp; apply Qle_Qabs].
      assert (- (inject_Z S / inject_Z n) == (- inject_Z S) / inject_Z n)%Q as ->
        by (field; lra).
      apply Qle_shift_div_l; [done|]. lra.
    + left. rewrite Hzero. field. lra.
    + right. assert (1 <= inject_Z S)%Q as H1.
      { change 1%Q with (inject_Z 1). rewrite <- Zle_Qle. lia. }
      apply Qle_trans with (inject_Z S / inject_Z n)%Q; [|apply Qle_Qabs].
      apply Qle_shift_div_l; [done|]. lra.
  - change (inject_Z (2 ^ 31)) with 2147483648%Q. apply Qabs_Qle_condition. split.
    + apply Qle_shift_div_l; [done|]. lra.
    + apply Qle_shift_div_r; [done|]. lra.
Qed.

(** C1: for a table of at most 2^21 rows whose Breach_binary column holds
    numbers or missing values and whose LoS column holds numbers, none of
    them above 2^31 in magnitude, the metrics are: the number of rows; the
    sum of Breach_binary over the rows; and, when there is a row, the mean of
    LoS as float64 arithmetic computes and rounds it, which is the float64
    nearest to a whole number [k] of hundredths with [k] within 1/2 + 1/10000
    of a hundred times the arithmetic mean.  On the table loaded from the
    file with Breachornot non-breach, breach, breach and LoS 10, 20, 30 the
    metrics are 3, 2 and 20.0. *)
Theorem dashboard_metrics_correct :
  (∀ d,
     "Breach_binary" ∈ columns d → "LoS" ∈ columns d →
     numeric (field d "Breach_binary" <$> rows d) →
     Forall is_number (field d "LoS" <$> rows d) →
     len d ≤ 2 ^ 21 →
     (∀ r, r ∈ rows d →
           Z.abs (summand (field d "Breach_binary" r)) ≤ 2 ^ 31 ∧
           Z.abs (summand (field d "LoS" r)) ≤ 2 ^ 31) →
     ∃ m,
       dashboard_metrics d = Ok m ∧
       total_patients m = Z.of_nat (length (rows d)) ∧
       breach_cases m =
         foldr Z.add 0 ((λ r, summand (field d "Breach_binary" r)) <$> rows d) ∧
       (rows d ≠ [] →
        ∃ avg,
          average_length_of_stay m = fin avg ∧
          float_2dp
            (arithmetic_mean ((λ r, summand (field d "LoS" r)) <$> rows d)) avg)) ∧
  (∃ d,
     load_dataset sample_files = Ok (Some d) ∧
     field d "Breachornot" <$> rows d = [Str "non-breach"; Str "breach"; Str "breach"] ∧
     field d "LoS" <$> rows d = [Int 10; Int 20; Int 30] ∧
     dashboard_metrics d =
       Ok {| total_patients := 3; breach_cases := 2;
             average_length_of_stay := fin (20 # 1) |}).
Proof.
  split.
  - intros d Hbb Hlos Hnum Hall Hlen Hsmall. unfold dashboard_metrics.
    rewrite (getitem_in _ _ Hbb). cbn [mbind result_bind].
    rewrite (Series_sum_numeric _ Hnum). cbn [mbind result_bind].
    rewrite (getitem_in _ _ Hlos). cbn [mbind result_bind].
    unfold Series_mean. rewrite (numbers_all _ Hall). cbn [mbind result_bind].
    rewrite <- !list_fmap_compose.
    change ((λ r, summand (field d "LoS" r)) <$> rows d)
      with ((summand ∘ field d "LoS") <$> rows d).
    remember ((summand ∘ field d "LoS") <$> rows d) as zs eqn:Hzs.
    destruct zs as [|z zs'].
    + eexists. split; [reflexivity|]. cbn. split_and!; [done | done |].
      intros Hne. destruct (rows d); [done | discriminate].
    + cbn [mbind result_bind].
      eexists. split; [reflexivity|]. cbn [total_patients breach_cases
        average_length_of_stay]. split_and!; [done | done |].
      intros _.
      destruct (float_mean_2dp (z :: zs')) as (avg & Havg & Hmean); [done | | |].
      { rewrite Hzs, length_fmap. exact Hlen. }
      { rewrite Hzs. apply Forall_fmap, Forall_forall. intros r Hr.
        by apply Hsmall. }
      exists avg. by split.
  - exists sample_df. by vm_compute.
Qed.

(** C1, the counterexample: for two stays of 2^63 - 1 minutes float64 has no
    room for the last digit; the mean shown is 2^63, one more than the
    arithmetic mean and so more than a hundredth away from it. *)
Lemma float64_mean_is_off : ¬ mean_is_rounded_to_2dp.
Proof.
  intros Hclaim.
  destruct (dashboard_metrics long_stay_df) as [m|] eqn:Hrun; [|by vm_compute in Hrun].
  destruct (Hclaim long_stay_df m) as (avg & Havg & Hnear);
    [in_list | in_list | | | done | done |].
  - repeat (constructor; [intros t; discriminate|]). constructor.
  - repeat (constructor; [by eexists|]). constructor.
  - vm_compute in Hrun. injection Hrun as <-. cbn in Havg. injection Havg as <-.
    vm_compute in Hnear. by apply Hnear.
Qed.

(** The mean shown for them, and for the mean 23/40, which float64 holds
    a little below 0.575. *)
Lemma float64_means :
  (∃ m, dashboard_metrics long_stay_df = Ok m ∧
        average_length_of_stay m = fin (inject_Z (2 ^ 63))) ∧
  round (fin (binary64 (23 # 40))) 2 = fin (binary64 (57 # 100)).
Proof. split; [eexists; split|]; by vm_compute. Qed.

(** C9: on a table without rows the three metrics are computed without an
    exception: the two counts are 0 and the mean is not-a-number (the mean of
    an empty column divides nothing). *)
Theorem dashboard_metrics_no_rows d :
  rows d = [] →
  "Breach_binary" ∈ columns d → "LoS" ∈ columns d →
  dashboard_metrics d =
  Ok {| total_patients := 0; breach_cases := 0; average_length_of_stay := nan |}.
Proof.
  intros Hrows Hbb Hlos. unfold dashboard_metrics, len.
  rewrite (getitem_in _ _ Hbb), (getitem_in _ _ Hlos), Hrows. reflexivity.
Qed.

End metrics_facts.

(** ** Numerals and the texts of a CSV file *)

Section numeral_facts.
Implicit Types (z : Z) (s t : string) (a : Ascii.ascii).

(** Stripping leaves a string without whitespace as it is. *)
Lemma lstrip_id s : (∀ a, occurs a s = true → is_space a = false) → lstrip s = s.
Proof.
  destruct s as [|a s]; [done|]. intros H. cbn [lstrip].
  rewrite (H a); [done|]. cbn. by rewrite Ascii.eqb_refl.
Qed.

Lemma rstrip_id s : (∀ a, occurs a s = true → is_space a = false) → rstrip s = s.
Proof.
  induction s as [|a s IH]; [done|]. intros H. cbn [rstrip].
  rewrite IH.
  - rewrite (H a) by (cbn; by rewrite Ascii.eqb_refl). by destruct s.
  - intros b Hb. apply H. cbn. by rewrite Hb, orb_true_r.
Qed.

Lemma occurs_app a s t : occurs a (s +:+ t) = occurs a s || occurs a t.
Proof. induction s as [|b s IH]; simpl; [done|]. by rewrite IH, orb_assoc. Qed.

(** The characters of a numeral. *)
Lemma occurs_uint a (d : Decimal.uint) :
  occurs a (NilEmpty.string_of_uint d) = true →
  is_space a = false ∧ Ascii.eqb a "." = false.
Proof.
  induction d; cbn; [done|..];
    (intros [Heq%Ascii.eqb_eq|?]%orb_true_iff; [by subst a | auto]).
Qed.

Lemma occurs_str_of_int a z :
  occurs a (str_of_int z) = true → is_space a = false ∧ Ascii.eqb a "." = false.
Proof.
  unfold str_of_int, NilZero.string_of_int, NilZero.string_of_uint.
  destruct (Z.to_int z) as [d|d]; destruct d; cbn;
    try (intros [Heq%Ascii.eqb_eq|H]%orb_true_iff; [by subst a|]);
    try (revert H; intros [Heq%Ascii.eqb_eq|H]%orb_true_iff; [by subst a|]);
    try done; by apply occurs_uint in H.
Qed.

Lemma signed_str_of_int z : signed (str_of_int z) = Some z.
Proof.
  assert (NilZero.int_of_string (str_of_int z) = Some (Z.to_int z)) as Hint.
  { unfold str_of_int. apply NilZero.isi.
    - destruct z as [|p|p]; [done | | done].
      intros [= Hp]. by apply (DecimalPos.Unsigned.to_uint_nonnil p).
    - destruct z as [|p|p]; [done | done |].
      intros [= Hp]. by apply (DecimalPos.Unsigned.to_uint_nonnil p). }
  unfold signed. destruct (str_of_int z) as [|a s] eqn:Hs; [done|].
  assert (Ascii.eqb a "+" = false) as ->.
  { destruct (occurs_str_of_int a z) as [_ _].
    { rewrite Hs. cbn. by rewrite Ascii.eqb_refl. }
    apply not_true_iff_false. intros ->%Ascii.eqb_eq.
    cbn in Hint. by destruct (NilEmpty.uint_of_string s). }
  rewrite Hint. cbn. f_equal. apply DecimalZ.of_to.
Qed.

Lemma integer_of_str_of_int z : integer_of_text (str_of_int z) = Some z.
Proof.
  unfold integer_of_text.
  rewrite lstrip_id, rstrip_id by (intros a Ha; apply occurs_str_of_int in Ha; tauto).
  apply signed_str_of_int.
Qed.

Lemma no_dot_uint (d : Decimal.uint) : occurs "."%char (NilEmpty.string_of_uint d) = false.
Proof. induction d; cbn; auto. Qed.

Lemma digits_no_dot s z : digits s = Some z → occurs "."%char s = false.
Proof.
  unfold digits, NilZero.uint_of_string. destruct s as [|a s]; [done|].
  destruct (NilEmpty.uint_of_string (String a s)) as [d|] eqn:Hd; [|done].
  intros _. apply NilEmpty.sus in Hd as <-. apply no_dot_uint.
Qed.

Lemma signed_no_dot s z : signed s = Some z → occurs "."%char s = false.
Proof.
  unfold signed. destruct s as [|a s]; [done|].
  destruct (Ascii.eqb a "+") eqn:Hplus.
  - apply Ascii.eqb_eq in Hplus as ->. intros H%digits_no_dot. by cbn.
  - destruct (NilZero.int_of_string (String a s)) as [d|] eqn:Hd; [|done].
    intros _. apply NilZero.sis in Hd as <-.
    unfold NilZero.string_of_int, NilZero.string_of_uint.
    destruct d as [d|d]; destruct d; cbn; auto using no_dot_uint.
Qed.

Lemma int_part_app s : int_part (s +:+ ".0") = Some s.
Proof.
  induction s as [|a s IH]; [done|].
  simpl. rewrite IH.
  assert ((s +:+ ".0" =? "0")%string = false) as ->.
  { apply String.eqb_neq. by destruct s as [|b [|??]]. }
  by destruct (Ascii.eqb a ".").
Qed.

Lemma decimal_spaceless z a :
  occurs a (str_of_int z +:+ ".0") = true → is_space a = false.
Proof.
  rewrite occurs_app. intros [H%occurs_str_of_int|H]%orb_true_iff; [tauto|].
  cbn in H. rewrite orb_false_r in H.
  apply orb_true_iff in H as [->%Ascii.eqb_eq| ->%Ascii.eqb_eq]; done.
Qed.

Lemma integer_of_decimal z : integer_of_text (str_of_int z +:+ ".0") = None.
Proof.
  unfold integer_of_text.
  rewrite lstrip_id, rstrip_id by apply decimal_spaceless.
  destruct (signed _) as [z'|] eqn:Hz; [|done].
  apply signed_no_dot in Hz. by rewrite occurs_app, orb_true_r in Hz.
Qed.

Lemma decimal_of_str_of_int z : decimal_of_text (str_of_int z +:+ ".0") = Some z.
Proof.
  unfold decimal_of_text.
  rewrite lstrip_id, rstrip_id by apply decimal_spaceless.
  rewrite int_part_app. apply signed_str_of_int.
Qed.

Lemma na_is_no_number s :
  is_na s = true → integer_of_text s = None ∧ decimal_of_text s = None.
Proof.
  unfold is_na. rewrite bool_decide_eq_true. revert s. apply Forall_forall.
  unfold na_values. repeat (constructor; [by vm_compute|]). constructor.
Qed.

Lemma is_na_int z : is_na (str_of_int z) = false.
Proof.
  apply not_true_iff_false. intros [Hna _]%na_is_no_number.
  by rewrite integer_of_str_of_int in Hna.
Qed.

Lemma is_na_float z : is_na (str_of_int z +:+ ".0") = false.
Proof.
  apply not_true_iff_false. intros [_ Hna]%na_is_no_number.
  by rewrite decimal_of_str_of_int in Hna.
Qed.

(** A text that starts with a letter is no numeral. *)
Lemma letter_chars a :
  is_letter a = true →
  is_space a = false ∧ Ascii.eqb a "+" = false ∧ Ascii.eqb a "-" = false ∧
  Ascii.eqb a "." = false ∧ ∀ d, uint_of_char a d = None.
Proof.
  destruct a as [[] [] [] [] [] [] [] []]; intros Hletter;
    try discriminate Hletter; split_and!; try done; by intros [].
Qed.

Lemma rstrip_cons a s : is_space a = false → ∃ r, rstrip (String a s) = String a r.
Proof. intros Ha. cbn [rstrip]. rewrite Ha. destruct (rstrip s); eauto. Qed.

Lemma signed_letter a s : is_letter a = true → signed (String a s) = None.
Proof.
  intros (_ & Hplus & Hminus & _ & Hdigit)%letter_chars.
  unfold signed. rewrite Hplus. cbn. rewrite Hminus. cbn.
  by rewrite Hdigit.
Qed.

Lemma letter_is_no_number a s :
  is_letter a = true →
  integer_of_text (String a s) = None ∧ decimal_of_text (String a s) = None.
Proof.
  intros Hletter. pose proof (letter_chars a Hletter) as (Hspace & _ & _ & Hdot & _).
  unfold integer_of_text, decimal_of_text. cbn [lstrip]. rewrite Hspace.
  destruct (rstrip_cons a s Hspace) as [r ->]. split; [by apply signed_letter|].
  cbn [int_part]. assert ((String a r =? ".0")%string = false) as ->.
  { cbn. by rewrite Hdot. }
  destruct (int_part r) as [x|]; [|done]. cbn. by apply signed_letter.
Qed.

End numeral_facts.

(** ** Writing a table and reading it back *)

Section csv_facts.
Implicit Types (d : DataFrame) (s : Series) (c : cell) (r : Row).

Lemma forallb_elem {A} (f : A → bool) (l : list A) :
  forallb f l = true ↔ ∀ x, x ∈ l → f x = true.
Proof.
  rewrite forallb_forall. split; intros H x Hx; apply H; by apply list_elem_of_In.
Qed.

Lemma forallb_refuted {A} (f : A → bool) (l : list A) x :
  x ∈ l → f x = false → forallb f l = false.
Proof.
  intros Hx Hf. apply not_true_iff_false. rewrite forallb_elem.
  intros H. specialize (H x Hx). congruence.
Qed.

Lemma existsb_elem {A} (f : A → bool) (l : list A) :
  existsb f l = true ↔ ∃ x, x ∈ l ∧ f x = true.
Proof.
  rewrite existsb_exists. split; intros (x & Hx & Hf); exists x;
    (split; [by apply list_elem_of_In | done]).
Qed.

(** The first attempt of the reader on a column without integers. *)
Lemma try_int64_no_integer (texts : list string) :
  Forall (λ t, is_na t = true ∨ integer_of_text t = None) texts →
  try_int64 texts = if forallb is_na texts then Converted else Invalid.
Proof.
  induction 1 as [|t texts Ht _ IH]; [done|]. cbn [try_int64 forallb].
  destruct (is_na t) eqn:Hna; [by rewrite IH|].
  destruct Ht as [?| ->]; [congruence | done].
Qed.

Lemma forallb_existsb {A} (f : A → bool) (l : list A) :
  l ≠ [] → forallb f l = true → existsb f l = true.
Proof. destruct l as [|x l]; [done|]. cbn. by intros _ [-> _]%andb_true_iff. Qed.

(** A column of int64 integers. *)
Lemma infer_int64 (texts : list string) :
  Forall (λ t, ∃ z, integer_of_text t = Some z ∧ - 2 ^ 63 ≤ z < 2 ^ 63) texts →
  infer texts = int64.
Proof.
  intros Hall.
  assert (try_int64 texts = Converted ∧ existsb is_na texts = false) as [Htry Hna].
  { induction Hall as [|t texts (z & Hz & Hrange) _ [IH1 IH2]]; [done|].
    cbn [try_int64 existsb].
    assert (is_na t = false) as ->.
    { apply not_true_iff_false. intros [? _]%na_is_no_number. congruence. }
    rewrite Hz, bool_decide_true by done. by rewrite IH1, IH2. }
  unfold infer. by rewrite Htry, Hna.
Qed.

(** A column of missing values and integral decimals. *)
Lemma infer_float64 (texts : list string) :
  texts ≠ [] →
  Forall (λ t, is_na t = true ∨ (integer_of_text t = None ∧ is_float t = true)) texts →
  infer texts = float64.
Proof.
  intros Hne Hall. unfold infer. rewrite try_int64_no_integer.
  2:{ eapply Forall_impl; [exact Hall|]. cbn. tauto. }
  destruct (forallb is_na texts) eqn:Hna.
  - by rewrite (forallb_existsb _ _ Hne Hna).
  - assert (forallb (λ t, is_na t || is_int t || is_float t) texts = true) as ->; [|done].
    apply forallb_elem. intros t Ht. rewrite Forall_forall in Hall.
    destruct (Hall t Ht) as [->|[_ ->]]; [done | by rewrite orb_true_r].
Qed.

Lemma try_int64_converted (texts : list string) t :
  try_int64 texts = Converted → t ∈ texts →
  is_na t = true ∨ is_Some (integer_of_text t).
Proof.
  induction texts as [|t0 texts IH]; [by intros _ ?%not_elem_of_nil|].
  cbn [try_int64]. intros Htry [->|Hin]%elem_of_cons.
  - destruct (is_na t0); [by left|]. destruct (integer_of_text t0); [by right|done].
  - apply IH; [|done]. destruct (is_na t0); [done|].
    destruct (integer_of_text t0); [|done]. by destruct (bool_decide _).
Qed.

Lemma try_uint64_converted (texts : list string) t :
  try_uint64 texts = Converted → t ∈ texts →
  is_na t || minus t = true ∨ is_Some (integer_of_text t).
Proof.
  induction texts as [|t0 texts IH]; [by intros _ ?%not_elem_of_nil|].
  cbn [try_uint64]. intros Htry [->|Hin]%elem_of_cons.
  - destruct (is_na t0 || minus t0); [by left|].
    destruct (integer_of_text t0); [by right|done].
  - apply IH; [|done]. destruct (is_na t0 || minus t0); [done|].
    destruct (integer_of_text t0); [|done]. by destruct (bool_decide _).
Qed.

(** A column with a text that is neither a missing value nor a number is a
    text column. *)
Lemma infer_str (texts : list string) t0 :
  t0 ∈ texts → is_na t0 = false →
  integer_of_text t0 = None → decimal_of_text t0 = None →
  infer texts = str.
Proof.
  intros Ht0 Hna0 Hint Hdec. unfold infer.
  rewrite (forallb_refuted (λ t, is_na t || is_int t || is_float t) _ t0 Ht0).
  2:{ unfold is_int, is_float. by rewrite Hna0, Hint, Hdec. }
  destruct (try_int64 texts) eqn:Htry; [| |done].
  - destruct (try_int64_converted _ _ Htry Ht0) as [?|[z Hz]]; congruence.
  - destruct (try_uint64 texts) eqn:Htry'; [|done..].
    destruct (try_uint64_converted _ _ Htry' Ht0) as [Hsign|[z Hz]]; [|congruence].
    assert (existsb (λ t, is_na t || minus t) texts = true) as ->; [|done].
    apply existsb_elem. eauto.
Qed.

Lemma plain_text_spec t :
  plain_text t = true →
  is_na t = false ∧ integer_of_text t = None ∧ decimal_of_text t = None.
Proof.
  unfold plain_text. rewrite !andb_true_iff, !negb_true_iff.
  intros [[[Hletter _] Hna] _]. split; [done|].
  destruct t as [|a t]; [done|]. by apply letter_is_no_number.
Qed.

(** The dtype inferred from the texts of a storable column reads every
    text of the column back into the cell it was written from. *)
Lemma parse_column s c :
  storable_column s = true → c ∈ s →
  parse (infer (render <$> s)) (render c) = c.
Proof.
  unfold storable_column. rewrite !orb_true_iff.
  intros [[Hint|Hflt]|Hobj] Hc.
  - (* int64 *)
    rewrite forallb_elem in Hint.
    rewrite infer_int64.
    + specialize (Hint c Hc). destruct c as [z| | |]; try done.
      cbn. by rewrite integer_of_str_of_int.
    + apply Forall_fmap, Forall_forall. intros c' Hc'. specialize (Hint c' Hc').
      destruct c' as [z| | |]; try done. apply bool_decide_eq_true in Hint.
      exists z. cbn. rewrite integer_of_str_of_int. split; [done | lia].
  - (* float64 *)
    rewrite forallb_elem in Hflt.
    rewrite infer_float64.
    + specialize (Hflt c Hc). destruct c as [|z| |]; try done.
      apply bool_decide_eq_true in Hflt.
      cbn [render parse].
      rewrite is_na_float, integer_of_decimal, decimal_of_str_of_int. cbn.
      rewrite to_float64_exact; [done | lia].
    + intros Hnil. apply fmap_nil_inv in Hnil. subst s. by apply not_elem_of_nil in Hc.
    + apply Forall_fmap, Forall_forall. intros c' Hc'. specialize (Hflt c' Hc').
      destruct c' as [|z| |]; try done; [right | by left]. cbn [render]. split.
      * apply integer_of_decimal.
      * unfold is_float. by rewrite decimal_of_str_of_int.
  - (* text *)
    rewrite forallb_elem in Hobj.
    assert (Forall (λ t, is_na t = true ∨
                         (integer_of_text t = None ∧ decimal_of_text t = None))
              (render <$> s)) as Hall.
    { apply Forall_fmap, Forall_forall. intros c' Hc'. specialize (Hobj c' Hc').
      destruct c' as [| |t|]; try done; [|by left].
      right. by apply plain_text_spec in Hobj as (_ & ? & ?). }
    destruct (existsb (λ x : cell, match x with Str _ => true | _ => false end) s)
      eqn:Hex.
    + apply existsb_elem in Hex as (c0 & Ht0 & Hstr).
      destruct c0 as [| |t0|]; try done.
      pose proof (Hobj _ Ht0) as (Hna0 & Hint0 & Hdec0)%plain_text_spec.
      rewrite (infer_str _ t0); [| by apply (list_elem_of_fmap_2 render _ (Str t0)) | done..].
      specialize (Hobj c Hc). destruct c as [| |t|]; try done.
      apply plain_text_spec in Hobj as (Hna & _). cbn. by rewrite Hna.
    + assert (∀ c', c' ∈ s → c' = NaN) as Hnan.
      { intros c' Hc'. specialize (Hobj c' Hc').
        destruct c' as [| |t|]; try done.
        apply not_true_iff_false in Hex. destruct Hex. apply existsb_elem. eauto. }
      rewrite infer_float64.
      * by rewrite (Hnan c Hc).
      * intros Hnil. apply fmap_nil_inv in Hnil. subst s. by apply not_elem_of_nil in Hc.
      * apply Forall_fmap, Forall_forall. intros c' Hc'. rewrite (Hnan c' Hc'). by left.
Qed.

Lemma column_texts_to_csv d j :
  column_texts (records (to_csv d)) j = render <$> (cell_at j <$> rows d).
Proof.
  unfold column_texts, to_csv. cbn [records].
  rewrite <- !list_fmap_compose. apply list_fmap_ext. intros _ r _. cbn.
  unfold cell_at. rewrite list_lookup_fmap. by destruct (r !! j).
Qed.

(** Reading a file whose records all have the length of its header: no blank
    line to skip and no record to fill up. *)
Lemma read_csv_regular (f : File) :
  header f ≠ [] →
  Forall (λ rec : list string, length rec = length (header f)) (records f) →
  read_csv f =
  Ok {| columns := header f;
        rows := (λ rec : list string,
                   zip_with parse
                     ((λ j, infer (column_texts (records f) j)) <$>
                      seq 0 (length (header f))) rec) <$> records f |}.
Proof.
  intros Hhead Hwf. unfold read_csv.
  destruct (header f) as [|h hs] eqn:Hh; [done|]. rewrite <- Hh in *.
  assert (0 < length (header f))%nat as Hpos by (rewrite Hh; cbn; lia).
  assert (filter (λ r : list string, r ≠ []) (records f) = records f) as ->.
  { apply filter_all. eapply Forall_impl; [exact Hwf|]. cbn.
    intros rec Hlen ->. cbn in Hlen. lia. }
  assert (forallb (λ r : list string, bool_decide (length r ≤ length (header f))%nat)
            (records f) = true) as ->.
  { apply forallb_elem. intros rec Hrec. apply bool_decide_eq_true.
    rewrite Forall_forall in Hwf. rewrite (Hwf rec Hrec). lia. }
  do 2 f_equal. apply list_fmap_ext. intros _ rec Hrec%list_elem_of_lookup_2.
  rewrite Forall_forall in Hwf. rewrite (Hwf rec Hrec), Nat.sub_diag. cbn.
  by rewrite app_nil_r.
Qed.

(** [read_csv] undoes [to_csv] on a storable table. *)
Lemma read_csv_to_csv d : storable d = true → read_csv (to_csv d) = Ok d.
Proof.
  unfold storable. rewrite !andb_true_iff, negb_true_iff, bool_decide_eq_false.
  intros [[[[Hcols _] _] Hrect] Hstor].
  rewrite forallb_elem in Hrect. rewrite forallb_elem in Hstor.
  rewrite read_csv_regular.
  2:{ done. }
  2:{ cbn [header records to_csv]. apply Forall_fmap, Forall_forall.
      intros r Hr. cbn. rewrite length_fmap. by apply (bool_decide_eq_true_1 _), Hrect. }
  f_equal. destruct d as [cs rs]. cbn [columns rows header records to_csv] in *.
  f_equal. rewrite <- list_fmap_compose.
  transitivity (id <$> rs); [|apply list_fmap_id].
  apply list_fmap_ext. intros _ r Hr%list_elem_of_lookup_2. cbn.
  specialize (Hrect r Hr). apply bool_decide_eq_true in Hrect.
  apply list_eq. intros j. rewrite lookup_zip_with, !list_lookup_fmap.
  destruct (r !! j) as [c|] eqn:Hj.
  - assert (j < length cs)%nat as Hlt by (rewrite <- Hrect; by eapply lookup_lt_Some).
    assert (seq 0 (length cs) !! j = Some j) as -> by (by apply lookup_seq).
    cbn. f_equal.
    pose proof (column_texts_to_csv {| columns := cs; rows := rs |} j) as Htexts.
    cbn [records to_csv rows] in Htexts. rewrite Htexts.
    assert (c = cell_at j r) as Hcell by (unfold cell_at; by rewrite Hj).
    apply parse_column.
    + apply Hstor. apply list_elem_of_In, in_seq. lia.
    + rewrite Hcell. by apply list_elem_of_fmap_2.
  - cbn. by destruct (seq 0 (length cs) !! j).
Qed.

End csv_facts.

(** ** Load dataset *)

Section load_facts.
Implicit Types (d : DataFrame) (s : Series) (c : string) (f : File).

(** What [read_csv] returns when it returns. *)
Lemma read_csv_inv f d :
  read_csv f = Ok d →
  header f ≠ [] ∧
  Forall (λ rec : list string, (length rec ≤ length (header f))%nat) (data_records f) ∧
  d = {| columns := header f;
         rows := (λ rec : list string,
                    zip_with parse
                      ((λ j, infer (column_texts (data_records f) j)) <$>
                       seq 0 (length (header f)))
                      (rec ++ replicate (length (header f) - length rec) ""))
                 <$> data_records f |}.
Proof.
  unfold read_csv, data_records. destruct (header f) as [|h hs] eqn:Hh; [done|].
  rewrite <- Hh. destruct (forallb _ _) eqn:Hlen; [|done]. intros [= <-].
  split_and!; [by rewrite Hh | | done].
  apply Forall_forall. intros rec Hrec. rewrite forallb_elem in Hlen.
  by apply (bool_decide_eq_true_1 _), Hlen.
Qed.

Lemma read_csv_Ok f d :
  read_csv f = Ok d → columns d = header f ∧ rectangular d.
Proof.
  intros (_ & Hlen & ->)%read_csv_inv. split; [done|].
  unfold rectangular. cbn [columns rows].
  apply Forall_fmap, Forall_forall. intros rec Hrec. cbn.
  rewrite Forall_forall in Hlen. specialize (Hlen rec Hrec).
  rewrite length_zip_with, length_fmap, length_seq, length_app, length_replicate. lia.
Qed.

Lemma zip_with_cells {A} (P : Row → Prop) (g : Row → A) (f : Row → cell → Row)
    (k : Row → cell → A) (l : list Row) s :
  Forall P l → (∀ r v, P r → g (f r v) = k r v) →
  g <$> zip_with f l s = zip_with k l s.
Proof.
  intros Hl Hg. revert s. induction Hl as [|r l Hr _ IH]; intros [|v s]; try done.
  cbn. by rewrite Hg, IH.
Qed.

Lemma zip_with_second {A B} (l : list A) (k : list B) :
  length k = length l → zip_with (λ _ y, y) l k = k.
Proof.
  revert k. induction l as [|x l IH]; intros [|y k]; try done.
  cbn. intros [= Hlen]. by rewrite IH.
Qed.

Lemma zip_with_first {A B C} (g : A → C) (l : list A) (k : list B) :
  length k = length l → zip_with (λ x _, g x) l k = g <$> l.
Proof.
  revert k. induction l as [|x l IH]; intros [|y k]; try done.
  cbn. intros [= Hlen]. by rewrite IH.
Qed.

Lemma get_loc_app_new cols c :
  c ∉ cols → get_loc (cols ++ [c]) c = Ok (length cols).
Proof.
  intros Hc. unfold get_loc. rewrite list_find_app_r.
  - cbn. rewrite decide_True by done. cbn. f_equal; lia.
  - apply list_find_None, Forall_forall. by intros x Hx ->.
Qed.

Lemma get_loc_app_old cols c c' :
  c' ≠ c → get_loc (cols ++ [c]) c' = get_loc cols c'.
Proof.
  intros Hne. unfold get_loc.
  destruct (list_find (λ x, x = c') cols) as [[j x]|] eqn:Hfind.
  - by rewrite (list_find_app_l _ _ _ _ _ Hfind).
  - rewrite list_find_app_r by done. cbn. by rewrite decide_False.
Qed.

(** After [df[c] = s] the column under [c] is [s]. *)
Lemma getitem_setitem d c s :
  rectangular d → length s = length (rows d) →
  getitem (setitem d c s) c = Ok s.
Proof.
  intros Hrect Hlen. unfold setitem.
  destruct (list_find (λ x, x = c) (columns d)) as [[j x]|] eqn:Hfind.
  - unfold getitem, get_loc. cbn [columns rows]. rewrite Hfind.
    cbn [mbind result_bind]. f_equal.
    apply list_find_Some in Hfind as (Hj%lookup_lt_Some & _ & _).
    rewrite (zip_with_cells (λ r, length r = length (columns d)) _ _ (λ _ v, v));
      [by apply zip_with_second | done |].
    intros r v Hr. unfold cell_at. rewrite list_lookup_insert_eq; [done|].
    by rewrite Hr.
  - unfold getitem. cbn [columns rows]. rewrite get_loc_app_new.
    2:{ apply list_find_None in Hfind. rewrite Forall_forall in Hfind.
        intros Hin. by apply (Hfind c Hin). }
    cbn [mbind result_bind]. f_equal.
    rewrite (zip_with_cells (λ r, length r = length (columns d)) _ _ (λ _ v, v));
      [by apply zip_with_second | done |].
    intros r v Hr. unfold cell_at. rewrite <- Hr. by rewrite list_lookup_middle.
Qed.

(** ... and every other column is what it was. *)
Lemma getitem_setitem_ne d c c' s :
  c' ≠ c → rectangular d → length s = length (rows d) →
  getitem (setitem d c s) c' = getitem d c'.
Proof.
  intros Hne Hrect Hlen. unfold setitem.
  destruct (list_find (λ x, x = c) (columns d)) as [[j x]|] eqn:Hfind.
  - unfold getitem. cbn [columns rows].
    destruct (get_loc (columns d) c') as [j'|] eqn:Hj'; [|done].
    cbn [mbind result_bind]. f_equal.
    apply list_find_Some in Hfind as (Hj & -> & _).
    rewrite (zip_with_cells (λ _, True) _ _ (λ r _, cell_at j' r));
      [by apply zip_with_first | by apply Forall_true |].
    intros r v _. unfold cell_at. rewrite list_lookup_insert_ne; [done|].
    intros ->. apply get_loc_Ok in Hj'. congruence.
  - unfold getitem. cbn [columns rows]. rewrite get_loc_app_old by done.
    destruct (get_loc (columns d) c') as [j'|] eqn:Hj'; [|done].
    cbn [mbind result_bind]. f_equal.
    apply get_loc_Ok, lookup_lt_Some in Hj'.
    rewrite (zip_with_cells (λ r, length r = length (columns d)) _ _
               (λ r _, cell_at j' r));
      [by apply zip_with_first | done |].
    intros r v Hr. unfold cell_at. rewrite lookup_app_l; [done|]. by rewrite Hr.
Qed.

Lemma setitem_columns d c s :
  c ∈ columns (setitem d c s) ∧
  (∀ c', c' ∈ columns d → c' ∈ columns (setitem d c s)).
Proof.
  unfold setitem.
  destruct (list_find (λ x, x = c) (columns d)) as [[j x]|] eqn:Hfind; cbn [columns].
  - apply list_find_Some in Hfind as (Hj & -> & _).
    split; [by eapply list_elem_of_lookup_2 | done].
  - split; [|intros c' Hc']; apply elem_of_app; [right | by left].
    apply list_elem_of_here.
Qed.

(** A data file that holds a header and no record loads into a table without
    rows that has the file's columns and the derived one. *)
Lemma load_header_only fs f :
  fs !! DATA_FILE = Some f → records f = [] →
  "Breachornot" ∈ header f → "LoS" ∈ header f →
  ∃ d, load_dataset fs = Ok (Some d) ∧ rows d = [] ∧
       "LoS" ∈ columns d ∧ "Breach_binary" ∈ columns d.
Proof.
  intros Hf Hrec Hb Hlos. unfold load_dataset. rewrite Hf.
  assert (read_csv f = Ok {| columns := header f; rows := [] |}) as ->.
  { unfold read_csv. rewrite Hrec. destruct (header f); [|done].
    by apply not_elem_of_nil in Hb. }
  cbn [mbind result_bind]. rewrite getitem_in by done.
  cbn [mbind result_bind rows fmap list_fmap].
  eexists. split; [reflexivity|].
  destruct (setitem_columns {| columns := header f; rows := [] |} "Breach_binary"
              (Series_map breach_dict [])) as [Hbb Hincl].
  split_and!; [| by apply Hincl | done].
  unfold setitem. by destruct (list_find _ _) as [[??]|].
Qed.

Lemma length_Series_map dict s : length (Series_map dict s) = length s.
Proof. unfold Series_map. destruct (forallb _ _); by rewrite !length_fmap. Qed.

(** The table a load gives has the derived column, and the column holds the
    image of Breachornot under the dict of line 37. *)
Lemma load_dataset_mirrors fs d : load_dataset fs = Ok (Some d) → mirrors d.
Proof.
  unfold load_dataset. destruct (fs !! DATA_FILE) as [f|]; [|done].
  destruct (read_csv f) as [d0|] eqn:Hread; [|done]. cbn [mbind result_bind].
  destruct (getitem d0 "Breachornot") as [b|] eqn:Hb; [|done].
  cbn [mbind result_bind]. intros [= <-].
  apply read_csv_Ok in Hread as [_ Hrect].
  assert (length (Series_map breach_dict b) = length (rows d0)) as Hlen.
  { rewrite length_Series_map. apply getitem_Ok in Hb as [-> _].
    by rewrite length_fmap. }
  exists b. split.
  - by rewrite getitem_setitem_ne.
  - by apply getitem_setitem.
Qed.

End load_facts.

(** ** Persisting and loading *)

Section persist_facts.
Implicit Types (d : DataFrame) (st : State) (fs : gmap string File).

Lemma save_safely_Ok d fs :
  ∃ fs', save_safely d fs = Ok fs' ∧ fs' !! DATA_FILE = Some (to_csv d).
Proof.
  unfold save_safely, os_replace. rewrite lookup_insert_eq.
  eexists. split; [reflexivity|]. apply lookup_insert_eq.
Qed.









(** Assigning to a column the series it already holds changes nothing. *)
Lemma setitem_same d c s : getitem d c = Ok s → setitem d c s = d.
Proof.
  unfold getitem, get_loc, setitem.
  destruct (list_find (λ x, x = c) (columns d)) as [[j x]|]; [|done].
  cbn [mbind result_bind]. intros [= <-].
  destruct d as [cs rs]. cbn [columns rows]. f_equal.
  rewrite zip_with_fmap_r, zip_with_diag.
  transitivity (id <$> rs); [|apply list_fmap_id].
  apply list_fmap_ext. intros _ r _. cbn. unfold cell_at.
  destruct (r !! j) as [v|] eqn:Hj; cbn.
  - by apply list_insert_id.
  - apply list_insert_ge. by apply lookup_ge_None.
Qed.

(** C6, as the code has it: a storable table whose derived column holds what
    loading derives from Breachornot is reproduced by saving and loading:
    same labels, same rows in the same order, same cells.  The data file
    written is the table in CSV form: its header is the labels, its records
    are the rows in table order, each field the text of the cell, and reading
    it gives the table back. *)
Theorem save_then_load d fs :
  storable d = true → mirrors d →
  ∃ fs',
    save_safely d fs = Ok fs' ∧
    fs' !! DATA_FILE = Some (to_csv d) ∧
    header (to_csv d) = columns d ∧
    records (to_csv d) = (λ r : Row, render <$> r) <$> rows d ∧
    read_csv (to_csv d) = Ok d ∧
    load_dataset fs' = Ok (Some d).
Proof.
  intros Hstor (b & Hb & Hbb).
  destruct (save_safely_Ok d fs) as (fs' & Hsave & Hfile).
  exists fs'. split_and!; try done.
  - by apply read_csv_to_csv.
  - unfold load_dataset. rewrite Hfile, (read_csv_to_csv _ Hstor).
    cbn [mbind result_bind]. rewrite Hb. cbn [mbind result_bind].
    by rewrite (setitem_same _ _ _ Hbb).
Qed.

(** A table of the declared types is storable as soon as its ID column is
    and its counts are int64 integers. *)
Lemma declared_types_storable d :
  declared_types d = true →
  storable_column (field d "ID" <$> rows d) = true →
  (∀ r c z, r ∈ rows d → field d c r = Int z → - 2 ^ 63 < z < 2 ^ 63) →
  storable d = true.
Proof.
  unfold declared_types, storable. rewrite !andb_true_iff, bool_decide_eq_true.
  intros [[Hcols Hrect] Hrows] Hid Hrange. destruct d as [cs rs].
  cbn [columns rows] in *.
  subst cs. split_and!; [done | by_evaluation | done | done |].
  rewrite forallb_elem in Hrows.
  assert (∀ c j, get_loc (columns sample_df) c = Ok j →
            ∀ r, field {| columns := columns sample_df; rows := rs |} c r = cell_at j r)
    as Hfield.
  { intros c j Hj r. unfold field. cbn [columns]. by rewrite Hj. }
  assert (∀ c j, c ∈ numeric_columns → get_loc (columns sample_df) c = Ok j →
            storable_column (cell_at j <$> rs) = true) as Hnum.
  { intros c j Hc Hj. unfold storable_column.
    apply orb_true_iff; left. apply orb_true_iff; left.
    apply forallb_elem. intros v (r & -> & Hr)%list_elem_of_fmap.
    specialize (Hrows r Hr). unfold declared_row in Hrows.
    rewrite !andb_true_iff in Hrows. destruct Hrows as [[[_ Hints] _] _].
    rewrite forallb_elem in Hints. specialize (Hints c Hc).
    specialize (Hrange r c). rewrite (Hfield c j Hj) in Hints, Hrange.
    destruct (cell_at j r) as [z| | |]; try done.
    apply bool_decide_eq_true. by apply Hrange. }
  cbn [columns sample_df length seq forallb]. rewrite !andb_true_iff.
  split_and!; try done.
  - apply (Hnum "Age"); [in_list | done].
  - apply (Hnum "LoS"); [in_list | done].
  - apply (Hnum "noofinvestigation"); [in_list | done].
  - apply (Hnum "nooftreatment"); [in_list | done].
  - apply (Hnum "noofpatients"); [in_list | done].
  - (* Breachornot: one of the two labels in every row *)
    unfold storable_column. apply orb_true_iff; right.
    apply forallb_elem. intros v (r & -> & Hr)%list_elem_of_fmap.
    specialize (Hrows r Hr). unfold declared_row in Hrows.
    rewrite !andb_true_iff in Hrows. destruct Hrows as [[_ Hb] _].
    apply bool_decide_eq_true in Hb.
    rewrite (Hfield "Breachornot" 6%nat eq_refl) in Hb.
    apply elem_of_cons in Hb as [->|Hb]; [done|].
    apply elem_of_cons in Hb as [->|Hb]; [done|].
    by apply not_elem_of_nil in Hb.
  - (* Breach_binary: 0 or 1 in every row *)
    unfold storable_column. apply orb_true_iff; left. apply orb_true_iff; left.
    apply forallb_elem. intros v (r & -> & Hr)%list_elem_of_fmap.
    specialize (Hrows r Hr). unfold declared_row in Hrows.
    rewrite !andb_true_iff in Hrows. destruct Hrows as [_ Hbb].
    apply bool_decide_eq_true in Hbb.
    rewrite (Hfield "Breach_binary" 7%nat eq_refl) in Hbb.
    apply elem_of_cons in Hbb as [->|Hbb]; [done|].
    apply elem_of_cons in Hbb as [->|Hbb]; [done|].
    by apply not_elem_of_nil in Hbb.
Qed.

(** In particular a loaded table that has not been edited and is storable
    is reproduced by saving and loading. *)
Lemma save_then_load_loaded fs0 d fs :
  load_dataset fs0 = Ok (Some d) → storable d = true →
  ∃ fs', save_safely d fs = Ok fs' ∧ load_dataset fs' = Ok (Some d).
Proof.
  intros (b & Hb & Hbb)%load_dataset_mirrors Hstor.
  destruct (save_safely_Ok d fs) as (fs' & Hsave & Hfile).
  exists fs'. split; [done|].
  unfold load_dataset. rewrite Hfile, (read_csv_to_csv _ Hstor).
  cbn [mbind result_bind]. rewrite Hb. cbn [mbind result_bind].
  by rewrite (setitem_same _ _ _ Hbb).
Qed.

(** The table of the counterexample is the one the update form produces. *)
Lemma stale_df_is_reached : update_record sample_df "P1" sample_form = Ok stale_df.
Proof. by vm_compute. Qed.

(** C6, the counterexample: after the form has set P1 of the sample table to
    "breach", the table has Breach_binary 0 in that row; it is saved like
    that, and loading the file gives Breach_binary 1. *)
Lemma stale_table_is_not_reproduced : ¬ save_then_load_is_identity.
Proof.
  intros Hclaim.
  destruct (save_safely_Ok stale_df ∅) as (fs' & Hsave & Hfile).
  specialize (Hclaim stale_df ∅ fs' ltac:(done) ltac:(by vm_compute) Hsave).
  unfold load_dataset in Hclaim. rewrite Hfile in Hclaim.
  vm_compute in Hclaim. discriminate Hclaim.
Qed.

Lemma stale_table_reloads_refreshed :
  ∃ fs', save_safely stale_df ∅ = Ok fs' ∧ load_dataset fs' = Ok (Some refreshed_df).
Proof.
  destruct (save_safely_Ok stale_df ∅) as (fs' & Hsave & Hfile).
  exists fs'. split; [done|]. unfold load_dataset. rewrite Hfile. by vm_compute.
Qed.

(** Why a table has to be storable: an ID column that holds only numerals is
    read back as a column of numbers. *)
Lemma digits_are_read_as_numbers :
  declared_types digits_df = true ∧ storable digits_df = false ∧
  field digits_df "ID" <$> rows digits_df = [Str "007"] ∧
  ∃ d, read_csv (to_csv digits_df) = Ok d ∧ field d "ID" <$> rows d = [Int 7].
Proof. split_and!; [by vm_compute ..|]. eexists. split; by vm_compute. Qed.

End persist_facts.

(** ** The theorems at work on the sample tables *)

Lemma dashboard_metrics_correct_witness :
  ∃ m, dashboard_metrics sample_df = Ok m ∧
       total_patients m = 3 ∧ breach_cases m = 2 ∧
       ∃ avg, average_length_of_stay m = fin avg ∧
              float_2dp (arithmetic_mean [10; 20; 30]) avg.
Proof.
  destruct (proj1 dashboard_metrics_correct sample_df)
    as (m & Hrun & Htotal & Hbreach & Hmean).
  - in_list.
  - in_list.
  - repeat (constructor; [intros t; discriminate|]). constructor.
  - repeat (constructor; [by eexists|]). constructor.
  - by vm_compute.
  - apply Forall_forall. repeat (constructor; [by vm_compute|]). constructor.
  - exists m. split_and!; [done | done | done |].
    apply Hmean. discriminate.
Defined.

Lemma delete_removes_every_match_witness :
  "ID" ∈ columns (df twins_state) ∧
  ∃ msg st' f,
    delete_patient_data "2026-01-01 00:00:00" "P1" true true twins_state
      = Ok (msg, st') ∧
    msg = Some (st_success "Patient record deleted successfully.") ∧
    all_matches (df st') "P1" = [] ∧
    files st' !! DATA_FILE = Some f ∧
    header f = columns twins_df ∧
    records f = [ ["P2"; "61"; "20"; "3"; "1"; "7"; "breach"; "1"] ].
Proof.
  assert ("ID" ∈ columns (df twins_state)) as Hid by in_list.
  split; [exact Hid|].
  destruct (delete_removes_every_match "2026-01-01 00:00:00" "P1" twins_state Hid)
    as (msg & st' & Hrun & Hfound & _).
  destruct Hfound as (Hmsg & _ & _ & Hnone & _ & _ & f & Hfile & Hhead & Hrecs & _);
    [by vm_compute|].
  exists msg, st', f. split_and!; [done | done | done | done | done |].
  rewrite Hrecs. by vm_compute.
Defined.

Lemma delete_keeps_other_rows_witness :
  "ID" ∈ columns (df sample_state) ∧
  ∃ msg st',
    delete_patient_data "2026-01-01 00:00:00" "P2" true true sample_state
      = Ok (msg, st') ∧
    rows (df st') `sublist_of` rows sample_df ∧
    rows (df st') =
      [ [Str "P1"; Int 34; Int 10; Int 1; Int 2; Int 5; Str "non-breach"; Int 0];
        [Str "P3"; Int 45; Int 30; Int 2; Int 2; Int 9; Str "breach"; Int 1] ].
Proof.
  assert ("ID" ∈ columns (df sample_state)) as Hid by in_list.
  split; [exact Hid|].
  destruct (delete_keeps_other_rows "2026-01-01 00:00:00" "P2" sample_state Hid)
    as (msg & st' & Hrun & _ & Hrows & Hsub & _).
  exists msg, st'. split_and!; [done | done |].
  rewrite Hrows. by vm_compute.
Defined.

Lemma search_matches_exactly_witness :
  "ID" ∈ columns (df twins_state) ∧
  ∃ msg shown st',
    search_patient_by_id "2026-01-01 00:00:00" "P1" twins_state
      = Ok (msg, shown, st') ∧
    (length <$> (rows <$> shown)) = Some 2%nat ∧
    head (all_matches twins_df "P1") = first_match twins_df "P1".
Proof.
  assert ("ID" ∈ columns (df twins_state)) as Hid by in_list.
  split; [exact Hid|].
  destruct (search_matches_exactly "2026-01-01 00:00:00" "P1" twins_state Hid)
    as (msg & shown & st' & Hrun & _ & _ & Hshown & _ & _ & Hhead & _).
  exists msg, shown, st'. split_and!; [done | | done].
  rewrite Hshown. by vm_compute.
Defined.

Lemma filter_range_inclusive_witness :
  "LoS" ∈ numeric_columns ∧ "LoS" ∈ columns sample_df ∧
  ∃ out,
    filtered_df sample_df "LoS" (20, 30) = Ok out ∧
    field out "ID" <$> rows out = [Str "P2"; Str "P3"].
Proof.
  assert ("LoS" ∈ numeric_columns) as Hsel by in_list.
  assert ("LoS" ∈ columns sample_df) as Hcol by in_list.
  split_and!; [exact Hsel | exact Hcol |].
  destruct (filter_range_inclusive sample_df "LoS" 20 30 Hsel Hcol)
    as (out & Hrun & Hcols & Hrows & _).
  - repeat (constructor; [intros t; discriminate|]). constructor.
  - exists out. split; [done|].
    destruct out as [cs rs]. cbn [columns rows] in Hcols, Hrows.
    rewrite Hcols, Hrows. by vm_compute.
Defined.

Lemma update_is_scoped_witness :
  ∃ d' r',
    update_record sample_df "P1" sample_form = Ok d' ∧
    rows d' !! 0%nat = Some r' ∧
    rows d' !! 1%nat = rows sample_df !! 1%nat ∧
    field d' "Breach_binary" r' = Int 0 ∧
    field d' "Breachornot" r' = Str "breach".
Proof.
  destruct (update_is_scoped sample_df "P1" sample_form)
    as (i & r & d' & r' & Hrun & Hfind & _ & _ & Hother & Hrow & Hframe & _ & _ & _ & _ & Hb).
  - in_list.
  - intros c Hc. apply (list_elem_of_fmap_2 id) in Hc. revert c Hc.
    apply Forall_forall. repeat (constructor; [in_list|]). constructor.
  - repeat (constructor; [reflexivity|]). constructor.
  - by vm_compute.
  - apply Forall_forall.
    repeat (constructor; [repeat (constructor; [by vm_compute|]); constructor|]).
    constructor.
  - exists "non-breach". apply list_elem_of_here.
  - eexists. split; [apply list_elem_of_here | reflexivity].
  - vm_compute in Hfind. injection Hfind as <- <-.
    exists d', r'. split_and!; [done | done | by apply Hother | | done].
    rewrite Hframe; [reflexivity | by_evaluation].
Defined.


Lemma save_then_load_witness :
  storable sample_df = true ∧ mirrors sample_df ∧
  ∃ fs', save_safely sample_df ∅ = Ok fs' ∧
         load_dataset fs' = Ok (Some sample_df).
Proof.
  assert (storable sample_df = true) as Hstor by (by vm_compute).
  assert (mirrors sample_df) as Hmir.
  { eexists. split; by vm_compute. }
  split_and!; [exact Hstor | exact Hmir |].
  destruct (save_then_load sample_df ∅ Hstor Hmir)
    as (fs' & Hsave & _ & _ & _ & _ & Hload).
  by exists fs'.
Defined.

Lemma dashboard_metrics_no_rows_witness :
  rows no_rows_df = [] ∧
  dashboard_metrics no_rows_df =
  Ok {| total_patients := 0; breach_cases := 0; average_length_of_stay := nan |}.
Proof.
  split; [reflexivity|].
  apply (dashboard_metrics_no_rows no_rows_df); [reflexivity | in_list | in_list].
Defined.

(** ** More about loading *)

Section load_properties.
Implicit Types (d : DataFrame) (s : Series) (c : string) (f : File) (r : Row).

Lemma setitem_shape d c s :
  rectangular d → length s = length (rows d) →
  columns (setitem d c s) = (if decide (c ∈ columns d) then columns d
                             else columns d ++ [c]) ∧
  length (rows (setitem d c s)) = length (rows d) ∧
  rectangular (setitem d c s).
Proof.
  intros Hrect Hlen. unfold setitem, rectangular in *.
  destruct (list_find (λ x, x = c) (columns d)) as [[j x]|] eqn:Hfind;
    cbn [columns rows].
  - apply list_find_Some in Hfind as (Hj & -> & _).
    rewrite decide_True by (by eapply list_elem_of_lookup_2).
    split_and!; [done | by rewrite length_zip_with_l_eq |].
    apply Forall_lookup. intros i r Hi. rewrite lookup_zip_with in Hi.
    destruct (rows d !! i) as [r0|] eqn:Hr0; [|done]. cbn in Hi.
    destruct (s !! i) as [v|]; [|done]. injection Hi as <-.
    rewrite length_insert. by eapply (proj1 (Forall_lookup _ _) Hrect).
  - apply list_find_None in Hfind. rewrite Forall_forall in Hfind.
    rewrite decide_False by (intros Hin; by apply (Hfind c Hin)).
    split_and!; [done | by rewrite length_zip_with_l_eq |].
    apply Forall_lookup. intros i r Hi. rewrite lookup_zip_with in Hi.
    destruct (rows d !! i) as [r0|] eqn:Hr0; [|done]. cbn in Hi.
    destruct (s !! i) as [v|]; [|done]. injection Hi as <-.
    rewrite !length_app. cbn. f_equal.
    by eapply (proj1 (Forall_lookup _ _) Hrect).
Qed.

Lemma read_csv_length f d :
  read_csv f = Ok d → length (rows d) = length (data_records f).
Proof. intros (_ & _ & ->)%read_csv_inv. cbn [rows]. by rewrite length_fmap. Qed.

Lemma load_shape fs f d :
  fs !! DATA_FILE = Some f →
  load_dataset fs = Ok (Some d) →
  columns d = (if decide ("Breach_binary" ∈ header f) then header f
               else header f ++ ["Breach_binary"]) ∧
  length (rows d) = length (data_records f) ∧
  rectangular d.
Proof.
  intros Hf. unfold load_dataset. rewrite Hf.
  destruct (read_csv f) as [d0|] eqn:Hread; [|done]. cbn [mbind result_bind].
  destruct (getitem d0 "Breachornot") as [b|] eqn:Hb; [|done].
  cbn [mbind result_bind]. intros [= <-].
  pose proof (read_csv_length _ _ Hread) as Hlen.
  apply read_csv_Ok in Hread as [Hcols Hrect].
  destruct (setitem_shape d0 "Breach_binary" (Series_map breach_dict b) Hrect)
    as (Hc & Hl & Hr).
  { rewrite length_Series_map. apply getitem_Ok in Hb as [-> _].
    by rewrite length_fmap. }
  rewrite Hc, Hl, Hcols. by split_and!.
Qed.




Lemma Series_map_lookup s i (v : cell) :
  Series_map breach_dict s !! i = Some v →
  ∃ v0 : cell, s !! i = Some v0 ∧ number v = breach_value v0 ∧
               (breach_value v0 = None → v = NaN).
Proof.
  unfold Series_map. destruct (forallb _ _);
    rewrite !list_lookup_fmap; destruct (s !! i) as [v0|]; try done;
    cbn; intros [= <-]; exists v0; (split; [done|]);
    (destruct v0 as [| |k|]; [done | done | | done]);
    unfold breach_value; cbn; repeat case_decide; subst; done.
Qed.

Lemma loaded_breach_binary fs d r :
  load_dataset fs = Ok (Some d) → r ∈ rows d →
  number (field d "Breach_binary" r) = breach_value (field d "Breachornot" r) ∧
  (breach_value (field d "Breachornot" r) = None → field d "Breach_binary" r = NaN).
Proof.
  intros (b & Hb & Hbb)%load_dataset_mirrors (i & Hi)%list_elem_of_lookup_1.
  apply getitem_Ok in Hb as [-> _]. apply getitem_Ok in Hbb as [Hbb _].
  assert (Series_map breach_dict (field d "Breachornot" <$> rows d) !! i
          = Some (field d "Breach_binary" r)) as Hc.
  { by rewrite Hbb, list_lookup_fmap, Hi. }
  apply Series_map_lookup in Hc as (v0 & Hv0 & Hnum & Hnan).
  rewrite list_lookup_fmap, Hi in Hv0. by injection Hv0 as <-.
Qed.

Lemma breach_binary_of_loaded_row fs d r :
  load_dataset fs = Ok (Some d) → r ∈ rows d →
  number (field d "Breach_binary" r) = breach_value (field d "Breachornot" r).
Proof. intros Hload Hr. by apply (loaded_breach_binary fs). Qed.

(** X2: The derived value, row by row: in a loaded table Breach_binary is the
    number 0 where Breachornot is "non-breach", the number 1 where it is
    "breach", and the missing value where it is anything else. *)
Theorem load_derives_breach_binary fs d r :
  load_dataset fs = Ok (Some d) → r ∈ rows d →
  match breach_value (field d "Breachornot" r) with
  | Some z => number (field d "Breach_binary" r) = Some z
  | None => field d "Breach_binary" r = NaN
  end.
Proof.
  intros Hload Hr. destruct (loaded_breach_binary _ _ _ Hload Hr) as [Hnum Hnan].
  destruct (breach_value (field d "Breachornot" r)); [done | by apply Hnan].
Qed.

Lemma Series_map_numeric dict s : numeric (Series_map dict s).
Proof.
  unfold Series_map, numeric. destruct (forallb _ _);
    apply Forall_fmap, Forall_fmap, Forall_true; intros v; cbn;
    by destruct (match v with Str k => _ | _ => None end).
Qed.

Lemma sum_indicator {A} (P : A → Prop) `{!∀ x, Decision (P x)} (g : A → Z)
    (l : list A) :
  (∀ x, x ∈ l → g x = if decide (P x) then 1 else 0) →
  foldr Z.add 0 (g <$> l) = Z.of_nat (length (filter P l)).
Proof.
  induction l as [|x l IH]; intros Hg; [done|].
  cbn [fmap list_fmap foldr]. rewrite filter_cons, IH, (Hg x).
  - destruct (decide (P x)); cbn [length]; lia.
  - apply list_elem_of_here.
  - intros y Hy. apply Hg. by apply list_elem_of_further.
Qed.

(** X3: On a loaded table the Breach Cases metric counts the rows whose
    Breachornot is "breach"; it lies between 0 and Total Patients. *)
Theorem breach_cases_counts_breaches fs d m :
  load_dataset fs = Ok (Some d) →
  dashboard_metrics d = Ok m →
  breach_cases m =
    Z.of_nat (length (filter (λ r, field d "Breachornot" r = Str "breach") (rows d))) ∧
  0 ≤ breach_cases m ≤ total_patients m.
Proof.
  intros Hload. unfold dashboard_metrics.
  destruct (getitem d "Breach_binary") as [bb|] eqn:Hbb; [|done].
  cbn [mbind result_bind].
  pose proof Hload as (b & _ & Hmap)%load_dataset_mirrors.
  rewrite Hbb in Hmap. injection Hmap as Hmap.
  rewrite Series_sum_numeric by (rewrite Hmap; apply Series_map_numeric).
  cbn [mbind result_bind].
  destruct (getitem d "LoS") as [los|]; [|done]. cbn [mbind result_bind].
  destruct (Series_mean los) as [mean|]; [|done]. cbn [mbind result_bind].
  intros [= <-]. cbn [breach_cases total_patients].
  apply getitem_Ok in Hbb as [-> _]. rewrite <- list_fmap_compose.
  rewrite (sum_indicator (λ r, field d "Breachornot" r = Str "breach")).
  - split; [done|]. unfold len. pose proof (length_filter
      (λ r, field d "Breachornot" r = Str "breach") (rows d)). lia.
  - intros r Hr. cbn. unfold summand.
    rewrite (breach_binary_of_loaded_row _ _ _ Hload Hr).
    destruct (field d "Breachornot" r) as [| |t|]; cbn; try done.
    repeat case_decide; subst; try done; congruence.
Qed.

End load_properties.

(** ** The ID column of a loaded table *)

Section id_properties.
Implicit Types (d : DataFrame) (f : File) (r : Row) (t pid : string).

(** Every cell of a table read from a file is the reading of a text of its
    column under the column's dtype. *)
Lemma read_csv_cell f d r j (v : cell) :
  read_csv f = Ok d → r ∈ rows d → r !! j = Some v →
  ∃ t, t ∈ column_texts (data_records f) j ∧
       v = parse (infer (column_texts (data_records f) j)) t.
Proof.
  intros (_ & _ & ->)%read_csv_inv. cbn [rows].
  intros (rec & -> & Hrec)%list_elem_of_fmap Hv.
  cbn beta in Hv. rewrite lookup_zip_with, list_lookup_fmap in Hv.
  destruct (seq 0 _ !! j) as [j'|] eqn:Hj; [|done]. cbn in Hv.
  apply lookup_seq in Hj as [-> _].
  destruct ((rec ++ replicate _ "") !! j) as [t|] eqn:Ht; [|done].
  cbn in Hv. injection Hv as <-.
  exists t. split; [|done]. unfold column_texts.
  apply list_elem_of_fmap. exists rec. split; [|done].
  destruct (rec !! j) as [t'|] eqn:Ht'.
  - rewrite (lookup_app_l_Some _ _ _ _ Ht') in Ht. by injection Ht as <-.
  - apply lookup_ge_None in Ht'. rewrite lookup_app_r in Ht by done.
    by apply lookup_replicate in Ht as [-> _].
Qed.


Lemma column_texts_sub f j t :
  t ∈ column_texts (data_records f) j → t ∈ column_texts (records f) j.
Proof.
  unfold column_texts, data_records.
  intros (rec & -> & [_ Hrec]%list_elem_of_filter)%list_elem_of_fmap.
  by apply (list_elem_of_fmap_2 (λ r : list string, default "" (r !! j))).
Qed.

(** A string found in the ID column of a loaded table is a text of the ID
    column of the file that was read as a string. *)
Lemma loaded_id_string fs f d pid :
  fs !! DATA_FILE = Some f → load_dataset fs = Ok (Some d) →
  Str pid ∈ (field d "ID" <$> rows d) →
  ∃ j t, get_loc (header f) "ID" = Ok j ∧
         t ∈ column_texts (data_records f) j ∧
         parse (infer (column_texts (data_records f) j)) t = Str pid.
Proof.
  intros Hf Hload Hin.
  assert (get_loc (columns d) "ID" ≠ Raise (KeyError "ID")) as Hcol.
  { intros Hno. apply list_elem_of_fmap in Hin as (r & Hr & _).
    unfold field in Hr. by rewrite Hno in Hr. }
  revert Hload Hin Hcol. unfold load_dataset. rewrite Hf.
  destruct (read_csv f) as [d0|] eqn:Hread; [|done]. cbn [mbind result_bind].
  destruct (getitem d0 "Breachornot") as [b|] eqn:Hb; [|done].
  cbn [mbind result_bind]. intros [= <-] Hin Hcol.
  pose proof (read_csv_Ok _ _ Hread) as [Hcols Hrect].
  assert (length (Series_map breach_dict b) = length (rows d0)) as Hlen.
  { rewrite length_Series_map. apply getitem_Ok in Hb as [-> _].
    by rewrite length_fmap. }
  set (d := setitem d0 "Breach_binary" (Series_map breach_dict b)) in *.
  assert (getitem d "ID" = Ok (field d "ID" <$> rows d)) as Hget.
  { unfold getitem, field. unfold get_loc in *.
    destruct (list_find _ (columns d)) as [[j x]|]; [done | by destruct Hcol]. }
  unfold d in Hget at 1. rewrite getitem_setitem_ne in Hget by done.
  apply getitem_Ok in Hget as [Hseries Hid0]. rewrite Hseries in Hin.
  apply list_elem_of_fmap in Hin as (r0 & Hcell & Hr0).
  destruct (get_loc_in _ _ Hid0) as (j & Hj & _).
  unfold field in Hcell. rewrite Hj in Hcell. unfold cell_at in Hcell.
  destruct (r0 !! j) as [v|] eqn:Hv; [|done]. cbn in Hcell. subst v.
  destruct (read_csv_cell _ _ _ _ _ Hread Hr0 Hv) as (t & Ht & Hparse).
  exists j, t. rewrite <- Hcols. by split_and!.
Qed.

Lemma parse_Str dt t pid :
  parse dt t = Str pid → (dt = str ∨ dt = object) ∧ t = pid ∧ is_na pid = false.
Proof.
  destruct dt; cbn.
  - by destruct (integer_of_text t).
  - by destruct (integer_of_text t).
  - destruct (is_na t); [done|]. destruct (integer_of_text t); [done|].
    by destruct (decimal_of_text t).
  - destruct (is_na t) eqn:Hna; [done|]. intros [= <-]. auto.
  - destruct (is_na t) eqn:Hna; [done|]. intros [= <-]. auto.
Qed.

(** X5: Numeral IDs cannot be looked up: when every ID in the data file is
    written as an integer of the int64 range, the ID column is loaded as
    numbers, and no input of the search, modify or delete page (always a
    string) matches a row. *)
Theorem numeral_ids_are_never_matched fs f d j pid :
  fs !! DATA_FILE = Some f →
  load_dataset fs = Ok (Some d) →
  get_loc (header f) "ID" = Ok j →
  Forall (λ t, is_int64 t = true) (column_texts (records f) j) →
  all_matches d pid = [] ∧ first_match d pid = None.
Proof.
  intros Hf Hload Hj Hints.
  assert (all_matches d pid = []) as Hnone.
  { apply all_matches_nil, not_true_iff_false. unfold isin_values.
    rewrite bool_decide_eq_true. intros Hin.
    destruct (loaded_id_string _ _ _ _ Hf Hload Hin) as (j' & t & Hj' & Ht & Hparse).
    rewrite Hj in Hj'. injection Hj' as <-.
    apply parse_Str in Hparse as (Hdt & _ & _).
    rewrite infer_int64 in Hdt; [by destruct Hdt|].
    apply Forall_forall. intros t' Ht'%column_texts_sub.
    rewrite Forall_forall in Hints. specialize (Hints t' Ht').
    unfold is_int64 in Hints. destruct (integer_of_text t') as [z|]; [|done].
    apply bool_decide_eq_true in Hints. eauto. }
  split; [done|]. rewrite <- head_all_matches. by rewrite Hnone.
Qed.

(** Digits beyond the integers of 64 bits are left as text, and are
    matched. *)
Lemma long_numerals_are_text :
  ∃ d, read_csv {| header := ["ID"]; records := [["00013007854817840016671868"]] |}
       = Ok d ∧
       rows d = [[Str "00013007854817840016671868"]].
Proof. eexists. split; by vm_compute. Qed.






End id_properties.

(** ** Filter Patients, the whole branch *)

Section filter_branch.
Implicit Types (d : DataFrame) (s : Series) (st : State).

Lemma numbers_numeric s : numeric s → numbers s = Ok (omap number s).
Proof.
  induction 1 as [|c s Hc _ IH]; [done|].
  cbn [numbers]. rewrite IH. cbn [mbind result_bind].
  destruct c as [z|z|t|]; try done. by destruct (Hc t).
Qed.

Lemma filter_ext_in {A} (P Q : A → Prop) `{!∀ x, Decision (P x)}
    `{!∀ x, Decision (Q x)} (l : list A) :
  (∀ x, x ∈ l → P x ↔ Q x) → filter P l = filter Q l.
Proof.
  induction l as [|x l IH]; intros Hext; [done|].
  rewrite !filter_cons, IH by (intros y Hy; by apply Hext, list_elem_of_further).
  pose proof (Hext x (list_elem_of_here _ _)) as Hx.
  destruct (decide (P x)), (decide (Q x)); tauto.
Qed.

Lemma foldr_min_le (z : Z) zs x : x ∈ z :: zs → foldr Z.min z zs ≤ x.
Proof.
  induction zs as [|y zs IH]; cbn [foldr].
  - intros ->%list_elem_of_singleton. lia.
  - intros [->|[->|Hx]%elem_of_cons]%elem_of_cons.
    + etransitivity; [apply Z.le_min_r|]. apply IH, list_elem_of_here.
    + apply Z.le_min_l.
    + etransitivity; [apply Z.le_min_r|]. apply IH. by apply list_elem_of_further.
Qed.

Lemma foldr_max_ge (z : Z) zs x : x ∈ z :: zs → x ≤ foldr Z.max z zs.
Proof.
  induction zs as [|y zs IH]; cbn [foldr].
  - intros ->%list_elem_of_singleton. lia.
  - intros [->|[->|Hx]%elem_of_cons]%elem_of_cons.
    + etransitivity; [|apply Z.le_max_r]. apply IH, list_elem_of_here.
    + apply Z.le_max_l.
    + etransitivity; [|apply Z.le_max_r]. apply IH. by apply list_elem_of_further.
Qed.

Lemma foldr_min_in (z : Z) zs : foldr Z.min z zs ∈ z :: zs.
Proof.
  induction zs as [|y zs IH]; cbn [foldr]; [apply list_elem_of_here|].
  destruct (Z.min_spec y (foldr Z.min z zs)) as [[_ ->]|[_ ->]].
  - apply list_elem_of_further, list_elem_of_here.
  - apply elem_of_cons in IH as [->|IH]; [apply list_elem_of_here|].
    by do 2 apply list_elem_of_further.
Qed.

Lemma foldr_max_in (z : Z) zs : foldr Z.max z zs ∈ z :: zs.
Proof.
  induction zs as [|y zs IH]; cbn [foldr]; [apply list_elem_of_here|].
  destruct (Z.max_spec y (foldr Z.max z zs)) as [[_ ->]|[_ ->]].
  - apply elem_of_cons in IH as [->|IH]; [apply list_elem_of_here|].
    by do 2 apply list_elem_of_further.
  - apply list_elem_of_further, list_elem_of_here.
Qed.

(** The ends of the slider over a column of numbers: the least and the
    greatest number of the column. *)
Lemma slider_ends d column v0 (c0 : cell) :
  column ∈ columns d →
  numeric (field d column <$> rows d) →
  c0 ∈ (field d column <$> rows d) → number c0 = Some v0 →
  ∃ lo hi,
    min_val d column = Ok lo ∧ max_val d column = Ok hi ∧
    (∀ c v, c ∈ (field d column <$> rows d) → number c = Some v → lo ≤ v ≤ hi) ∧
    (∃ c, c ∈ (field d column <$> rows d) ∧ number c = Some lo) ∧
    (∃ c, c ∈ (field d column <$> rows d) ∧ number c = Some hi).
Proof.
  intros Hcol Hnum Hc0 Hv0. unfold min_val, max_val, Series_min, Series_max.
  rewrite (getitem_in _ _ Hcol). cbn [mbind result_bind].
  rewrite (numbers_numeric _ Hnum).
  assert (∀ c v, c ∈ (field d column <$> rows d) → number c = Some v →
            v ∈ omap number (field d column <$> rows d)) as Hmem.
  { intros c v Hc Hv. apply list_elem_of_omap. eauto. }
  destruct (omap number (field d column <$> rows d)) as [|z zs] eqn:Hzs.
  { by apply Hmem, not_elem_of_nil in Hv0. }
  cbn [mbind result_bind int]. eexists _, _. split_and!; [done | done | | |].
  - intros c v Hc Hv. split.
    + apply foldr_min_le. by eapply Hmem.
    + apply foldr_max_ge. by eapply Hmem.
  - pose proof (foldr_min_in z zs) as Hin. rewrite <- Hzs in Hin.
    by apply list_elem_of_omap in Hin.
  - pose proof (foldr_max_in z zs) as Hin. rewrite <- Hzs in Hin.
    by apply list_elem_of_omap in Hin.
Qed.

(** X8: The filter page needs a number to set up its slider: on a table without
    rows, or when the chosen column holds missing values only, the branch
    raises [ValueError] (the conversion of not-a-number to [int]), whatever
    the range. *)
Theorem filter_without_numbers ts column range st :
  column ∈ columns (df st) →
  Forall (λ c, c = NaN) (field (df st) column <$> rows (df st)) →
  filter_patients ts column range st = Raise ValueError.
Proof.
  intros Hcol Hnan. unfold filter_patients, min_val, Series_min.
  rewrite (getitem_in _ _ Hcol). cbn [mbind result_bind].
  assert (numbers (field (df st) column <$> rows (df st)) = Ok []) as ->; [|done].
  induction Hnan as [|c s -> _ IH]; [done|]. cbn [numbers]. by rewrite IH.
Qed.

(** X9: When the column holds two different numbers, and only numbers that
    the slider can hold, the slider is set up, and left at its initial range,
    the least to the greatest value of the column, the filter shows every row
    that holds a number in the column, in table order: the whole table when
    no value is missing. *)
Theorem filter_initial_range ts column st v1 v2 (c1 c2 : cell) :
  column ∈ columns (df st) →
  numeric (field (df st) column <$> rows (df st)) →
  (∀ c v, c ∈ (field (df st) column <$> rows (df st)) → number c = Some v →
          number_input_range v) →
  c1 ∈ (field (df st) column <$> rows (df st)) → number c1 = Some v1 →
  c2 ∈ (field (df st) column <$> rows (df st)) → number c2 = Some v2 →
  v1 ≠ v2 →
  ∃ lo hi out st',
    min_val (df st) column = Ok lo ∧ max_val (df st) column = Ok hi ∧
    lo < hi ∧
    filter_patients ts column (lo, hi) st = Ok (out, st') ∧
    rows out = filter (λ r, is_Some (number (field (df st) column r))) (rows (df st)) ∧
    (Forall is_number (field (df st) column <$> rows (df st)) →
     rows out = rows (df st)).
Proof.
  intros Hcol Hnum Hrange Hc1 Hv1 Hc2 Hv2 Hne.
  destruct (slider_ends _ _ _ _ Hcol Hnum Hc1 Hv1)
    as (lo & hi & Hlo & Hhi & Hbounds & (cl & Hcl & Hl) & (ch & Hch & Hh)).
  assert (lo < hi) as Hlt.
  { pose proof (Hbounds _ _ Hc1 Hv1). pose proof (Hbounds _ _ Hc2 Hv2). lia. }
  exists lo, hi. unfold filter_patients. rewrite Hlo, Hhi. cbn [mbind result_bind].
  unfold st_slider. rewrite bool_decide_true by done.
  rewrite bool_decide_true by (split; [by apply (Hrange cl) | by apply (Hrange ch)]).
  cbn [mbind result_bind].
  unfold filtered_df. rewrite (getitem_in _ _ Hcol). cbn [mbind result_bind fst snd].
  rewrite (Series_ge_numeric _ _ Hnum), (Series_le_numeric _ _ Hnum).
  cbn [mbind result_bind]. eexists _, _. split_and!; [done | done | done | done | |].
  - unfold getitem_mask, mask_and. cbn [rows].
    rewrite zip_with_fmap_l, zip_with_fmap_r, zip_with_diag, <- list_fmap_compose.
    rewrite select_fmap. apply filter_ext_in.
    intros r Hr. cbn. rewrite in_range_masks. unfold in_range. split.
    + intros (v & Hv & _). by exists v.
    + intros [v Hv]. exists v. split; [done|].
      apply (Hbounds (field (df st) column r)); [|done].
      by apply list_elem_of_fmap_2.
  - intros Hall. unfold getitem_mask, mask_and. cbn [rows].
    rewrite zip_with_fmap_l, zip_with_fmap_r, zip_with_diag, <- list_fmap_compose.
    rewrite select_fmap. apply filter_all, Forall_forall. intros r Hr. cbn.
    rewrite in_range_masks.
    rewrite Forall_forall in Hall.
    destruct (Hall (field (df st) column r)) as [v Hv]; [by apply list_elem_of_fmap_2|].
    exists v. split; [done|].
    apply (Hbounds (field (df st) column r)); [|done]. by apply list_elem_of_fmap_2.
Qed.

(** A column that holds one number only leaves the slider no range: the
    branch raises [StreamlitInvalidMinMaxError] and shows no table. *)
Lemma filter_constant_column ts column range st v (c0 : cell) :
  column ∈ columns (df st) →
  numeric (field (df st) column <$> rows (df st)) →
  c0 ∈ (field (df st) column <$> rows (df st)) → number c0 = Some v →
  (∀ c v', c ∈ (field (df st) column <$> rows (df st)) → number c = Some v' → v' = v) →
  filter_patients ts column range st = Raise StreamlitInvalidMinMaxError.
Proof.
  intros Hcol Hnum Hc0 Hv0 Hconst.
  destruct (slider_ends _ _ _ _ Hcol Hnum Hc0 Hv0)
    as (lo & hi & Hlo & Hhi & _ & (cl & Hcl & Hl) & (ch & Hch & Hh)).
  rewrite (Hconst _ _ Hcl Hl) in Hlo. rewrite (Hconst _ _ Hch Hh) in Hhi.
  unfold filter_patients. rewrite Hlo, Hhi. cbn [mbind result_bind].
  unfold st_slider. rewrite bool_decide_false by lia. done.
Qed.

(** So it is for the table in which every stay took 20 minutes. *)
Lemma same_stay_leaves_no_range ts range fs log :
  filter_patients ts "LoS" range {| df := same_stay_df; files := fs; log_file := log |}
  = Raise StreamlitInvalidMinMaxError.
Proof.
  apply (filter_constant_column _ _ _ _ 20 (Int 20)); cbn [df].
  - in_list.
  - repeat (constructor; [intros t; discriminate|]). constructor.
  - vm_compute. in_list.
  - done.
  - intros c v' Hc Hv. vm_compute in Hc.
    repeat (apply elem_of_cons in Hc as [->|Hc]; [by injection Hv|]).
    by apply not_elem_of_nil in Hc.
Qed.

(** X10: A column that holds a string in some row cannot be filtered: the branch
    ends in an exception and shows no table. *)
Theorem filter_string_column ts column range st t :
  column ∈ columns (df st) →
  Str t ∈ (field (df st) column <$> rows (df st)) →
  ∃ e, filter_patients ts column range st = Raise e.
Proof.
  intros Hcol Hstr. unfold filter_patients.
  destruct (min_val (df st) column) as [lo|e]; [|by exists e].
  destruct (max_val (df st) column) as [hi|e]; [|by exists e].
  cbn [mbind result_bind].
  destruct (st_slider lo hi) as [?|e]; [|by exists e].
  cbn [mbind result_bind]. unfold filtered_df.
  rewrite (getitem_in _ _ Hcol). cbn [mbind result_bind].
  rewrite (Series_ge_string _ _ _ Hstr). by exists TypeError.
Qed.

End filter_branch.

(** ** Modify Patient Data, the whole branch *)

Section modify_branch.
Implicit Types (d : DataFrame) (st : State) (r : Row) (c pid ts : string).


Lemma row_getitem_Ok d r c (v : cell) : row_getitem d r c = Ok v → c ∈ columns d.
Proof.
  unfold row_getitem. destruct (get_loc (columns d) c) as [j|] eqn:Hj; [|done].
  intros _. apply get_loc_Ok in Hj. by eapply list_elem_of_lookup_2.
Qed.


Lemma save_safely_files d fs :
  save_safely d fs = Ok (<[DATA_FILE := to_csv d]> (delete TEMP_FILE fs)).
Proof.
  unfold save_safely, os_replace. rewrite lookup_insert_eq.
  by rewrite delete_insert_eq.
Qed.



(** What a run of the modify branch that does not raise has done: nothing, or
    the update of the table followed by the saving of the file and one log
    line. *)
Lemma modify_inv ts pid form clicked st msg st' :
  modify_patient_data ts pid form clicked st = Ok (msg, st') →
  (st' = st ∧
   (clicked = false ∨ all_matches (df st) pid = []) ∧
   (all_matches (df st) pid = [] →
    msg = Some (st_info "Enter a valid Patient ID to modify."))) ∨
  (clicked = true ∧ all_matches (df st) pid ≠ [] ∧
   msg = Some (st_success "Patient record updated successfully.") ∧
   (∀ c, c ∈ updated_columns → c ∈ columns (df st)) ∧
   ∃ d, update_record (df st) pid form = Ok d ∧
        st' = log_action ts ("Modified Patient ID " +:+ pid)
                {| df := d;
                   files := <[DATA_FILE := to_csv d]> (delete TEMP_FILE (files st));
                   log_file := log_file st |}).
Proof.
  unfold modify_patient_data.
  destruct (getitem (df st) "ID") as [ids|] eqn:Hids; [|done].
  cbn [mbind result_bind]. apply getitem_Ok in Hids as [-> _].
  destruct (isin_values pid _) eqn:Hin.
  2:{ intros [= <- <-]. left. apply all_matches_nil in Hin. by split_and!; [|right|]. }
  assert (all_matches (df st) pid ≠ []) as Hsome.
  { intros Hnil%all_matches_nil. congruence. }
  destruct (iloc0 _) as [patient|]; [|done]. cbn [mbind result_bind].
  destruct (row_getitem (df st) patient "Age") as [v1|] eqn:H1; [|done].
  cbn [mbind result_bind]. destruct (int v1) as [?|]; [|done].
  destruct (row_getitem (df st) patient "LoS") as [v2|] eqn:H2; [|done].
  cbn [mbind result_bind]. destruct (int v2) as [?|]; [|done].
  destruct (row_getitem (df st) patient "noofinvestigation") as [v3|] eqn:H3; [|done].
  cbn [mbind result_bind]. destruct (int v3) as [?|]; [|done].
  destruct (row_getitem (df st) patient "nooftreatment") as [v4|] eqn:H4; [|done].
  cbn [mbind result_bind]. destruct (int v4) as [?|]; [|done].
  destruct (row_getitem (df st) patient "Breachornot") as [v5|] eqn:H5; [|done].
  cbn [mbind result_bind].
  destruct clicked.
  2:{ intros [= <- <-]. left. by split_and!; [|left|]. }
  destruct (update_record (df st) pid form) as [d|] eqn:Hupd; [|done].
  cbn [mbind result_bind]. rewrite save_safely_files. cbn [mbind result_bind].
  intros [= <- <-]. right. split_and!; try done.
  - intros c Hc. unfold updated_columns in Hc.
    repeat (apply elem_of_cons in Hc as [->|Hc]; [by eapply row_getitem_Ok|]).
    by apply not_elem_of_nil in Hc.
  - by exists d.
Qed.

(** X11: Unless the Update button is pressed for an ID that occurs in the table,
    the modify branch leaves the table, the files and the log as they were;
    for an ID that does not occur it shows "Enter a valid Patient ID to
    modify.", pressed or not. *)
Theorem modify_without_effect ts pid form clicked st msg st' :
  modify_patient_data ts pid form clicked st = Ok (msg, st') →
  clicked = false ∨ all_matches (df st) pid = [] →
  st' = st ∧
  (all_matches (df st) pid = [] →
   msg = Some (st_info "Enter a valid Patient ID to modify.")).
Proof.
  intros [(-> & _ & Hmsg)|(-> & Hsome & _)]%modify_inv Hcase; [done|].
  by destruct Hcase.
Qed.


(** The other side: with an age stored as text the update raises
    [TypeError] at line 177, and nothing is saved or logged. *)
Lemma modify_text_count :
  modify_patient_data "2026-01-01 00:00:00" "P2" sample_form true
    {| df := unknown_age_df; files := ∅; log_file := [] |} = Raise TypeError.
Proof. by vm_compute. Qed.


End modify_branch.

(** ** Saving, loading and deleting *)

Section persist_properties.
Implicit Types (d : DataFrame) (st : State) (pid ts : string).

Lemma storable_rectangular d : storable d = true → rectangular d.
Proof.
  unfold storable. rewrite !andb_true_iff. intros [[_ Hrect] _].
  apply Forall_forall. intros r Hr. rewrite forallb_elem in Hrect.
  by apply (bool_decide_eq_true_1 _), Hrect.
Qed.

(** X14: Saving a storable table and loading it again recomputes the derived
    column from Breachornot and changes nothing else: the loaded table is the
    saved one with Breach_binary assigned anew, every other column is as it
    was, and the derived column mirrors Breachornot again. *)
Theorem save_then_load_refreshes d fs b :
  storable d = true →
  getitem d "Breachornot" = Ok b →
  ∃ fs' d',
    save_safely d fs = Ok fs' ∧
    load_dataset fs' = Ok (Some d') ∧
    d' = setitem d "Breach_binary" (Series_map breach_dict b) ∧
    mirrors d' ∧
    (∀ c, c ≠ "Breach_binary" → getitem d' c = getitem d c).
Proof.
  intros Hstor Hb.
  destruct (save_safely_Ok d fs) as (fs' & Hsave & Hfile).
  pose proof (storable_rectangular _ Hstor) as Hrect.
  assert (length (Series_map breach_dict b) = length (rows d)) as Hlen.
  { rewrite length_Series_map. apply getitem_Ok in Hb as [-> _].
    by rewrite length_fmap. }
  eexists fs', _. split_and!; [done | | reflexivity | |].
  - unfold load_dataset. rewrite Hfile, (read_csv_to_csv _ Hstor).
    cbn [mbind result_bind]. by rewrite Hb.
  - exists b. split; [by rewrite getitem_setitem_ne | by apply getitem_setitem].
  - intros c Hc. by apply getitem_setitem_ne.
Qed.

Lemma length_filter_split {A} (P : A → Prop) `{!∀ x, Decision (P x)} (l : list A) :
  (length (filter P l) + length (filter (λ x, ¬ P x) l) = length l)%nat.
Proof.
  induction l as [|x l IH]; [done|]. rewrite !filter_cons.
  destruct (decide (P x)); [rewrite decide_False by tauto | rewrite decide_True by done];
    cbn [length]; lia.
Qed.

(** X15: A confirmed delete takes away as many rows as carry the identifier, and
    when it removes any the data file it writes holds one record per
    remaining row. *)
Theorem delete_row_count ts pid st :
  "ID" ∈ columns (df st) →
  ∃ msg st',
    delete_patient_data ts pid true true st = Ok (msg, st') ∧
    (length (rows (df st')) + length (all_matches (df st) pid)
     = length (rows (df st)))%nat ∧
    (all_matches (df st) pid ≠ [] →
     ∃ f, files st' !! DATA_FILE = Some f ∧
          length (records f) = length (rows (df st')) ∧
          (length (records f) < length (rows (df st)))%nat).
Proof.
  intros Hid. rewrite (delete_confirmed _ _ _ Hid).
  pose proof (length_filter_split (λ r, field (df st) "ID" r = Str pid)
                (rows (df st))) as Hsplit.
  fold (all_matches (df st) pid) in Hsplit.
  destruct (isin_values _ _) eqn:Hin; eexists _, _; (split; [reflexivity|]);
    cbn [df files log_action rows].
  - split; [lia|]. intros Hsome. eexists. rewrite lookup_insert_eq.
    split; [reflexivity|]. cbn [records to_csv rows]. rewrite length_fmap.
    split; [done|]. destruct (all_matches (df st) pid); [done|].
    cbn [length] in Hsplit. lia.
  - apply all_matches_nil in Hin. rewrite Hin in *. split; [|done].
    cbn [length]. lia.
Qed.

(** X16: Deleting the same identifier again finds nothing: after a confirmed
    delete, whatever it did, a second one answers "Patient ID not found." and
    leaves the table and the files as the first one left them. *)
Theorem delete_twice ts ts' pid st msg st' :
  "ID" ∈ columns (df st) →
  delete_patient_data ts pid true true st = Ok (msg, st') →
  ∃ st'',
    delete_patient_data ts' pid true true st' =
      Ok (Some (st_warning "Patient ID not found."), st'') ∧
    df st'' = df st' ∧ files st'' = files st'.
Proof.
  intros Hid. rewrite (delete_confirmed _ _ _ Hid).
  destruct (isin_values _ _) eqn:Hin; intros [= <- <-].
  - rewrite delete_confirmed by done. cbn [df log_action columns rows].
    assert (isin_values pid
              (field {| columns := columns (df st);
                        rows := filter (λ r, field (df st) "ID" r ≠ Str pid)
                                  (rows (df st)) |} "ID" <$>
               filter (λ r, field (df st) "ID" r ≠ Str pid) (rows (df st)))
            = false) as ->.
    { apply not_true_iff_false. unfold isin_values. rewrite bool_decide_eq_true.
      intros (r & Hr & Hin')%list_elem_of_fmap.
      apply list_elem_of_filter in Hin' as [Hne _]. by destruct Hne. }
    by eexists.
  - rewrite delete_confirmed by done. cbn [df log_action]. rewrite Hin.
    by eexists.
Qed.

End persist_properties.

(** ** The script as a whole *)

Section script_properties.
Implicit Types (d : DataFrame) (st : State) (w : Widgets) (f : File).
Implicit Types (fs : gmap string File) (log : list string).

Lemma search_inv ts pid st m found st' :
  search_patient_by_id ts pid st = Ok (m, found, st') →
  df st' = df st ∧ files st' = files st ∧
  ∃ line, log_file st' = log_file st ++ [line].
Proof.
  unfold search_patient_by_id. destruct (getitem _ _); [|done].
  cbn [mbind result_bind]. destruct (empty _); intros [= <- <- <-]; cbn; eauto.
Qed.

Lemma filter_inv ts col range st out st' :
  filter_patients ts col range st = Ok (out, st') →
  df st' = df st ∧ files st' = files st ∧
  ∃ line, log_file st' = log_file st ++ [line].
Proof.
  unfold filter_patients. destruct (min_val _ _) as [lo|]; [|done].
  destruct (max_val _ _) as [hi|]; [|done]. cbn [mbind result_bind].
  destruct (st_slider lo hi); [|done]. cbn [mbind result_bind].
  destruct (filtered_df _ _ _); [|done]. intros [= <- <-]; cbn; eauto.
Qed.

Lemma dashboard_inv plot ts st m st' :
  dashboard plot ts st = Ok (m, st') →
  df st' = df st ∧ files st' = files st ∧
  ∃ line, log_file st' = log_file st ++ [line].
Proof.
  unfold dashboard. destruct (dashboard_metrics _); [|done].
  cbn [mbind result_bind]. destruct (plot _); [|done].
  intros [= <- <-]; cbn; eauto.
Qed.

Lemma length_select {A} (mask : list bool) (xs : list A) :
  (length (select mask xs) ≤ length xs)%nat.
Proof.
  revert mask. induction xs as [|x xs IH]; intros [|b mask]; cbn; try lia.
  specialize (IH mask). destruct b; cbn; lia.
Qed.

Lemma delete_inv ts pid confirmed clicked st msg st' :
  delete_patient_data ts pid confirmed clicked st = Ok (msg, st') →
  (∃ line, log_file st' = log_file st ∨ log_file st' = log_file st ++ [line]) ∧
  ((df st' = df st ∧ files st' = files st) ∨
   (confirmed = true ∧ clicked = true ∧
    columns (df st') = columns (df st) ∧
    (length (rows (df st')) ≤ length (rows (df st)))%nat ∧
    files st' = <[DATA_FILE := to_csv (df st')]> (files st))).
Proof.
  unfold delete_patient_data. destruct clicked.
  2:{ intros [= <- <-]. split; [exists ""; by left | by left]. }
  destruct confirmed; cbn [negb].
  2:{ intros [= <- <-]. split; [exists ""; by left | by left]. }
  destruct (getitem (df st) "ID") as [ids|]; [|done]. cbn [mbind result_bind].
  destruct (isin_values pid ids); intros [= <- <-]; cbn.
  - split; [eexists; by right|]. right. split_and!; try done.
    apply length_select.
  - split; [eexists; by right | by left].
Qed.

Lemma at_set_shape d i c (v : cell) d' :
  c ∈ columns d → at_set d i c v = Ok d' →
  columns d' = columns d ∧ length (rows d') = length (rows d).
Proof.
  intros Hc. unfold at_set.
  destruct (list_find _ (columns d)) as [[j x]|] eqn:Hfind.
  - destruct (cast _ _); [|done]. intros [= <-]. cbn [columns rows].
    by rewrite length_alter.
  - apply list_find_None in Hfind. rewrite Forall_forall in Hfind.
    by destruct (Hfind c Hc).
Qed.

Lemma assign_all_shape (cvs : list (string * cell)) : ∀ d i d',
  (∀ cv, cv ∈ cvs → cv.1 ∈ columns d) →
  assign_all d i cvs = Ok d' →
  columns d' = columns d ∧ length (rows d') = length (rows d).
Proof.
  induction cvs as [|[c v] cvs IH]; intros d i d' Hcols; cbn [assign_all].
  - by intros [= <-].
  - destruct (at_set d i c v) as [d1|] eqn:Hset; [|done]. cbn [mbind result_bind].
    destruct (at_set_shape d i c v d1) as [Hc Hl];
      [apply (Hcols (c, v)), list_elem_of_here | done |].
    intros Hrun. destruct (IH d1 i d') as [Hc' Hl']; [|done|].
    { intros cv Hcv. rewrite Hc. by apply Hcols, list_elem_of_further. }
    split; congruence.
Qed.

Lemma update_record_shape d pid form d' :
  (∀ c, c ∈ updated_columns → c ∈ columns d) →
  update_record d pid form = Ok d' →
  columns d' = columns d ∧ length (rows d') = length (rows d).
Proof.
  intros Hcols. rewrite update_record_unfold.
  destruct (getitem d "ID"); [|done]. cbn [mbind result_bind].
  destruct (index_mask_0 _) as [i|]; [|done]. cbn [mbind result_bind].
  apply assign_all_shape.
  intros cv Hcv. apply Hcols.
  by apply (list_elem_of_fmap_2 fst) in Hcv.
Qed.

(** X17: A run never rewrites the log: whatever the menu entry and the widgets, the
    log after a run that ends without an exception is the log before it,
    with at most one line appended. *)
Theorem script_log_append_only plot ts w fs log page fs' log' :
  script plot ts w fs log = Ok (page, fs', log') →
  log' = log ∨ ∃ line, log' = log ++ [line].
Proof.
  unfold script. destruct (load_dataset fs) as [[d|]|]; [| |done];
    cbn [mbind result_bind]; [|intros [= _ _ <-]; by left].
  destruct (menu w).
  - destruct (dashboard _ _ _) as [[m st']|] eqn:Hrun; [|done].
    cbn [mbind result_bind]. intros [= _ _ <-].
    apply dashboard_inv in Hrun as (_ & _ & line & ->). right. by exists line.
  - destruct (search_clicked w); [|intros [= _ _ <-]; by left].
    destruct (search_patient_by_id _ _ _) as [[[m found] st']|] eqn:Hrun; [|done].
    cbn [mbind result_bind]. intros [= _ _ <-].
    apply search_inv in Hrun as (_ & _ & line & ->). right. by exists line.
  - destruct (filter_patients _ _ _ _) as [[out st']|] eqn:Hrun; [|done].
    cbn [mbind result_bind]. intros [= _ _ <-].
    apply filter_inv in Hrun as (_ & _ & line & ->). right. by exists line.
  - destruct (modify_patient_data _ _ _ _ _) as [[m st']|] eqn:Hrun; [|done].
    cbn [mbind result_bind]. intros [= _ _ <-].
    apply modify_inv in Hrun as [(-> & _)|(_ & _ & _ & _ & d' & _ & ->)];
      [by left | right; by eexists].
  - destruct (delete_patient_data _ _ _ _ _) as [[m st']|] eqn:Hrun; [|done].
    cbn [mbind result_bind]. intros [= _ _ <-].
    apply delete_inv in Hrun as [(line & [->| ->]) _]; [by left | right; by eexists].
Qed.

(** X18: A run writes nothing but the data file, and only on request: files other
    than the data file and the temporary file of the update are as they
    were, and the files differ from before only after a pressed Update or a
    confirmed, pressed Delete. *)
Theorem script_writes_on_request plot ts w fs log page fs' log' :
  script plot ts w fs log = Ok (page, fs', log') →
  (∀ path, path ≠ DATA_FILE → path ≠ TEMP_FILE → fs' !! path = fs !! path) ∧
  (fs' ≠ fs →
   (menu w = Modify_Patient_Data ∧ update_clicked w = true) ∨
   (menu w = Delete_Patient_Data ∧ confirm w = true ∧ delete_clicked w = true)).
Proof.
  unfold script. destruct (load_dataset fs) as [[d|]|]; [| |done];
    cbn [mbind result_bind]; [|by intros [= _ <- _]].
  destruct (menu w).
  - destruct (dashboard _ _ _) as [[m st']|] eqn:Hrun; [|done].
    cbn [mbind result_bind]. intros [= _ <- _].
    by apply dashboard_inv in Hrun as (_ & -> & _).
  - destruct (search_clicked w); [|by intros [= _ <- _]].
    destruct (search_patient_by_id _ _ _) as [[[m found] st']|] eqn:Hrun; [|done].
    cbn [mbind result_bind]. intros [= _ <- _].
    by apply search_inv in Hrun as (_ & -> & _).
  - destruct (filter_patients _ _ _ _) as [[out st']|] eqn:Hrun; [|done].
    cbn [mbind result_bind]. intros [= _ <- _].
    by apply filter_inv in Hrun as (_ & -> & _).
  - destruct (modify_patient_data _ _ _ _ _) as [[m st']|] eqn:Hrun; [|done].
    cbn [mbind result_bind]. intros [= _ <- _].
    apply modify_inv in Hrun as [(-> & _)|(Hclick & _ & _ & _ & d' & _ & ->)];
      [done|]. cbn [files log_action]. split; [|by left].
    intros path H1 H2. by rewrite lookup_insert_ne, lookup_delete_ne.
  - destruct (delete_patient_data _ _ _ _ _) as [[m st']|] eqn:Hrun; [|done].
    cbn [mbind result_bind]. intros [= _ <- _].
    apply delete_inv in Hrun as [_ [[_ ->]|(Hc & Hk & _ & _ & ->)]]; [done|].
    split; [|by right]. intros path H1 _. by rewrite lookup_insert_ne.
Qed.

Lemma length_data_records f : (length (data_records f) ≤ length (records f))%nat.
Proof. unfold data_records. apply length_filter. Qed.

(** X19: A run keeps the shape of the data file: for a data file whose header
    has no empty and no repeated field, when the run ends without an
    exception the data file is still there, and it is either the file the run
    found or a file with the columns of the loaded table (the file's own,
    with Breach_binary behind them if it was not among them) and no more
    records than before. *)
Theorem script_keeps_columns plot ts w fs log page fs' log' f :
  fs !! DATA_FILE = Some f →
  NoDup (header f) → "" ∉ header f →
  script plot ts w fs log = Ok (page, fs', log') →
  ∃ f',
    fs' !! DATA_FILE = Some f' ∧
    (f' = f ∨
     (header f' = (if decide ("Breach_binary" ∈ header f) then header f
                   else header f ++ ["Breach_binary"]) ∧
      (length (records f') ≤ length (records f))%nat)).
Proof.
  intros Hf _ _. unfold script.
  destruct (load_dataset fs) as [[d|]|] eqn:Hload; [| |done];
    cbn [mbind result_bind]; [|intros [= _ <- _]; eauto].
  destruct (load_shape _ _ _ Hf Hload) as (Hcols & Hlen & _).
  pose proof (length_data_records f) as Hdata.
  destruct (menu w).
  - destruct (dashboard _ _ _) as [[m st']|] eqn:Hrun; [|done].
    cbn [mbind result_bind]. intros [= _ <- _].
    apply dashboard_inv in Hrun as (_ & -> & _). eauto.
  - destruct (search_clicked w); [|intros [= _ <- _]; eauto].
    destruct (search_patient_by_id _ _ _) as [[[m found] st']|] eqn:Hrun; [|done].
    cbn [mbind result_bind]. intros [= _ <- _].
    apply search_inv in Hrun as (_ & -> & _). eauto.
  - destruct (filter_patients _ _ _ _) as [[out st']|] eqn:Hrun; [|done].
    cbn [mbind result_bind]. intros [= _ <- _].
    apply filter_inv in Hrun as (_ & -> & _). eauto.
  - destruct (modify_patient_data _ _ _ _ _) as [[m st']|] eqn:Hrun; [|done].
    cbn [mbind result_bind]. intros [= _ <- _].
    apply modify_inv in Hrun as [(-> & _)|(_ & _ & _ & Hin & d' & Hupd & ->)];
      [eauto|].
    cbn [files log_action df] in *.
    destruct (update_record_shape _ _ _ _ Hin Hupd) as [Hc Hl].
    eexists. rewrite lookup_insert_eq. split; [reflexivity|]. right.
    cbn [header records to_csv]. rewrite length_fmap, Hc, Hl, Hcols, Hlen. done.
  - destruct (delete_patient_data _ _ _ _ _) as [[m st']|] eqn:Hrun; [|done].
    cbn [mbind result_bind]. intros [= _ <- _].
    apply delete_inv in Hrun as [_ [[_ ->]|(_ & _ & Hc & Hl & ->)]]; [eauto|].
    cbn [df] in *.
    eexists. rewrite lookup_insert_eq. split; [reflexivity|]. right.
    cbn [header records to_csv]. rewrite length_fmap, Hc, Hcols.
    split; [done | lia].
Qed.

(** X4: Without a Breachornot column the script cannot start: on a well-formed
    data file that lacks it, every run raises [KeyError] at line 37, whatever
    the menu entry. *)
Theorem script_needs_breachornot plot ts w fs log f :
  fs !! DATA_FILE = Some f →
  header f ≠ [] →
  Forall (λ rec : list string, length rec = length (header f)) (records f) →
  "Breachornot" ∉ header f →
  script plot ts w fs log = Raise (KeyError "Breachornot").
Proof.
  intros Hf Hhead Hwf Hno. unfold script, load_dataset. rewrite Hf.
  rewrite (read_csv_regular f Hhead Hwf).
  cbn [mbind result_bind]. unfold getitem, get_loc. cbn [columns].
  destruct (list_find _ (header f)) as [[j x]|] eqn:Hfind; [|done].
  apply list_find_Some in Hfind as (Hj & -> & _).
  destruct Hno. by eapply list_elem_of_lookup_2.
Qed.

End script_properties.

(** ** The further properties at work on the sample tables *)


Lemma load_derives_breach_binary_witness :
  number (field sample_df "Breach_binary"
            [Str "P2"; Int 61; Int 20; Int 3; Int 1; Int 7; Str "breach"; Int 1]) =
  Some 1.
Proof.
  apply (load_derives_breach_binary sample_files sample_df
           [Str "P2"; Int 61; Int 20; Int 3; Int 1; Int 7; Str "breach"; Int 1]);
    [by vm_compute|].
  apply list_elem_of_further, list_elem_of_here.
Defined.

Lemma breach_cases_counts_breaches_witness :
  ∃ m, dashboard_metrics sample_df = Ok m ∧ breach_cases m = 2 ∧
       0 ≤ breach_cases m ≤ total_patients m.
Proof.
  destruct (dashboard_metrics sample_df) as [m|] eqn:Hrun; [|by vm_compute in Hrun].
  destruct (breach_cases_counts_breaches sample_files sample_df m) as [Hcount Hbound];
    [by vm_compute | done |].
  exists m. split; [done|]. split; [|exact Hbound].
  rewrite Hcount. by vm_compute.
Defined.

Lemma script_needs_breachornot_witness :
  script no_charts "2026-01-01 00:00:00" (sample_widgets Dashboard)
    {[ DATA_FILE := unlabelled_file ]} [] = Raise (KeyError "Breachornot").
Proof.
  apply (script_needs_breachornot _ _ _ _ _ unlabelled_file).
  - by vm_compute.
  - discriminate.
  - repeat (constructor; [reflexivity|]). constructor.
  - by_evaluation.
Defined.

Lemma numeral_ids_are_never_matched_witness :
  ∃ d, load_dataset {[ DATA_FILE := numbered_file ]} = Ok (Some d) ∧
       all_matches d "10001" = [] ∧ first_match d "10001" = None.
Proof.
  destruct (load_dataset {[ DATA_FILE := numbered_file ]}) as [[d|]|] eqn:Hload;
    [| by vm_compute in Hload ..].
  exists d. split; [done|].
  apply (numeral_ids_are_never_matched {[ DATA_FILE := numbered_file ]}
           numbered_file d 0%nat "10001");
    [by vm_compute | done | by vm_compute |].
  repeat (constructor; [by vm_compute|]). constructor.
Defined.



Lemma filter_without_numbers_witness :
  filter_patients "2026-01-01 00:00:00" "Age" (0, 100)
    {| df := no_rows_df; files := ∅; log_file := [] |} = Raise ValueError.
Proof.
  apply filter_without_numbers; [in_list | constructor].
Defined.

Lemma filter_initial_range_witness :
  ∃ out st',
    min_val sample_df "LoS" = Ok 10 ∧ max_val sample_df "LoS" = Ok 30 ∧
    filter_patients "2026-01-01 00:00:00" "LoS" (10, 30) sample_state = Ok (out, st') ∧
    rows out = rows sample_df.
Proof.
  destruct (filter_initial_range "2026-01-01 00:00:00" "LoS" sample_state 10 20
              (Int 10) (Int 20))
    as (lo & hi & out & st' & Hlo & Hhi & _ & Hrun & _ & Hall).
  - in_list.
  - repeat (constructor; [intros t; discriminate|]). constructor.
  - intros c v (r & -> & Hr)%list_elem_of_fmap Hv.
    cbn [df sample_state rows sample_df] in Hr.
    repeat (apply elem_of_cons in Hr as [->|Hr];
            [vm_compute in Hv; injection Hv as <-; by vm_compute|]).
    by apply not_elem_of_nil in Hr.
  - apply list_elem_of_here.
  - reflexivity.
  - apply list_elem_of_further, list_elem_of_here.
  - reflexivity.
  - discriminate.
  - assert (lo = 10) as -> by (vm_compute in Hlo; by injection Hlo).
    assert (hi = 30) as -> by (vm_compute in Hhi; by injection Hhi).
    exists out, st'. split_and!; [done | done | done |].
    apply Hall. repeat (constructor; [by eexists|]). constructor.
Defined.

Lemma filter_string_column_witness :
  ∃ e, filter_patients "2026-01-01 00:00:00" "Age" (0, 100)
         {| df := unknown_age_df; files := ∅; log_file := [] |} = Raise e.
Proof.
  apply (filter_string_column _ _ _ _ "unknown"); [in_list | apply list_elem_of_here].
Defined.

Lemma modify_without_effect_witness :
  ∃ msg st',
    modify_patient_data "2026-01-01 00:00:00" "P9" sample_form true sample_state
      = Ok (msg, st') ∧
    st' = sample_state ∧
    msg = Some (st_info "Enter a valid Patient ID to modify.").
Proof.
  destruct (modify_patient_data "2026-01-01 00:00:00" "P9" sample_form true
              sample_state) as [[msg st']|] eqn:Hrun; [|by vm_compute in Hrun].
  destruct (modify_without_effect _ _ _ _ _ _ _ Hrun) as [Hst Hmsg];
    [right; by vm_compute|].
  exists msg, st'. split_and!; [done | done |]. apply Hmsg. by vm_compute.
Defined.



Lemma save_then_load_refreshes_witness :
  storable stale_df = true ∧
  ∃ fs', save_safely stale_df ∅ = Ok fs' ∧
         load_dataset fs' = Ok (Some refreshed_df).
Proof.
  assert (storable stale_df = true) as Hstor by (by vm_compute).
  split; [exact Hstor|].
  destruct (save_then_load_refreshes stale_df ∅
              [Str "breach"; Str "breach"; Str "breach"] Hstor)
    as (fs' & d' & Hsave & Hload & -> & _); [by vm_compute|].
  exists fs'. split; [done|]. rewrite Hload. by vm_compute.
Defined.

Lemma delete_row_count_witness :
  ∃ msg st',
    delete_patient_data "2026-01-01 00:00:00" "P1" true true twins_state
      = Ok (msg, st') ∧
    length (rows (df st')) = 1%nat.
Proof.
  destruct (delete_row_count "2026-01-01 00:00:00" "P1" twins_state)
    as (msg & st' & Hrun & Hcount & _); [in_list|].
  exists msg, st'. split; [done|].
  change (length (all_matches (df twins_state) "P1")) with 2%nat in Hcount.
  change (length (rows (df twins_state))) with 3%nat in Hcount. lia.
Defined.

Lemma delete_twice_witness :
  ∃ msg st' st'',
    delete_patient_data "2026-01-01 00:00:00" "P2" true true sample_state
      = Ok (msg, st') ∧
    delete_patient_data "2026-01-01 00:00:05" "P2" true true st'
      = Ok (Some (st_warning "Patient ID not found."), st'') ∧
    df st'' = df st'.
Proof.
  destruct (delete_patient_data "2026-01-01 00:00:00" "P2" true true sample_state)
    as [[msg st']|] eqn:Hrun; [|by vm_compute in Hrun].
  destruct (delete_twice "2026-01-01 00:00:00" "2026-01-01 00:00:05" "P2"
              sample_state msg st') as (st'' & Hagain & Hdf & _); [in_list | done |].
  by exists msg, st', st''.
Defined.

Lemma script_log_append_only_witness :
  ∃ page fs' log',
    script no_charts "2026-01-01 00:00:00" (sample_widgets Search_Patient_by_ID)
      sample_files ["[2025-12-31 23:59:59] Viewed dashboard"] = Ok (page, fs', log') ∧
    (log' = ["[2025-12-31 23:59:59] Viewed dashboard"] ∨
     ∃ line, log' = ["[2025-12-31 23:59:59] Viewed dashboard"] ++ [line]).
Proof.
  destruct (script no_charts "2026-01-01 00:00:00"
              (sample_widgets Search_Patient_by_ID) sample_files
              ["[2025-12-31 23:59:59] Viewed dashboard"])
    as [[[page fs'] log']|] eqn:Hrun; [|by vm_compute in Hrun].
  exists page, fs', log'. split; [done|].
  exact (script_log_append_only _ _ _ _ _ _ _ _ Hrun).
Defined.

Lemma script_writes_on_request_witness :
  ∃ page fs' log',
    script no_charts "2026-01-01 00:00:00" (sample_widgets Delete_Patient_Data)
      (<["notes.txt" := unlabelled_file]> sample_files) [] = Ok (page, fs', log') ∧
    fs' !! "notes.txt" = Some unlabelled_file.
Proof.
  destruct (script no_charts "2026-01-01 00:00:00"
              (sample_widgets Delete_Patient_Data)
              (<["notes.txt" := unlabelled_file]> sample_files) [])
    as [[[page fs'] log']|] eqn:Hrun; [|by vm_compute in Hrun].
  exists page, fs', log'. split; [done|].
  destruct (script_writes_on_request _ _ _ _ _ _ _ _ Hrun) as [Hother _].
  rewrite Hother; [by vm_compute | by vm_compute..].
Defined.

Lemma script_keeps_columns_witness :
  ∃ page fs' log' f',
    script no_charts "2026-01-01 00:00:00" (sample_widgets Modify_Patient_Data)
      sample_files [] = Ok (page, fs', log') ∧
    fs' !! DATA_FILE = Some f' ∧
    (f' = sample_file ∨
     header f' = header sample_file ++ ["Breach_binary"] ∧
     (length (records f') ≤ 3)%nat).
Proof.
  destruct (script no_charts "2026-01-01 00:00:00"
              (sample_widgets Modify_Patient_Data) sample_files [])
    as [[[page fs'] log']|] eqn:Hrun; [|by vm_compute in Hrun].
  assert (sample_files !! DATA_FILE = Some sample_file) as Hf by (by vm_compute).
  destruct (script_keeps_columns _ _ _ _ _ _ _ _ sample_file Hf
              ltac:(by_evaluation) ltac:(by_evaluation) Hrun)
    as (f' & Hf' & Hshape).
  exists page, fs', log', f'. split_and!; [done | done |].
  destruct Hshape as [->|[Hh Hl]]; [by left | right].
  split; [rewrite Hh; by vm_compute | exact Hl].
Defined.
